(** * Appointment scheduling and slot availability of the Can Care front office

    A shallow embedding of the scheduling code of
    [src/Clerk/Dashboard/Dashboard.jsx] and [src/Chief/Dashboard.js]:
    the time-label normalisation, the two [availableSlots] functions, the
    clash guard of [saveAppointment], and [updateStatus] with its waitlist
    offer.

    Conventions of the embedding.
    - A JS string is the sequence of its code units; the model keeps the
      code units below 256, so a string is a [string] of the Standard
      Library.  Every literal of the program is ASCII.
    - A field of a Firestore document is [undefined] (absent), [null] or a
      string: the type [jsval].  [===] is equality of [jsval].
    - A JS object used as a table ([workSchedule], [doctorSlots]) is an
      association list over its own keys.
    - [new Date(s)] and [getDay()] follow ECMA-262 for the two shapes of
      string the program builds from a [YYYY-MM-DD] date; every other string
      is parsed by the host ([legacyParse]).  The host has a fixed offset
      from UTC ([tza], in milliseconds).
    - A call of a Firestore service, [alert] and [window.confirm] are
      recorded in a trace of effects; a service call may reject. *)

From Stdlib Require Import ZArith Lia Bool List Ascii String.
Import ListNotations.
Open Scope string_scope.
Open Scope bool_scope.

(** ** JS values of the document fields *)

Inductive jsval : Type :=
| JUndefined
| JNull
| JStr (s : string).

(** [x === y] *)
Definition strictEq (x y : jsval) : bool :=
  match x, y with
  | JUndefined, JUndefined => true
  | JNull, JNull => true
  | JStr s, JStr t => String.eqb s t
  | _, _ => false
  end.

(** ToBoolean: [undefined], [null] and the empty string are falsy. *)
Definition truthy (x : jsval) : bool :=
  match x with
  | JStr s => negb (String.eqb s "")
  | _ => false
  end.

(** [x || y] *)
Definition jsOr (x y : jsval) : jsval := if truthy x then x else y.

(** [x ?? y] *)
Definition nullish (x y : jsval) : jsval :=
  match x with
  | JStr _ => x
  | _ => y
  end.

(** ToString, as a template literal applies it. *)
Definition toString (x : jsval) : string :=
  match x with
  | JUndefined => "undefined"
  | JNull => "null"
  | JStr s => s
  end.

(** ** Time labels: [s.replace(/\s*(AM|PM)/i, '').trim()] *)

Module TimeLabel.

(** WhiteSpace and LineTerminator code units below 256: TAB, LF, VT, FF, CR,
    SP and NBSP.  Both [\s] and [trim] use this set. *)
Definition isSpace (c : ascii) : bool :=
  let n := nat_of_ascii c in
  ((9 <=? n) && (n <=? 13) || (n =? 32) || (n =? 160))%nat.

(** The two letters of [(AM|PM)] under the [i] flag. *)
Definition isMarker (a b : ascii) : bool :=
  (Ascii.eqb a "A" || Ascii.eqb a "a" || Ascii.eqb a "P" || Ascii.eqb a "p")
  && (Ascii.eqb b "M" || Ascii.eqb b "m").

(** The greedy [\s*]: the string after its leading white space. *)
Fixpoint skipSpaces (s : string) : string :=
  match s with
  | String c s' => if isSpace c then skipSpaces s' else s
  | EmptyString => EmptyString
  end.

(** The pattern matched at the start of [s]: what follows the match.  Giving
    back part of the white space cannot help, the next unit being a space. *)
Definition matchHere (s : string) : option string :=
  match skipSpaces s with
  | String a (String b rest) => if isMarker a b then Some rest else None
  | _ => None
  end.

(** [s.replace(/\s*(AM|PM)/i, '')]: no [g] flag, so the leftmost match only
    is removed. *)
Fixpoint replaceMarker (s : string) : string :=
  match matchHere s with
  | Some rest => rest
  | None =>
      match s with
      | String c s' => String c (replaceMarker s')
      | EmptyString => EmptyString
      end
  end.

Fixpoint trimEnd (s : string) : string :=
  match s with
  | EmptyString => EmptyString
  | String c s' =>
      match trimEnd s' with
      | EmptyString => if isSpace c then EmptyString else String c EmptyString
      | t => String c t
      end
  end.

(** [s.trim()] *)
Definition trim (s : string) : string := trimEnd (skipSpaces s).

(** The normalisation written six times in the two dashboards. *)
Definition normalize (s : string) : string := trim (replaceMarker s).

(** Some [AM]/[PM] pair of letters, in any case, somewhere in [s]: the
    pattern has a match in [s]. *)
Fixpoint hasMarker (s : string) : bool :=
  match s with
  | String a ((String b _) as s') => isMarker a b || hasMarker s'
  | _ => false
  end.

(** [s] ends with an [AM]/[PM] pair. *)
Fixpoint trailingMarker (s : string) : bool :=
  match s with
  | String a ((String b rest) as s') =>
      match rest with
      | EmptyString => isMarker a b
      | _ => trailingMarker s'
      end
  | _ => false
  end.

Definition startsWithSpace (s : string) : bool :=
  match s with
  | String c _ => isSpace c
  | EmptyString => false
  end.

Fixpoint endsWithSpace (s : string) : bool :=
  match s with
  | EmptyString => false
  | String c EmptyString => isSpace c
  | String _ s' => endsWithSpace s'
  end.

(** White space at either end of the label. *)
Definition surrounded (s : string) : bool := startsWithSpace s || endsWithSpace s.

End TimeLabel.

(** ** Dates: [new Date(s)], [isNaN(date.getTime())] and [date.getDay()] *)

Module JSDate.

Open Scope Z_scope.

(** The host of the page: its offset from UTC in milliseconds (LocalTZA,
    taken constant) and its parser for strings outside the ECMA-262 date-time
    format, which the standard leaves to the implementation ([None] is NaN). *)
Record Host : Type := {
  tza : Z;
  legacyParse : string -> option Z
}.

Definition msPerDay : Z := 86400000.

Definition digitOf (c : ascii) : option Z :=
  let n := Z.of_nat (nat_of_ascii c) in
  if (48 <=? n) && (n <=? 57) then Some (n - 48) else None.

(** DayFromYear of ECMA-262. *)
Definition dayFromYear (y : Z) : Z :=
  365 * (y - 1970) + (y - 1969) / 4 - (y - 1901) / 100 + (y - 1601) / 400.

Definition inLeapYear (y : Z) : bool :=
  (y mod 4 =? 0) && (negb (y mod 100 =? 0) || (y mod 400 =? 0)).

Definition monthLengths (y : Z) : list Z :=
  [31; if inLeapYear y then 29 else 28; 31; 30; 31; 30; 31; 31; 30; 31; 30; 31].

Definition daysInMonth (y m : Z) : Z := nth (Z.to_nat (m - 1)) (monthLengths y) 0.

Definition daysBeforeMonth (y m : Z) : Z :=
  fold_right Z.add 0 (firstn (Z.to_nat (m - 1)) (monthLengths y)).

(** MakeDay for a month in 1..12 and a day of that month: the day number
    since 1970-01-01. *)
Definition makeDay (y m d : Z) : Z := dayFromYear y + daysBeforeMonth y m + d - 1.

(** A prefix [YYYY-MM-DD] naming a day of the calendar: its day number and
    the rest of the string. *)
Definition isoDate (s : string) : option (Z * string) :=
  match s with
  | String y1 (String y2 (String y3 (String y4 (String h1
      (String m1 (String m2 (String h2 (String d1 (String d2 rest))))))))) =>
      match digitOf y1, digitOf y2, digitOf y3, digitOf y4,
            digitOf m1, digitOf m2, digitOf d1, digitOf d2 with
      | Some a, Some b, Some c, Some e, Some f, Some g, Some i, Some j =>
          let y := 1000 * a + 100 * b + 10 * c + e in
          let m := 10 * f + g in
          let d := 10 * i + j in
          if Ascii.eqb h1 "-" && Ascii.eqb h2 "-"
             && (1 <=? m) && (m <=? 12) && (1 <=? d) && (d <=? daysInMonth y m)
          then Some (makeDay y m d, rest)
          else None
      | _, _, _, _, _, _, _, _ => None
      end
  | _ => None
  end.

(** The time value of [new Date(s)]: a date-only form is UTC midnight, the
    form with [T00:00:00] and no offset is local midnight, and the host
    decides on every other string. *)
Definition dateParse (h : Host) (s : string) : option Z :=
  match isoDate s with
  | Some (day, rest) =>
      if String.eqb rest "" then Some (day * msPerDay)
      else if String.eqb rest "T00:00:00" then Some (day * msPerDay - tza h)
      else legacyParse h s
  | None => legacyParse h s
  end.

(** [getDay()]: WeekDay(LocalTime(t)), 0 for Sunday. *)
Definition getDay (h : Host) (t : Z) : Z := ((t + tza h) / msPerDay + 4) mod 7.

(** The weekday of a calendar day number. *)
Definition weekDay (day : Z) : Z := (day + 4) mod 7.

Close Scope Z_scope.

End JSDate.

(** ** Documents *)

Record daySchedule : Type := {
  enabled : bool;
  slots : option (list string)
}.

Module Doctor.
Record t : Type := {
  name : jsval;
  id : jsval;
  uid : jsval;
  department : jsval;
  workSchedule : option (list (string * daySchedule))
}.
End Doctor.

Module Patient.
Record t : Type := {
  name : jsval;
  id : jsval
}.
End Patient.

Module Appointment.
Record t : Type := {
  id : jsval;
  patient : jsval;
  patientName : jsval;
  patientId : jsval;
  doctor : jsval;
  doctorName : jsval;
  doctorId : jsval;
  date : jsval;
  time : jsval;
  status : jsval;
  notes : jsval
}.
End Appointment.

(** [o[k]] on a table. *)
Fixpoint prop {A : Type} (o : list (string * A)) (k : string) : option A :=
  match o with
  | [] => None
  | (k', v) :: o' => if String.eqb k' k then Some v else prop o' k
  end.

(** [doctor?.f] *)
Definition optField (f : Doctor.t -> jsval) (d : option Doctor.t) : jsval :=
  match d with
  | Some d => f d
  | None => JUndefined
  end.

(** The string held by a value known to be one. *)
Definition strOf (x : jsval) : string :=
  match x with
  | JStr s => s
  | _ => ""
  end.

(** [s.includes(p)] *)
Fixpoint includes (p s : string) : bool :=
  String.prefix p s
  || match s with
     | String _ s' => includes p s'
     | EmptyString => false
     end.

(** ** What the two dashboards share *)

Import TimeLabel.

Definition dayNames : list string :=
  ["sunday"; "monday"; "tuesday"; "wednesday"; "thursday"; "friday"; "saturday"].

Definition defaultSlots : list string :=
  ["09:00"; "09:30"; "10:00"; "10:30"; "11:00"; "11:30"; "12:00"; "12:30";
   "13:00"; "13:30"; "14:00"; "14:30"; "15:00"; "15:30"; "16:00"; "16:30";
   "17:00"].

(** [daySchedule && daySchedule.enabled && daySchedule.slots &&
    daySchedule.slots.length > 0], and the slots when it holds. *)
Definition usableSlots (ds : option daySchedule) : option (list string) :=
  match ds with
  | Some ds =>
      if enabled ds then
        match slots ds with
        | Some (s :: l) => Some (s :: l)
        | _ => None
        end
      else None
  | None => None
  end.

(** [doctors.find(d => d.name === docName)] *)
Definition findDoctor (doctors : list Doctor.t) (docName : jsval) : option Doctor.t :=
  find (fun d => strictEq (Doctor.name d) docName) doctors.

(** [dayNames[date.getDay()]] and the entry of the schedule under that key. *)
Definition dayEntry (h : JSDate.Host) (ws : list (string * daySchedule)) (t : Z)
  : option daySchedule :=
  prop ws (nth (Z.to_nat (JSDate.getDay h t)) dayNames "undefined").

(** The [aDoctor === docName || aDoctorId === doctor?.id ||
    aDoctorId === doctor?.uid] of the filters. *)
Definition matchesDoctor (doctor : option Doctor.t) (docName : jsval)
  (a : Appointment.t) : bool :=
  let aDoctor := jsOr (Appointment.doctor a) (Appointment.doctorName a) in
  let aDoctorId := Appointment.doctorId a in
  strictEq aDoctor docName
  || strictEq aDoctorId (optField Doctor.id doctor)
  || strictEq aDoctorId (optField Doctor.uid doctor).

(** [a.status !== 'cancelled' && a.status !== 'Cancelled'] *)
Definition notCancelled (a : Appointment.t) : bool :=
  negb (strictEq (Appointment.status a) (JStr "cancelled"))
  && negb (strictEq (Appointment.status a) (JStr "Cancelled")).

(** [.map(a => (a.time || '').replace(...).trim()).filter(Boolean)] *)
Definition takenTimes (l : list Appointment.t) : list string :=
  filter (fun s => negb (String.eqb s ""))
    (map (fun a => normalize (strOf (jsOr (Appointment.time a) (JStr "")))) l).

(** [normalizedBase.filter(s => !taken.includes(s))] with
    [normalizedBase = base.map(normalize)]. *)
Definition freeSlots (base taken : list string) : list string :=
  filter (fun s => negb (existsb (String.eqb s) taken)) (map normalize base).

(** ** The clerk's dashboard: [src/Clerk/Dashboard/Dashboard.jsx] *)

Module Clerk.

Definition doctorSlots : list (string * list string) :=
  [("Dr. Omar Khaled", ["09:00 AM"; "10:00 AM"; "11:00 AM"; "02:00 PM"]);
   ("Dr. Lina Yousef", ["10:00 AM"; "11:00 AM"; "01:00 PM"; "03:00 PM"])].

(** [doctorSlots[docName]] for a name that [Object.prototype] does not have
    ([StaticTable.lookup] below tells the members of the prototype apart;
    with most of them a call that gets as far as this lookup throws). *)
Definition staticSlots (docName : jsval) : option (list string) :=
  prop doctorSlots (toString docName).

(** The loop over [dayNames] of the branch without a date. *)
Fixpoint firstEnabled (ws : list (string * daySchedule)) (days : list string)
  : option (list string) :=
  match days with
  | [] => None
  | day :: rest =>
      match usableSlots (prop ws day) with
      | Some sl => Some sl
      | None => firstEnabled ws rest
      end
  end.

(** [base] after the block on [workSchedule], for a date [dateStr]. *)
Definition scheduleBase (h : JSDate.Host) (doctor : option Doctor.t) (dateStr : string)
  : list string :=
  match doctor with
  | Some d =>
      match Doctor.workSchedule d with
      | Some ws =>
          match JSDate.dateParse h dateStr with
          | Some t =>
              match usableSlots (dayEntry h ws t) with
              | Some sl => sl
              | None => []
              end
          | None => []
          end
      | None => []
      end
  | None => []
  end.

(** Fallback 1: the static list, rewritten when its first label holds [AM]
    or [PM]. *)
Definition staticBase (docName : jsval) : list string :=
  match staticSlots docName with
  | Some (s :: l) =>
      if includes "AM" s || includes "PM" s then map normalize (s :: l) else s :: l
  | _ => []
  end.

(** [base] when the filter of the appointments starts. *)
Definition baseSlots (h : JSDate.Host) (doctors : list Doctor.t)
  (docName : jsval) (dateStr : string) : list string :=
  let base := scheduleBase h (findDoctor doctors docName) dateStr in
  let base := match base with [] => staticBase docName | _ => base end in
  match base with [] => defaultSlots | _ => base end.

(** The appointments that hold a slot of the doctor on the date. *)
Definition booked (doctors : list Doctor.t) (appointments : list Appointment.t)
  (docName dateStr : jsval) : list Appointment.t :=
  filter (fun a =>
            matchesDoctor (findDoctor doctors docName) docName a
            && strictEq (Appointment.date a) dateStr
            && notCancelled a)
         appointments.

(** [availableSlots(docName, dateStr)]; [doctors] and [appointments] are the
    state of the component. *)
Definition availableSlots (h : JSDate.Host) (doctors : list Doctor.t)
  (appointments : list Appointment.t) (docName dateStr : jsval) : list string :=
  let doctor := findDoctor doctors docName in
  if negb (truthy dateStr) then
    match
      match doctor with
      | Some d =>
          match Doctor.workSchedule d with
          | Some ws => firstEnabled ws dayNames
          | None => None
          end
      | None => None
      end
    with
    | Some sl => sl
    | None =>
        match staticSlots docName with
        | Some fallback => fallback
        | None => defaultSlots
        end
    end
  else
    freeSlots (baseSlots h doctors docName (strOf dateStr))
              (takenTimes (booked doctors appointments docName dateStr)).

End Clerk.

(** ** The chief's dashboard: [availableSlots] of [AppointmentModal] in
    [src/Chief/Dashboard.js] *)

Module Chief.

(** [base] after the block on [workSchedule]; the date is read as
    [new Date(dateStr + 'T00:00:00')]. *)
Definition scheduleBase (h : JSDate.Host) (doctor : option Doctor.t) (dateStr : jsval)
  : list string :=
  match doctor with
  | Some d =>
      match Doctor.workSchedule d with
      | Some ws =>
          if truthy dateStr then
            match JSDate.dateParse h (strOf dateStr ++ "T00:00:00") with
            | Some t =>
                match usableSlots (dayEntry h ws t) with
                | Some sl => sl
                | None => []
                end
            | None => []
            end
          else []
      | None => []
      end
  | None => []
  end.

Definition baseSlots (h : JSDate.Host) (doctors : list Doctor.t)
  (docName dateStr : jsval) : list string :=
  match scheduleBase h (findDoctor doctors docName) dateStr with
  | [] => defaultSlots
  | base => base
  end.

(** The filter of the appointments; [formId] is [safeForm.id]. *)
Definition booked (doctors : list Doctor.t) (appointments : list Appointment.t)
  (formId docName dateStr : jsval) : list Appointment.t :=
  filter (fun a =>
            (if truthy formId then negb (strictEq (Appointment.id a) formId) else true)
            && matchesDoctor (findDoctor doctors docName) docName a
            && strictEq (Appointment.date a) dateStr
            && notCancelled a)
         appointments.

(** [availableSlots(docName, dateStr)] of the modal editing the form whose
    [id] is [formId]. *)
Definition availableSlots (h : JSDate.Host) (doctors : list Doctor.t)
  (appointments : list Appointment.t) (formId docName dateStr : jsval) : list string :=
  freeSlots (baseSlots h doctors docName dateStr)
            (takenTimes (booked doctors appointments formId docName dateStr)).

(** The values of the status field of the modal. *)
Definition statusOptions : list string :=
  ["scheduled"; "confirmed"; "completed"; "cancelled"].

End Chief.

(** ** Effects: services, [alert] and [window.confirm] *)

(** The object [updates] of [updateWebAppointment]: a key is absent ([None])
    or set. *)
Record updates : Type := {
  u_patientName : option jsval;
  u_patientId : option jsval;
  u_doctorId : option jsval;
  u_doctorName : option jsval;
  u_date : option jsval;
  u_time : option jsval;
  u_status : option jsval;
  u_notes : option jsval
}.

(** The argument of [createWebAppointment]. *)
Record newAppointment : Type := {
  n_patientId : jsval;
  n_patientName : jsval;
  n_doctorId : jsval;
  n_doctorName : jsval;
  n_date : jsval;
  n_time : jsval;
  n_status : jsval;
  n_notes : jsval
}.

(** The argument of [createWebWaitlistEntry]. *)
Record waitlistEntry : Type := {
  w_patient : jsval;
  w_department : jsval;
  w_preferredDate : jsval;
  w_notes : string
}.

Inductive effect : Type :=
| Alert (msg : string)
| Confirm (msg : string) (answer : bool)
| UpdateWebAppointment (id : jsval) (u : updates)
| CreateWebAppointment (n : newAppointment)
| CreateWebWaitlistEntry (w : waitlistEntry).

(** The effects that write to a collection. *)
Definition isWrite (e : effect) : bool :=
  match e with
  | UpdateWebAppointment _ _ | CreateWebAppointment _ | CreateWebWaitlistEntry _ => true
  | Alert _ | Confirm _ _ => false
  end.

Definition isWaitlistEffect (e : effect) : bool :=
  match e with
  | Confirm _ _ | CreateWebWaitlistEntry _ => true
  | _ => false
  end.

(** What the page cannot decide: whether a service call resolves, and what
    the operator answers to a [window.confirm]. *)
Record World : Type := {
  updateResolves : jsval -> updates -> bool;
  createResolves : newAppointment -> bool;
  waitlistResolves : waitlistEntry -> bool;
  operatorConfirms : string -> bool
}.

(** An [async] function: the effects it performed, and its value unless an
    awaited promise rejected. *)
Definition Async (A : Type) : Type := (list effect * option A)%type.

Definition ret {A : Type} (a : A) : Async A := ([], Some a).

Definition bind {A B : Type} (m : Async A) (k : A -> Async B) : Async B :=
  match m with
  | (tr, Some a) => let (tr', r) := k a in ((tr ++ tr')%list, r)
  | (tr, None) => (tr, None)
  end.

Notation "x <- m ;; k" := (bind m (fun x => k))
  (at level 61, m at next level, right associativity).
Notation "m ;;; k" := (bind m (fun _ => k))
  (at level 61, right associativity).

(** [await service(...)] *)
Definition await (e : effect) (resolves : bool) : Async unit :=
  ([e], if resolves then Some tt else None).

Definition alert (msg : string) : Async unit := ([Alert msg], Some tt).

Definition confirm (w : World) (msg : string) : Async bool :=
  ([Confirm msg (operatorConfirms w msg)], Some (operatorConfirms w msg)).

Definition trace {A : Type} (m : Async A) : list effect := fst m.

Module ClerkActions.

(** The predicate of [appointments.some(...)] in [saveAppointment]. *)
Definition clashes (ap a : Appointment.t) : bool :=
  negb (strictEq (Appointment.id a) (Appointment.id ap))
  && (strictEq (Appointment.doctor a) (Appointment.doctor ap)
      || strictEq (Appointment.doctorId a) (Appointment.doctorId ap)
      || strictEq (Appointment.doctorName a) (Appointment.doctor ap))
  && strictEq (Appointment.date a) (Appointment.date ap)
  && strictEq (Appointment.time a) (Appointment.time ap)
  && negb (strictEq (Appointment.status a) (JStr "Cancelled")).

(** [clash] *)
Definition clash (appointments : list Appointment.t) (ap : Appointment.t) : bool :=
  existsb (clashes ap) appointments.

Definition bookedMessage : string :=
  "This slot is already booked for the selected doctor.".

(** [doctors.find(d => d.name === ap.doctor || d.id === ap.doctorId ||
    d.uid === ap.doctorId)] *)
Definition doctorOf (doctors : list Doctor.t) (ap : Appointment.t) : option Doctor.t :=
  find (fun d => strictEq (Doctor.name d) (Appointment.doctor ap)
                 || strictEq (Doctor.id d) (Appointment.doctorId ap)
                 || strictEq (Doctor.uid d) (Appointment.doctorId ap)) doctors.

Definition patientOf (patients : list Patient.t) (ap : Appointment.t) : option Patient.t :=
  find (fun p => strictEq (Patient.name p) (Appointment.patient ap)
                 || strictEq (Patient.id p) (Appointment.patientId ap)) patients.

Definition setIf (c : bool) (v : jsval) : option jsval := if c then Some v else None.

(** The object [updates] built for an appointment that exists. *)
Definition updatesOf (doctors : list Doctor.t) (ap : Appointment.t) : updates :=
  let who := jsOr (Appointment.patient ap) (Appointment.patientName ap) in
  let doctor :=
    if truthy (jsOr (Appointment.doctor ap) (Appointment.doctorName ap))
    then doctorOf doctors ap else None in
  {| u_patientName := setIf (truthy who) who;
     u_patientId := setIf (truthy (Appointment.patientId ap)) (Appointment.patientId ap);
     u_doctorId := option_map (fun d => jsOr (Doctor.uid d) (Doctor.id d)) doctor;
     u_doctorName := option_map Doctor.name doctor;
     u_date := setIf (truthy (Appointment.date ap)) (Appointment.date ap);
     u_time := setIf (truthy (Appointment.time ap)) (Appointment.time ap);
     u_status := setIf (truthy (Appointment.status ap)) (Appointment.status ap);
     u_notes := setIf (negb (strictEq (Appointment.notes ap) JUndefined))
                      (Appointment.notes ap) |}.

(** The document built for a new appointment. *)
Definition newOf (doctors : list Doctor.t) (patients : list Patient.t)
  (ap : Appointment.t) : newAppointment :=
  let doctor := doctorOf doctors ap in
  let patient := patientOf patients ap in
  let pid := match patient with Some p => Patient.id p | None => JUndefined end in
  let pname := match patient with Some p => Patient.name p | None => JUndefined end in
  {| n_patientId := jsOr (jsOr pid (Appointment.patientId ap)) JNull;
     n_patientName := jsOr (jsOr pname (Appointment.patient ap)) (Appointment.patientName ap);
     n_doctorId := jsOr (jsOr (optField Doctor.uid doctor) (optField Doctor.id doctor))
                        (Appointment.doctorId ap);
     n_doctorName := jsOr (jsOr (optField Doctor.name doctor) (Appointment.doctor ap))
                          (Appointment.doctorName ap);
     n_date := Appointment.date ap;
     n_time := Appointment.time ap;
     n_status := jsOr (Appointment.status ap) (JStr "scheduled");
     n_notes := jsOr (Appointment.notes ap) (JStr "") |}.

(** [saveAppointment(ap)] *)
Definition saveAppointment (w : World) (doctors : list Doctor.t)
  (patients : list Patient.t) (appointments : list Appointment.t)
  (ap : Appointment.t) : Async unit :=
  if clash appointments ap then alert bookedMessage
  else if truthy (Appointment.id ap)
          && negb (String.prefix "A-" (strOf (Appointment.id ap)))
  then
    let u := updatesOf doctors ap in
    await (UpdateWebAppointment (Appointment.id ap) u)
          (updateResolves w (Appointment.id ap) u)
  else
    let n := newOf doctors patients ap in
    await (CreateWebAppointment n) (createResolves w n).

(** [getDeptByDoctorName(docName)] *)
Definition getDeptByDoctorName (doctors : list Doctor.t) (docName : jsval) : jsval :=
  nullish (optField Doctor.department (findDoctor doctors docName)) (JStr "Unknown").

Definition statusOnly (status : jsval) : updates :=
  {| u_patientName := None; u_patientId := None; u_doctorId := None;
     u_doctorName := None; u_date := None; u_time := None;
     u_status := Some status; u_notes := None |}.

(** The entry proposed for a cancelled appointment. *)
Definition waitlistOf (doctors : list Doctor.t) (ap : Appointment.t) : waitlistEntry :=
  let who := jsOr (Appointment.doctor ap) (Appointment.doctorName ap) in
  {| w_patient := jsOr (Appointment.patient ap) (Appointment.patientName ap);
     w_department := getDeptByDoctorName doctors who;
     w_preferredDate := Appointment.date ap;
     w_notes := "Cancelled " ++ toString who ++ " " ++ toString (Appointment.time ap) |}.

Definition offerMessage (doctors : list Doctor.t) (ap : Appointment.t) : string :=
  "Add " ++ toString (jsOr (Appointment.patient ap) (Appointment.patientName ap))
  ++ " to waitlist for "
  ++ toString (getDeptByDoctorName doctors
                 (jsOr (Appointment.doctor ap) (Appointment.doctorName ap)))
  ++ "?".

(** [updateStatus(id, status)] *)
Definition updateStatus (w : World) (doctors : list Doctor.t)
  (appointments : list Appointment.t) (id status : jsval) : Async unit :=
  await (UpdateWebAppointment id (statusOnly status))
        (updateResolves w id (statusOnly status)) ;;;
  if strictEq status (JStr "Cancelled") then
    match find (fun a => strictEq (Appointment.id a) id) appointments with
    | Some ap =>
        yes <- confirm w (offerMessage doctors ap) ;;
        if yes then
          let e := waitlistOf doctors ap in
          await (CreateWebWaitlistEntry e) (waitlistResolves w e)
        else ret tt
    | None => ret tt
    end
  else ret tt.

End ClerkActions.

(** ** The scenario of the specification *)

Module Scenario.

(** A host at a fixed offset from UTC, given in hours, that parses nothing
    outside the standard format. *)
Definition hostAt (hours : Z) : JSDate.Host :=
  {| JSDate.tza := (hours * 3600000)%Z; JSDate.legacyParse := fun _ => None |}.

Definition monday : daySchedule :=
  {| enabled := true; slots := Some ["09:00"; "09:30"; "10:00"] |}.

(** Doctor D, who works on Mondays. *)
Definition doctorD : Doctor.t :=
  {| Doctor.name := JStr "Dr. D"; Doctor.id := JStr "d1"; Doctor.uid := JStr "u1";
     Doctor.department := JStr "Oncology";
     Doctor.workSchedule := Some [("monday", monday)] |}.

(** 2024-01-01 was a Monday. *)
Definition thatMonday : jsval := JStr "2024-01-01".

Definition appt (id time status : jsval) : Appointment.t :=
  {| Appointment.id := id; Appointment.patient := JStr "Sara";
     Appointment.patientName := JStr "Sara"; Appointment.patientId := JStr "p1";
     Appointment.doctor := JUndefined; Appointment.doctorName := JStr "Dr. D";
     Appointment.doctorId := JStr "u1"; Appointment.date := thatMonday;
     Appointment.time := time; Appointment.status := status;
     Appointment.notes := JStr "" |}.

Definition thatAppt : Appointment.t := appt (JStr "a1") (JStr "09:30") (JStr "Scheduled").

(** A doctor whose Monday label carries two markers. *)
Definition doctorE : Doctor.t :=
  {| Doctor.name := JStr "Dr. E"; Doctor.id := JStr "d2"; Doctor.uid := JUndefined;
     Doctor.department := JUndefined;
     Doctor.workSchedule :=
       Some [("monday", {| enabled := true; slots := Some ["09:00 AM PM"] |})] |}.

(** A doctor who works on Sundays and whose Monday is disabled. *)
Definition doctorS : Doctor.t :=
  {| Doctor.name := JStr "Dr. S"; Doctor.id := JStr "d3"; Doctor.uid := JStr "u3";
     Doctor.department := JStr "Radiology";
     Doctor.workSchedule :=
       Some [("sunday", {| enabled := true; slots := Some ["08:00"] |});
             ("monday", {| enabled := false; slots := Some ["09:00"] |})] |}.

Definition anyWorld : World :=
  {| updateResolves := fun _ _ => true; createResolves := fun _ => true;
     waitlistResolves := fun _ => true; operatorConfirms := fun _ => false |}.

End Scenario.

(** ** Labels that one replacement cleans *)

(** No marker is left in [b] once its first marker is removed. *)
Definition oneMarker (b : string) : bool := negb (hasMarker (replaceMarker b)).

(** Every label of the work schedule of [d] is so. *)
Definition scheduleLabelsOk (d : Doctor.t) : bool :=
  match Doctor.workSchedule d with
  | Some ws =>
      forallb (fun e => match slots (snd e) with
                        | Some sl => forallb oneMarker sl
                        | None => true
                        end) ws
  | None => true
  end.

(** ** The conflict check in the words of the specification *)

Module Spec.

Definition lowerAscii (c : ascii) : ascii :=
  let n := nat_of_ascii c in
  if ((65 <=? n) && (n <=? 90))%nat then ascii_of_nat (n + 32) else c.

Fixpoint lower (s : string) : string :=
  match s with
  | EmptyString => EmptyString
  | String c s' => String (lowerAscii c) (lower s')
  end.

(** Cancelled, whatever the case of its letters. *)
Definition isCancelled (status : jsval) : bool :=
  match status with
  | JStr s => String.eqb (lower s) "cancelled"
  | _ => false
  end.

(** The same doctor, by the id or by a name field: the test of the clash
    guard. *)
Definition sameDoctor (ap a : Appointment.t) : bool :=
  strictEq (Appointment.doctor a) (Appointment.doctor ap)
  || strictEq (Appointment.doctorId a) (Appointment.doctorId ap)
  || strictEq (Appointment.doctorName a) (Appointment.doctor ap).

(** The normalised time of an appointment, as [availableSlots] takes it. *)
Definition normalTime (a : Appointment.t) : string :=
  normalize (strOf (jsOr (Appointment.time a) (JStr ""))).

(** Contract B of the specification: some appointment of the same doctor,
    on the same date, at the same normalised time, not cancelled, with
    another id than the appointment being saved. *)
Definition hasConflict (appointments : list Appointment.t) (ap : Appointment.t) : bool :=
  existsb (fun a =>
             sameDoctor ap a
             && strictEq (Appointment.date a) (Appointment.date ap)
             && String.eqb (normalTime a) (normalTime ap)
             && negb (isCancelled (Appointment.status a))
             && negb (strictEq (Appointment.id a) (Appointment.id ap)))
          appointments.

End Spec.

(** ** A day without slots *)

(** The entry of the schedule is missing, is not enabled, whatever its
    slots, or has no slot. *)
Definition noUsableSlots (e : option daySchedule) : Prop :=
  match e with
  | None => True
  | Some ds => enabled ds = false \/ slots ds = None \/ slots ds = Some []
  end.

(** ** Appointments that hold a slot *)

(** The appointment passes the filter of the clerk's [availableSlots] and
    has a time. *)
Definition clerkHolds (doctors : list Doctor.t) (docName dateStr : jsval)
  (a : Appointment.t) : bool :=
  matchesDoctor (findDoctor doctors docName) docName a
  && strictEq (Appointment.date a) dateStr
  && notCancelled a
  && negb (String.eqb (Spec.normalTime a) "").

(** The same for the chief's [availableSlots] and the form [formId]. *)
Definition chiefHolds (doctors : list Doctor.t) (formId docName dateStr : jsval)
  (a : Appointment.t) : bool :=
  (if truthy formId then negb (strictEq (Appointment.id a) formId) else true)
  && matchesDoctor (findDoctor doctors docName) docName a
  && strictEq (Appointment.date a) dateStr
  && notCancelled a
  && negb (String.eqb (Spec.normalTime a) "").

(** [l] without the label [t]. *)
Definition without (t : string) (l : list string) : list string :=
  filter (fun s => negb (String.eqb s t)) l.

(** ** The clerk's appointment modal: [AppointmentModal] in
    [src/Clerk/Dashboard/Dashboard.jsx] *)

Module ClerkModal.

(** [doctors.find(d => d.name === form.doctor || d.id === form.doctor ||
    d.uid === form.doctor)] *)
Definition findDoctor (doctors : list Doctor.t) (who : jsval) : option Doctor.t :=
  find (fun d => strictEq (Doctor.name d) who
                 || strictEq (Doctor.id d) who
                 || strictEq (Doctor.uid d) who) doctors.

(** [base] when the filter of the appointments starts.  The block on
    [workSchedule] is the one of the chief's [availableSlots] and the block
    on [doctorSlots] the one of the clerk's. *)
Definition baseSlots (h : JSDate.Host) (doctors : list Doctor.t)
  (form : Appointment.t) : list string :=
  let doctor := findDoctor doctors (Appointment.doctor form) in
  let base := Chief.scheduleBase h doctor (Appointment.date form) in
  let base := match base with
              | [] => Clerk.staticBase (Appointment.doctor form)
              | _ => base
              end in
  match base with [] => defaultSlots | _ => base end.

Definition booked (doctors : list Doctor.t) (appointments : list Appointment.t)
  (form : Appointment.t) : list Appointment.t :=
  filter (fun a =>
            negb (strictEq (Appointment.id a) (Appointment.id form))
            && matchesDoctor (findDoctor doctors (Appointment.doctor form))
                 (Appointment.doctor form) a
            && strictEq (Appointment.date a) (Appointment.date form)
            && notCancelled a)
         appointments.

(** The memo [slots] of the modal. *)
Definition slots (h : JSDate.Host) (doctors : list Doctor.t)
  (appointments : list Appointment.t) (form : Appointment.t) : list string :=
  if negb (truthy (Appointment.doctor form)) || negb (truthy (Appointment.date form))
  then []
  else freeSlots (baseSlots h doctors form) (takenTimes (booked doctors appointments form)).

Definition fillAllMessage : string :=
  "Please fill all fields: Patient, Doctor, Date, and Time are required.".

Definition selectTimeMessage : string := "Please select a time slot.".

(** [saveClerkAppointmentForm]; [onSave] gives the effects of the handler of
    the dashboard, which the modal does not wait for. *)
Definition saveClerkAppointmentForm (onSave : Appointment.t -> list effect)
  (form : Appointment.t) : Async unit :=
  if negb (truthy (Appointment.patient form)) || negb (truthy (Appointment.doctor form))
     || negb (truthy (Appointment.date form)) || negb (truthy (Appointment.time form))
  then alert fillAllMessage
  else if negb (truthy (Appointment.time form))
          || strictEq (Appointment.time form) (JStr "")
  then alert selectTimeMessage
  else (onSave form, Some tt).

(** The heading of the modal: true for [Edit Appointment], false for [New
    Appointment].  [String(form.id)] is [toString]. *)
Definition headingIsEdit (form : Appointment.t) : bool :=
  String.prefix "A-" (toString (Appointment.id form)).

End ClerkModal.

(** The handler [onSave] of the clerk's dashboard: [saveAppointment(ap)],
    not awaited. *)
Definition clerkOnSave (w : World) (doctors : list Doctor.t)
  (patients : list Patient.t) (appointments : list Appointment.t)
  (ap : Appointment.t) : list effect :=
  trace (ClerkActions.saveAppointment w doctors patients appointments ap).

(** ** The chief's dashboard: its actions in [src/Chief/Dashboard.js] *)

Module ChiefActions.

(** Why a service call rejects, when it does: the [message] of the error. *)
Record Failures : Type := {
  updateFails : jsval -> updates -> option string;
  createFails : newAppointment -> option string
}.

(** A call inside [try], with [alert(`Error: ${error.message}`)] in the
    [catch]. *)
Definition attempt (e : effect) (failure : option string) : Async unit :=
  match failure with
  | None => ([e], Some tt)
  | Some msg => ([e; Alert ("Error: " ++ msg)], Some tt)
  end.

(** [saveAppointment(ap)]: the two branches of the clerk's function, with
    no clash test before them. *)
Definition saveAppointment (f : Failures) (doctors : list Doctor.t)
  (patients : list Patient.t) (ap : Appointment.t) : Async unit :=
  if truthy (Appointment.id ap)
     && negb (String.prefix "A-" (strOf (Appointment.id ap)))
  then
    let u := ClerkActions.updatesOf doctors ap in
    attempt (UpdateWebAppointment (Appointment.id ap) u)
            (updateFails f (Appointment.id ap) u)
  else
    let n := ClerkActions.newOf doctors patients ap in
    attempt (CreateWebAppointment n) (createFails f n).

(** [updateStatus(id, status)] *)
Definition updateStatus (f : Failures) (id status : jsval) : Async unit :=
  attempt (UpdateWebAppointment id (ClerkActions.statusOnly status))
          (updateFails f id (ClerkActions.statusOnly status)).

(** [getDeptByDoctorName(doctorIdentifier)] *)
Definition getDeptByDoctorName (doctors : list Doctor.t) (doctorIdentifier : jsval)
  : jsval :=
  nullish (optField Doctor.department (ClerkModal.findDoctor doctors doctorIdentifier))
          (JStr "Unknown").

(** [saveChiefAppointmentForm] of the modal. *)
Definition saveChiefAppointmentForm (onSave : Appointment.t -> list effect)
  (form : Appointment.t) : Async unit :=
  if negb (truthy (Appointment.patient form)) || negb (truthy (Appointment.doctor form))
     || negb (truthy (Appointment.date form)) || negb (truthy (Appointment.time form))
  then alert "Fill all fields."
  else (onSave form, Some tt).

(** The heading of the modal: true for [Edit Appointment]. *)
Definition headingIsEdit (form : Appointment.t) : bool :=
  truthy (Appointment.id form) && String.prefix "A-" (toString (Appointment.id form)).

End ChiefActions.

(** The world in which each call resolves or rejects as [f] says. *)
Definition worldOf (f : ChiefActions.Failures) (answer : string -> bool) : World :=
  {| updateResolves := fun id u =>
       match ChiefActions.updateFails f id u with None => true | Some _ => false end;
     createResolves := fun n =>
       match ChiefActions.createFails f n with None => true | Some _ => false end;
     waitlistResolves := fun _ => true;
     operatorConfirms := answer |}.

(** A form of the modals for doctor D on the Monday of the scenario. *)
Definition formD (id time : jsval) : Appointment.t :=
  {| Appointment.id := id; Appointment.patient := JStr "Sara";
     Appointment.patientName := JUndefined; Appointment.patientId := JStr "p1";
     Appointment.doctor := JStr "Dr. D"; Appointment.doctorName := JUndefined;
     Appointment.doctorId := JStr "u1"; Appointment.date := Scenario.thatMonday;
     Appointment.time := time; Appointment.status := JStr "Scheduled";
     Appointment.notes := JUndefined |}.

(** The form has a patient, a doctor, a date and a time. *)
Definition formComplete (form : Appointment.t) : bool :=
  truthy (Appointment.patient form) && truthy (Appointment.doctor form)
  && truthy (Appointment.date form) && truthy (Appointment.time form).

(** [saveAppointment] takes the branch of [updateWebAppointment]. *)
Definition savesAsUpdate (ap : Appointment.t) : bool :=
  truthy (Appointment.id ap) && negb (String.prefix "A-" (strOf (Appointment.id ap))).

(** ** Days: [fmtDay], [parseISO], [inRange] and the timeframe *)

Module Days.

Import JSDate.
Open Scope Z_scope.

(** A [Date] object is its time value, [None] for an invalid date; an
    argument that may be [null] or [undefined] is an option of it. *)
Definition Date : Type := option Z.

(** TimeClip: the time values of a valid date. *)
Definition timeClip (t : Z) : Date :=
  if Z.abs t <=? 8640000000000000 then Some t else None.

(** YearFromTime, on the number of the day: the year [y] with
    [dayFromYear y <= day < dayFromYear (y + 1)]. *)
Definition yearOfDay (day : Z) : Z :=
  let y := 1970 + (400 * day) / 146097 in
  if day <? dayFromYear y then y - 1
  else if dayFromYear (y + 1) <=? day then y + 1
  else y.

(** The month, from [m] on, and the days left in it, for [rest] days into
    the months [lens]. *)
Fixpoint monthOf (lens : list Z) (m rest : Z) : Z * Z :=
  match lens with
  | [] => (m, rest)
  | len :: lens' => if rest <? len then (m, rest) else monthOf lens' (m + 1) (rest - len)
  end.

(** Year, month (1 to 12) and day of the month of a day number. *)
Definition civil (day : Z) : Z * Z * Z :=
  let y := yearOfDay day in
  let (m, r) := monthOf (monthLengths y) 1 (day - dayFromYear y) in
  (y, m, r + 1).

Definition digitChar (k : Z) : ascii := ascii_of_nat (48 + Z.to_nat k).

Definition pad2 (n : Z) : string :=
  String (digitChar (n / 10 mod 10)) (String (digitChar (n mod 10)) "").

Definition pad4 (n : Z) : string :=
  String (digitChar (n / 1000 mod 10))
    (String (digitChar (n / 100 mod 10)) (pad2 n)).

Definition pad6 (n : Z) : string :=
  String (digitChar (n / 100000 mod 10))
    (String (digitChar (n / 10000 mod 10)) (pad4 n)).

(** The year of [toISOString]: four digits from 0 to 9999, a sign and six
    digits otherwise. *)
Definition yearString (y : Z) : string :=
  if (0 <=? y) && (y <=? 9999) then pad4 y
  else String (if y <? 0 then "-"%char else "+"%char) (pad6 (Z.abs y)).

(** [d.toISOString().split("T")[0]] for a valid date: the UTC day of the
    time value, as [YYYY-MM-DD]. *)
Definition isoDay (t : Z) : string :=
  let '(y, m, d) := civil (t / msPerDay) in
  (yearString y ++ "-" ++ pad2 m ++ "-" ++ pad2 d)%string.

(** [fmtDay(d)] of the clerk's dashboard: [undefined] for no date, and for an
    invalid date, whose [toISOString] throws into the [catch]. *)
Definition fmtDay (d : option Date) : jsval :=
  match d with
  | Some (Some t) => JStr (isoDay t)
  | _ => JUndefined
  end.

(** [fmtDay(d)] of the chief's dashboard, [d?.toISOString().split("T")[0]]:
    nothing catches the error of an invalid date ([None]). *)
Definition fmtDayChief (d : option Date) : option jsval :=
  match d with
  | Some (Some t) => Some (JStr (isoDay t))
  | Some None => None
  | None => Some JUndefined
  end.

(** The fields of a string [YYYY-MM-DD] that names a day of the calendar. *)
Definition isoFields (s : string) : option (Z * Z * Z * string) :=
  match s with
  | String y1 (String y2 (String y3 (String y4 (String h1
      (String m1 (String m2 (String h2 (String d1 (String d2 rest))))))))) =>
      match digitOf y1, digitOf y2, digitOf y3, digitOf y4,
            digitOf m1, digitOf m2, digitOf d1, digitOf d2 with
      | Some a, Some b, Some c, Some e, Some f, Some g, Some i, Some j =>
          let y := 1000 * a + 100 * b + 10 * c + e in
          let m := 10 * f + g in
          let d := 10 * i + j in
          if Ascii.eqb h1 "-" && Ascii.eqb h2 "-"
             && (1 <=? m) && (m <=? 12) && (1 <=? d) && (d <=? daysInMonth y m)
          then Some (y, m, d, rest)
          else None
      | _, _, _, _, _, _, _, _ => None
      end
  | _ => None
  end.

(** [new Date(y, m - 1, d)] for a month from 1 to 12: local midnight; a year
    from 0 to 99 is a year of the twentieth century. *)
Definition newDate (h : Host) (y m d : Z) : Date :=
  let yr := if (0 <=? y) && (y <=? 99) then 1900 + y else y in
  timeClip (makeDay yr m d * msPerDay - tza h).

(** [parseISO(s)].  A string [YYYY-MM-DD] of the calendar splits into its
    three numbers; [other] stands for [split] and [Number] on every other
    string ([None] is [null]). *)
Definition parseISO (h : Host) (other : string -> option Date) (s : jsval)
  : option Date :=
  match s with
  | JStr str =>
      if String.eqb str "" then None
      else match isoFields str with
           | Some (y, m, d, EmptyString) => Some (newDate h y m d)
           | _ => other str
           end
  | _ => None
  end.

(** [a >= b] and [a <= b] on two dates: false when one is invalid. *)
Definition dateGe (a b : Date) : bool :=
  match a, b with
  | Some x, Some y => y <=? x
  | _, _ => false
  end.

Definition dateLe (a b : Date) : bool := dateGe b a.

(** [inRange(dateStr, start, end)] *)
Definition inRange (h : Host) (other : string -> option Date) (dateStr : jsval)
  (start stop : option Date) : bool :=
  if negb (truthy dateStr) then false
  else match parseISO h other dateStr with
       | None => false
       | Some d =>
           match start with None => true | Some s => dateGe d s end
           && match stop with None => true | Some e => dateLe d e end
       end.

(** The local day number of a time value: what [getFullYear], [getMonth]
    and [getDate] describe. *)
Definition localDay (h : Host) (t : Z) : Z := (t + tza h) / msPerDay.

(** [todayStart]: [new Date(now.getFullYear(), now.getMonth(),
    now.getDate())]. *)
Definition todayStart (h : Host) (now : Z) : Date :=
  let '(y, m, d) := civil (localDay h now) in newDate h y m d.

(** [new Date(d.getTime() + ms)] *)
Definition shifted (d : Date) (ms : Z) : Date :=
  match d with
  | Some t => timeClip (t + ms)
  | None => None
  end.

(** [rangeStart] and [rangeEnd] for a timeframe. *)
Definition range (h : Host) (other : string -> option Date)
  (timeframe : string) (customStart customEnd : jsval) (now : Z)
  : option Date * option Date :=
  let start := todayStart h now in
  let stop := Some (shifted start 86399999) in
  if String.eqb timeframe "today" then (Some start, stop)
  else if String.eqb timeframe "7d" then (Some (shifted start (- (6 * 86400000))), stop)
  else if String.eqb timeframe "30d" then (Some (shifted start (- (29 * 86400000))), stop)
  else if String.eqb timeframe "custom" then
    (if truthy customStart then parseISO h other customStart else None,
     if truthy customEnd then parseISO h other customEnd else None)
  else (None, None).

(** The callback of the memo [apptsInTimeframe], run in a render whose
    [currentDate] is [now]; [Timeframe] below has the memo itself. *)
Definition apptsInTimeframe (h : Host) (other : string -> option Date)
  (appointments : list Appointment.t) (timeframe : string)
  (customStart customEnd : jsval) (now : Z) : list Appointment.t :=
  if String.eqb timeframe "all" then appointments
  else let (start, stop) := range h other timeframe customStart customEnd now in
       filter (fun a => inRange h other (Appointment.date a) start stop) appointments.

Close Scope Z_scope.

End Days.

(** ** The daily statistics: [dailyStats] of the two dashboards *)

Module DailyStats.

(** [a.status === 'x' || a.status === 'X'] *)
Definition hasStatus (lower upper : string) (a : Appointment.t) : bool :=
  strictEq (Appointment.status a) (JStr lower)
  || strictEq (Appointment.status a) (JStr upper).

(** [todayAppointments]; [today] is [fmtDay(currentDate)]. *)
Definition todayAppointments (appointments : list Appointment.t) (today : jsval)
  : list Appointment.t :=
  filter (fun a => strictEq (Appointment.date a) today) appointments.

Definition todayScheduled (appointments : list Appointment.t) (today : jsval) : nat :=
  List.length (filter (hasStatus "scheduled" "Scheduled")
                 (todayAppointments appointments today)).

Definition todayCompleted (appointments : list Appointment.t) (today : jsval) : nat :=
  List.length (filter (hasStatus "completed" "Completed")
                 (todayAppointments appointments today)).

Definition todayCancelled (appointments : list Appointment.t) (today : jsval) : nat :=
  List.length (filter (hasStatus "cancelled" "Cancelled")
                 (todayAppointments appointments today)).

(** The appointments of today that [activeDoctorsToday] gives to a doctor. *)
Definition doctorAppointments (d : Doctor.t) (todays : list Appointment.t)
  : list Appointment.t :=
  filter (fun a =>
            strictEq (Appointment.doctorId a) (Doctor.uid d)
            || strictEq (Appointment.doctorId a) (Doctor.id d)
            || strictEq (Appointment.doctorName a) (Doctor.name d)
            || strictEq (Appointment.doctor a) (Doctor.name d))
         todays.

Definition activeDoctorsToday (doctors : list Doctor.t)
  (appointments : list Appointment.t) (today : jsval) : nat :=
  List.length (filter (fun d =>
                         Nat.ltb 0 (List.length
                                      (doctorAppointments d
                                         (todayAppointments appointments today))))
                 doctors).

End DailyStats.

(** [todayStr !== previousDayStr], the test of the effect that refreshes the
    daily statistics when [currentDate] changes. *)
Definition newDayDetected (currentDate : Days.Date) : bool :=
  negb (strictEq (Days.fmtDay (Some currentDate))
          (Days.fmtDay (Some (Days.shifted currentDate (- 86400000))))).

(** A bound of the range in the chief's header: a dash, or what [fmtDay]
    returns. *)
Inductive label : Type :=
| Dash
| Day (s : jsval).

(** [rangeStart ? fmtDay(rangeStart) : dash]; [fmtDay] throws on an invalid
    date ([None]). *)
Definition rangeLabel (bound : option Days.Date) : option label :=
  match bound with
  | Some d => option_map Day (Days.fmtDayChief (Some d))
  | None => Some Dash
  end.

(** ** The appointment service: [src/services/authService.js] *)

Module Service.

(** A document of [web_appointments]: its id and the fields the service reads
    or writes ([createdAt], [createdBy] and the like are left out).
    [JUndefined] stands for a field the document does not have. *)
Record doc : Type := {
  d_id : string;
  d_patientId : jsval;
  d_patientName : jsval;
  d_doctorId : jsval;
  d_doctorName : jsval;
  d_date : jsval;
  d_time : jsval;
  d_status : jsval;
  d_notes : jsval
}.

(** What a call rejects with: the two errors the service throws itself, the
    [TypeError] of a property read on [undefined], and the errors of the
    Firestore SDK. *)
Inductive error : Type :=
| Booked
| TimeRequired
| TypeError
| InvalidArgument
| NotFound
| Unavailable (message : string).

Inductive result (A : Type) : Type :=
| Ok (a : A)
| Throw (e : error).

Arguments Ok {A} a.
Arguments Throw {A} e.

(** Whether the calls that reach the server reject, and with what. *)
Record Backend : Type := {
  getDocsFails : option string;
  getDocFails : option string;
  addDocFails : option string;
  updateDocFails : option string
}.

(** The four [where] clauses of [checkAppointmentConflict] on a document. *)
Definition scheduledAt (doctorId date time : jsval) (d : doc) : bool :=
  strictEq (d_doctorId d) doctorId
  && strictEq (d_date d) date
  && strictEq (d_time d) time
  && strictEq (d_status d) (JStr "scheduled").

(** [checkAppointmentConflict(doctorId, date, time, excludeId)]; [where]
    refuses [undefined] as a value. *)
Definition checkAppointmentConflict (b : Backend) (store : list doc)
  (doctorId date time excludeId : jsval) : result bool :=
  if strictEq doctorId JUndefined || strictEq date JUndefined
     || strictEq time JUndefined
  then Throw InvalidArgument
  else match getDocsFails b with
       | Some msg => Throw (Unavailable msg)
       | None =>
           let docs := filter (scheduledAt doctorId date time) store in
           Ok (if truthy excludeId
               then existsb (fun d => negb (strictEq (JStr (d_id d)) excludeId)) docs
               else match docs with [] => false | _ :: _ => true end)
       end.

(** The document that [createWebAppointment] adds. *)
Definition docOf (newId : string) (n : newAppointment) : doc :=
  {| d_id := newId;
     d_patientId := jsOr (n_patientId n) JNull;
     d_patientName := jsOr (n_patientName n) (JStr "");
     d_doctorId := jsOr (n_doctorId n) JNull;
     d_doctorName := jsOr (n_doctorName n) (JStr "");
     d_date := jsOr (n_date n) (JStr "");
     d_time := JStr (trim (strOf (n_time n)));
     d_status := jsOr (n_status n) (JStr "scheduled");
     d_notes := jsOr (n_notes n) (JStr "") |}.

(** [createWebAppointment(appointmentData)]: the id of the new document and
    the collection after the call; [newId] is the id that [addDoc] draws. *)
Definition createWebAppointment (b : Backend) (store : list doc) (newId : string)
  (n : newAppointment) : result (string * list doc) :=
  match checkAppointmentConflict b store (n_doctorId n) (n_date n) (n_time n) JNull with
  | Throw e => Throw e
  | Ok true => Throw Booked
  | Ok false =>
      if negb (truthy (n_time n)) || String.eqb (trim (strOf (n_time n))) ""
      then Throw TimeRequired
      else match addDocFails b with
           | Some msg => Throw (Unavailable msg)
           | None => Ok (newId, (store ++ [docOf newId n])%list)
           end
  end.

(** [doc(db, 'web_appointments', appointmentId)]: a reference needs an id
    that is a string and is not empty. *)
Definition docRef (appointmentId : jsval) : result string :=
  match appointmentId with
  | JStr (String c s) => Ok (String c s)
  | _ => Throw InvalidArgument
  end.

(** [updates.f] *)
Definition given (x : option jsval) : jsval :=
  match x with
  | Some v => v
  | None => JUndefined
  end.

(** [updates.f || currentData.f]; [currentData] is [undefined] for a
    document that does not exist. *)
Definition orCurrent (x : jsval) (currentData : option doc) (f : doc -> jsval)
  : result jsval :=
  if truthy x then Ok x
  else match currentData with
       | Some d => Ok (f d)
       | None => Throw TypeError
       end.

(** The test before the write in [updateWebAppointment]. *)
Definition updateCheck (b : Backend) (store : list doc) (appointmentId : jsval)
  (u : updates) : result unit :=
  if truthy (given (u_doctorId u)) || truthy (given (u_date u))
     || truthy (given (u_time u))
  then
    match docRef appointmentId with
    | Throw e => Throw e
    | Ok id =>
        match getDocFails b with
        | Some msg => Throw (Unavailable msg)
        | None =>
            let currentData := find (fun d => String.eqb (d_id d) id) store in
            match orCurrent (given (u_doctorId u)) currentData d_doctorId with
            | Throw e => Throw e
            | Ok doctorId =>
                match orCurrent (given (u_date u)) currentData d_date with
                | Throw e => Throw e
                | Ok date =>
                    match orCurrent (given (u_time u)) currentData d_time with
                    | Throw e => Throw e
                    | Ok time =>
                        match checkAppointmentConflict b store doctorId date time
                                appointmentId with
                        | Throw e => Throw e
                        | Ok true => Throw Booked
                        | Ok false => Ok tt
                        end
                    end
                end
            end
        end
    end
  else Ok tt.

(** [cleanUpdates]: the time trimmed when there is one. *)
Definition cleanUpdates (u : updates) : updates :=
  {| u_patientName := u_patientName u;
     u_patientId := u_patientId u;
     u_doctorId := u_doctorId u;
     u_doctorName := u_doctorName u;
     u_date := u_date u;
     u_time := if truthy (given (u_time u))
               then Some (JStr (trim (strOf (given (u_time u)))))
               else u_time u;
     u_status := u_status u;
     u_notes := u_notes u |}.

Definition setField (x : option jsval) (old : jsval) : jsval :=
  match x with
  | Some v => v
  | None => old
  end.

(** The document after [updateDoc]. *)
Definition written (u : updates) (d : doc) : doc :=
  {| d_id := d_id d;
     d_patientId := setField (u_patientId u) (d_patientId d);
     d_patientName := setField (u_patientName u) (d_patientName d);
     d_doctorId := setField (u_doctorId u) (d_doctorId d);
     d_doctorName := setField (u_doctorName u) (d_doctorName d);
     d_date := setField (u_date u) (d_date d);
     d_time := setField (u_time u) (d_time d);
     d_status := setField (u_status u) (d_status d);
     d_notes := setField (u_notes u) (d_notes d) |}.

(** Some key of the object holds [undefined], which [updateDoc] refuses. *)
Definition holdsUndefined (u : updates) : bool :=
  existsb (fun x => match x with Some JUndefined => true | _ => false end)
    [u_patientName u; u_patientId u; u_doctorId u; u_doctorName u; u_date u;
     u_time u; u_status u; u_notes u].

(** [updateWebAppointment(appointmentId, updates)]: the collection after the
    call. *)
Definition updateWebAppointment (b : Backend) (store : list doc)
  (appointmentId : jsval) (u : updates) : result (list doc) :=
  match updateCheck b store appointmentId u with
  | Throw e => Throw e
  | Ok _ =>
      match docRef appointmentId with
      | Throw e => Throw e
      | Ok id =>
          if holdsUndefined (cleanUpdates u) then Throw InvalidArgument
          else match updateDocFails b with
               | Some msg => Throw (Unavailable msg)
               | None =>
                   if existsb (fun d => String.eqb (d_id d) id) store
                   then Ok (map (fun d => if String.eqb (d_id d) id
                                          then written (cleanUpdates u) d else d)
                              store)
                   else Throw NotFound
               end
      end
  end.

(** The appointment that [subscribeToWebAppointments] hands to the
    dashboards for a document. *)
Definition appointmentOf (d : doc) : Appointment.t :=
  {| Appointment.id := JStr (d_id d);
     Appointment.patient := JUndefined;
     Appointment.patientName := d_patientName d;
     Appointment.patientId := d_patientId d;
     Appointment.doctor := JUndefined;
     Appointment.doctorName := d_doctorName d;
     Appointment.doctorId := d_doctorId d;
     Appointment.date := d_date d;
     Appointment.time := d_time d;
     Appointment.status := d_status d;
     Appointment.notes := d_notes d |}.

(** Every call that reaches the server resolves. *)
Definition online : Backend :=
  {| getDocsFails := None; getDocFails := None; addDocFails := None;
     updateDocFails := None |}.

End Service.

(** ** The table [doctorSlots] as a plain object *)

Module StaticTable.

(** The members of [Object.prototype], which a plain object inherits, each
    with its [length]: the number of parameters of a function, and nothing
    for [__proto__], which gives the prototype itself. *)
Definition objectPrototype : list (string * option nat) :=
  [("constructor", Some 1); ("__defineGetter__", Some 2);
   ("__defineSetter__", Some 2); ("hasOwnProperty", Some 1);
   ("__lookupGetter__", Some 1); ("__lookupSetter__", Some 1);
   ("isPrototypeOf", Some 1); ("propertyIsEnumerable", Some 1);
   ("toString", Some 0); ("valueOf", Some 0); ("toLocaleString", Some 0);
   ("__proto__", None)].

(** What [doctorSlots[docName]] is: a list of the table, a member of the
    prototype, or [undefined]. *)
Inductive member : Type :=
| Listed (l : list string)
| Inherited (length : option nat)
| Missing.

Definition lookup (docName : jsval) : member :=
  match prop Clerk.doctorSlots (toString docName) with
  | Some l => Listed l
  | None =>
      match prop objectPrototype (toString docName) with
      | Some n => Inherited n
      | None => Missing
      end
  end.

End StaticTable.

(** ** The utilisation table of the clerk's dashboard *)

Module Utilization.

(** [next7Days]: [fmtDay] of today and of the six days after it.  [setDate]
    moves the local date, by whole days on a host at a fixed offset. *)
Definition next7Days (now : Z) : list jsval :=
  map (fun i => Days.fmtDay (Some (Days.timeClip (now + i * JSDate.msPerDay)%Z)))
    [0; 1; 2; 3; 4; 5; 6]%Z.

Record cell : Type := {
  day : jsval;
  filled : nat;
  total : nat;
  pct : Z
}.

(** [Math.round((filled / total) * 100)]: the nearest integer, the upper one
    of two.  The quotient and the product are exact in floating point for the
    totals that occur, 1, 2 and 4. *)
Definition percent (filled total : nat) : Z :=
  ((200 * Z.of_nat filled + Z.of_nat total) / (2 * Z.of_nat total))%Z.

(** [(doctorSlots[doc.name] ?? []).length]; the [undefined] of a member
    without a [length] is 0 here, falsy like it in [slotsPerDay || 1], which
    is all the code does with it. *)
Definition slotsPerDay (doc : Doctor.t) : nat :=
  match StaticTable.lookup (Doctor.name doc) with
  | StaticTable.Listed l => List.length l
  | StaticTable.Inherited (Some n) => n
  | StaticTable.Inherited None => 0
  | StaticTable.Missing => 0
  end.

Definition cellOf (appointments : list Appointment.t) (doc : Doctor.t) (d : jsval)
  : cell :=
  let filled :=
    List.length (filter (fun a => strictEq (Appointment.doctor a) (Doctor.name doc)
                                  && strictEq (Appointment.date a) d)
                   appointments) in
  let total := if Nat.eqb (slotsPerDay doc) 0 then 1 else slotsPerDay doc in
  {| day := d; filled := filled; total := total; pct := percent filled total |}.

(** [utilizationRows]: for each doctor the name, the department and the
    seven cells; [now] is the clock of the render in which the memo ran. *)
Definition utilizationRows (doctors : list Doctor.t)
  (appointments : list Appointment.t) (now : Z) : list (jsval * jsval * list cell) :=
  map (fun doc => (Doctor.name doc, Doctor.department doc,
                   map (cellOf appointments doc) (next7Days now)))
    doctors.

End Utilization.

(** ** The memo of [apptsInTimeframe] *)

Module Timeframe.

(** What a render of the dashboard gives to the hook: the array of the state
    [appointments], with its identity, the timeframe and the two bounds,
    which are the dependencies of the memo, and the time value of
    [currentDate], which is not one. *)
Record render : Type := {
  arrayId : nat;
  appointments : list Appointment.t;
  timeframe : string;
  customStart : jsval;
  customEnd : jsval;
  now : Z
}.

(** [Object.is] on each dependency: an array is the same as itself only, a
    string as every equal string. *)
Definition sameDeps (r r' : render) : bool :=
  Nat.eqb (arrayId r) (arrayId r')
  && String.eqb (timeframe r) (timeframe r')
  && strictEq (customStart r) (customStart r')
  && strictEq (customEnd r) (customEnd r').

(** The cell of the hook: the render in which the callback ran last, and
    what it returned. *)
Record cell : Type := {
  computedAt : render;
  value : list Appointment.t
}.

Definition compute (h : JSDate.Host) (other : string -> option Days.Date)
  (r : render) : cell :=
  {| computedAt := r;
     value := Days.apptsInTimeframe h other (appointments r) (timeframe r)
                (customStart r) (customEnd r) (now r) |}.

(** [useMemo(callback, [appointments, timeframe, customStart, customEnd])] in
    one render: the callback runs in the first render, and in a render one
    of whose dependencies is not what it was. *)
Definition useMemo (h : JSDate.Host) (other : string -> option Days.Date)
  (prev : option cell) (r : render) : cell :=
  match prev with
  | Some c => if sameDeps (computedAt c) r then c else compute h other r
  | None => compute h other r
  end.

(** The cell after the renders [rs], the first one first. *)
Definition after (h : JSDate.Host) (other : string -> option Days.Date)
  (rs : list render) : option cell :=
  fold_left (fun c r => Some (useMemo h other c r)) rs None.

End Timeframe.

(** ** More of the scenario *)

(** A doctor without a [uid], who works on Mondays like doctor D. *)
Definition doctorF : Doctor.t :=
  {| Doctor.name := JStr "Dr. F"; Doctor.id := JStr "d6"; Doctor.uid := JUndefined;
     Doctor.department := JStr "Oncology";
     Doctor.workSchedule := Some [("monday", Scenario.monday)] |}.

(** An appointment of the local data of the page: it names doctor D and has
    no [doctorId]. *)
Definition localAppt : Appointment.t :=
  {| Appointment.id := JStr "A-7"; Appointment.patient := JStr "Sara";
     Appointment.patientName := JUndefined; Appointment.patientId := JUndefined;
     Appointment.doctor := JStr "Dr. D"; Appointment.doctorName := JUndefined;
     Appointment.doctorId := JUndefined; Appointment.date := Scenario.thatMonday;
     Appointment.time := JStr "09:00"; Appointment.status := JStr "Scheduled";
     Appointment.notes := JUndefined |}.

(** Doctor D as [createDoctor] stores a doctor whose department was left
    empty in the form. *)
Definition doctorWithoutDepartment : Doctor.t :=
  {| Doctor.name := JStr "Dr. D"; Doctor.id := JStr "d1"; Doctor.uid := JStr "u1";
     Doctor.department := JStr ""; Doctor.workSchedule := None |}.

(** Every call resolves and the operator says yes. *)
Definition yesWorld : World :=
  {| updateResolves := fun _ _ => true; createResolves := fun _ => true;
     waitlistResolves := fun _ => true; operatorConfirms := fun _ => true |}.

(** A render of the dashboard over one appointment of doctor D, with the
    bounds of the custom range empty. *)
Definition renderAt (tf : string) (now : Z) : Timeframe.render :=
  {| Timeframe.arrayId := 0;
     Timeframe.appointments := [formD (JStr "a1") (JStr "09:00")];
     Timeframe.timeframe := tf;
     Timeframe.customStart := JStr ""; Timeframe.customEnd := JStr "";
     Timeframe.now := now |}.

(** * Properties *)

(** ** The model on some inputs *)

Example normalize_examples :
  normalize "09:00 AM" = "09:00" /\ normalize "02:00 pm" = "02:00"
  /\ normalize "  10:30  " = "10:30" /\ normalize "10:30" = "10:30"
  /\ normalize "AM 09:00" = "09:00" /\ normalize "" = "".
Proof. repeat split. Qed.

Example date_examples :
  JSDate.isoDate "2024-01-01" = Some (19723%Z, "")
  /\ JSDate.isoDate "1970-01-01" = Some (0%Z, "")
  /\ JSDate.isoDate "2023-02-29" = None
  /\ JSDate.isoDate "01/01/2024" = None
  /\ JSDate.weekDay 0 = 4%Z /\ JSDate.weekDay 19723 = 1%Z.
Proof. repeat split. Qed.

Example static_fallback_examples :
  Clerk.availableSlots (Scenario.hostAt 3) [] [] (JStr "Dr. Omar Khaled")
    Scenario.thatMonday = ["09:00"; "10:00"; "11:00"; "02:00"]
  /\ Clerk.staticSlots (JStr "Dr. D") = None.
Proof. repeat split. Qed.

(** ** Strict equality *)

Lemma strictEq_spec (x y : jsval) : reflect (x = y) (strictEq x y).
Proof.
  destruct x as [| |s], y as [| |t]; simpl; try (constructor; congruence).
  destruct (String.eqb_spec s t); constructor; congruence.
Qed.

Lemma strictEq_refl (x : jsval) : strictEq x x = true.
Proof. destruct (strictEq_spec x x); congruence. Qed.

(** ** Facts about the normalisation *)

Lemma isMarker_not_space_l (a b : ascii) : isMarker a b = true -> isSpace a = false.
Proof.
  unfold isMarker. intros H. apply andb_prop in H as [H _].
  repeat (apply orb_prop in H as [H|H]); apply Ascii.eqb_eq in H; subst; reflexivity.
Qed.

Lemma isMarker_not_space_r (a b : ascii) : isMarker a b = true -> isSpace b = false.
Proof.
  unfold isMarker. intros H. apply andb_prop in H as [_ H].
  apply orb_prop in H as [H|H]; apply Ascii.eqb_eq in H; subst; reflexivity.
Qed.

Lemma isSpace_not_marker_l (a b : ascii) : isSpace a = true -> isMarker a b = false.
Proof.
  intros H. destruct (isMarker a b) eqn:E; [|reflexivity].
  apply isMarker_not_space_l in E. congruence.
Qed.

Lemma isSpace_not_marker_r (a b : ascii) : isSpace b = true -> isMarker a b = false.
Proof.
  intros H. destruct (isMarker a b) eqn:E; [|reflexivity].
  apply isMarker_not_space_r in E. congruence.
Qed.

Lemma skipSpaces_length (s : string) : length (skipSpaces s) <= length s.
Proof.
  induction s as [|c s IH]; simpl; [lia|].
  destruct (isSpace c); simpl; lia.
Qed.

Lemma trimEnd_length (s : string) : length (trimEnd s) <= length s.
Proof.
  induction s as [|c s IH]; simpl; [lia|].
  destruct (trimEnd s); [destruct (isSpace c)|]; simpl in *; lia.
Qed.

Lemma trim_length (s : string) : length (trim s) <= length s.
Proof.
  unfold trim. pose proof (trimEnd_length (skipSpaces s)).
  pose proof (skipSpaces_length s). lia.
Qed.

Lemma matchHere_length (s r : string) :
  matchHere s = Some r -> length r + 2 <= length s.
Proof.
  unfold matchHere. intros H. pose proof (skipSpaces_length s) as L.
  destruct (skipSpaces s) as [|a [|b rest]]; try discriminate.
  destruct (isMarker a b); [|discriminate].
  injection H as <-. simpl in L. lia.
Qed.

Lemma hasMarker_skipSpaces (s : string) : hasMarker (skipSpaces s) = hasMarker s.
Proof.
  induction s as [|c s IH]; [reflexivity|].
  cbn [skipSpaces]. destruct (isSpace c) eqn:E; [|reflexivity].
  rewrite IH. destruct s as [|b s]; [reflexivity|].
  cbn [hasMarker]. now rewrite (isSpace_not_marker_l c b E).
Qed.

Lemma matchHere_hasMarker (s r : string) : matchHere s = Some r -> hasMarker s = true.
Proof.
  unfold matchHere. intros H. rewrite <- hasMarker_skipSpaces.
  destruct (skipSpaces s) as [|a [|b rest]]; try discriminate.
  destruct (isMarker a b) eqn:E; [|discriminate].
  cbn [hasMarker]. now rewrite E.
Qed.

Lemma matchHere_head (a b : ascii) (s : string) :
  isMarker a b = true -> matchHere (String a (String b s)) = Some s.
Proof.
  intros H. unfold matchHere. cbn [skipSpaces].
  rewrite (isMarker_not_space_l a b H). now rewrite H.
Qed.

(** Without a marker the replacement finds no match and changes nothing. *)
Lemma replaceMarker_id (s : string) : hasMarker s = false -> replaceMarker s = s.
Proof.
  induction s as [|c s IH]; intros H; [reflexivity|].
  cbn [replaceMarker].
  destruct (matchHere (String c s)) as [r|] eqn:E.
  - apply matchHere_hasMarker in E. congruence.
  - f_equal. apply IH. destruct s as [|b s]; [reflexivity|].
    cbn [hasMarker] in H. now apply orb_false_elim in H as [_ H].
Qed.

(** With a marker the replacement removes at least its two letters. *)
Lemma replaceMarker_shorter (s : string) :
  hasMarker s = true -> length (replaceMarker s) < length s.
Proof.
  induction s as [|c s IH]; intros H; [discriminate|].
  cbn [replaceMarker].
  destruct (matchHere (String c s)) as [r|] eqn:E.
  - apply matchHere_length in E. lia.
  - destruct s as [|b s]; [discriminate|].
    cbn [hasMarker] in H. destruct (isMarker c b) eqn:M.
    + rewrite (matchHere_head c b s M) in E. discriminate.
    + simpl in H. specialize (IH H). simpl in *. lia.
Qed.

Lemma startsWithSpace_skipSpaces (s : string) : startsWithSpace (skipSpaces s) = false.
Proof.
  induction s as [|c s IH]; [reflexivity|].
  cbn [skipSpaces]. destruct (isSpace c) eqn:E; [exact IH|]. exact E.
Qed.

Lemma skipSpaces_id (s : string) : startsWithSpace s = false -> skipSpaces s = s.
Proof. destruct s as [|c s]; simpl; [reflexivity|]. now intros ->. Qed.

Lemma trimEnd_head (c : ascii) (s : string) :
  isSpace c = false -> exists t, trimEnd (String c s) = String c t.
Proof.
  intros H. cbn [trimEnd]. destruct (trimEnd s); [rewrite H|]; eauto.
Qed.

Lemma startsWithSpace_trimEnd (s : string) :
  startsWithSpace s = false -> startsWithSpace (trimEnd s) = false.
Proof.
  destruct s as [|c s]; [reflexivity|]. simpl startsWithSpace at 1. intros H.
  destruct (trimEnd_head c s H) as [t ->]. exact H.
Qed.

Lemma endsWithSpace_trimEnd (s : string) : endsWithSpace (trimEnd s) = false.
Proof.
  induction s as [|c s IH]; [reflexivity|].
  cbn [trimEnd]. destruct (trimEnd s) as [|d t] eqn:E.
  - destruct (isSpace c) eqn:C; [reflexivity|]. simpl. exact C.
  - exact IH.
Qed.

Lemma trimEnd_id (s : string) : endsWithSpace s = false -> trimEnd s = s.
Proof.
  induction s as [|c s IH]; [reflexivity|].
  destruct s as [|d s].
  - simpl. now intros ->.
  - intros H. change (endsWithSpace (String d s) = false) in H.
    cbn [trimEnd]. cbn [trimEnd] in IH. rewrite (IH H). reflexivity.
Qed.

(** [trim] leaves no white space at either end, *)
Lemma surrounded_trim (s : string) : surrounded (trim s) = false.
Proof.
  unfold surrounded, trim.
  rewrite (startsWithSpace_trimEnd _ (startsWithSpace_skipSpaces s)).
  now rewrite endsWithSpace_trimEnd.
Qed.

(** and changes nothing where there is none. *)
Lemma trim_id (s : string) : surrounded s = false -> trim s = s.
Proof.
  unfold surrounded, trim. intros H. apply orb_false_elim in H as [H1 H2].
  rewrite (skipSpaces_id s H1). now apply trimEnd_id.
Qed.

Lemma trim_trim (s : string) : trim (trim s) = trim s.
Proof. apply trim_id, surrounded_trim. Qed.

Lemma trimEnd_empty_head (c : ascii) (s : string) :
  trimEnd (String c s) = EmptyString -> isSpace c = true.
Proof.
  cbn [trimEnd]. destruct (trimEnd s); [|discriminate].
  destruct (isSpace c); [reflexivity|discriminate].
Qed.

Lemma trimEnd_cons (c : ascii) (s : string) :
  trimEnd (String c s) =
  match trimEnd s with
  | EmptyString => if isSpace c then EmptyString else String c EmptyString
  | String _ _ as t => String c t
  end.
Proof. reflexivity. Qed.

Lemma hasMarker_cons (a b : ascii) (s : string) :
  hasMarker (String a (String b s)) = isMarker a b || hasMarker (String b s).
Proof. reflexivity. Qed.

Lemma hasMarker_trimEnd (s : string) : hasMarker (trimEnd s) = hasMarker s.
Proof.
  induction s as [|c s IH]; [reflexivity|].
  rewrite trimEnd_cons.
  destruct s as [|b s]; [simpl; now destruct (isSpace c)|].
  rewrite hasMarker_cons, <- IH.
  destruct (trimEnd (String b s)) as [|d t] eqn:E.
  - pose proof (trimEnd_empty_head b s E) as B.
    rewrite (isSpace_not_marker_r c b B). now destruct (isSpace c).
  - assert (d = b) as ->.
    { rewrite trimEnd_cons in E. destruct (trimEnd s); [destruct (isSpace b)|]; congruence. }
    apply hasMarker_cons.
Qed.

Lemma hasMarker_trim (s : string) : hasMarker (trim s) = hasMarker s.
Proof. unfold trim. now rewrite hasMarker_trimEnd, hasMarker_skipSpaces. Qed.

Lemma trailingMarker_hasMarker (s : string) :
  trailingMarker s = true -> hasMarker s = true.
Proof.
  induction s as [|a s IH]; [discriminate|].
  destruct s as [|b rest]; [discriminate|].
  rewrite hasMarker_cons. destruct rest as [|c rest'].
  - simpl. intros ->. reflexivity.
  - intros H. change (trailingMarker (String b (String c rest')) = true) in H.
    rewrite (IH H). apply orb_true_r.
Qed.

(** A normalised label has no white space around it. *)
Lemma surrounded_normalize (s : string) : surrounded (normalize s) = false.
Proof. apply surrounded_trim. Qed.

(** Its markers are those left by the one replacement. *)
Lemma hasMarker_normalize (s : string) :
  hasMarker (normalize s) = hasMarker (replaceMarker s).
Proof. apply hasMarker_trim. Qed.

Lemma normalize_id (s : string) :
  hasMarker s = false -> surrounded s = false -> normalize s = s.
Proof.
  intros H1 H2. unfold normalize. rewrite (replaceMarker_id s H1). now apply trim_id.
Qed.


(** C8, as amended.  The replacement has no [g] flag and removes one marker:
    normalising twice gives the same label as normalising once exactly for
    the strings that hold no marker once their first marker is removed. *)
Theorem normalize_idempotent_iff (x : string) :
  normalize (normalize x) = normalize x <-> hasMarker (replaceMarker x) = false.
Proof.
  rewrite <- hasMarker_normalize. split.
  - intros E. destruct (hasMarker (normalize x)) eqn:M; [exfalso|reflexivity].
    apply replaceMarker_shorter in M.
    pose proof (trim_length (replaceMarker (normalize x))) as L.
    fold (normalize (normalize x)) in L. rewrite E in L. lia.
  - intros M. apply normalize_id; [exact M|apply surrounded_normalize].
Qed.

(** C8 fails as it is stated: a label with two markers loses one at each
    normalisation. *)
Lemma normalize_not_idempotent :
  normalize "09:00 AM PM" = "09:00 PM"
  /\ normalize (normalize "09:00 AM PM") = "09:00"
  /\ normalize (normalize "09:00 AM PM") <> normalize "09:00 AM PM".
Proof. repeat split. discriminate. Qed.

(** ** Labels returned by [availableSlots] *)

Lemma freeSlots_In (base taken : list string) (l : string) :
  In l (freeSlots base taken) -> exists b, In b base /\ l = normalize b.
Proof.
  unfold freeSlots. intros H. apply filter_In in H as [H _].
  apply in_map_iff in H as [b [E B]]. eauto.
Qed.

Lemma prop_In {A : Type} (o : list (string * A)) (k : string) (v : A) :
  prop o k = Some v -> In (k, v) o.
Proof.
  induction o as [|[k' v'] o IH]; simpl; [discriminate|].
  destruct (String.eqb_spec k' k) as [->|_].
  - intros [= ->]. now left.
  - intros H. right. now apply IH.
Qed.

Lemma usableSlots_Some (e : option daySchedule) (sl : list string) :
  usableSlots e = Some sl ->
  exists ds, e = Some ds /\ enabled ds = true /\ slots ds = Some sl /\ sl <> [].
Proof.
  destruct e as [ds|]; simpl; [|discriminate].
  destruct (enabled ds) eqn:E; [|discriminate].
  destruct (slots ds) as [[|s l]|] eqn:S; try discriminate.
  intros [= <-]. exists ds. repeat split; congruence.
Qed.

Lemma findDoctor_In (doctors : list Doctor.t) (docName : jsval) (d : Doctor.t) :
  findDoctor doctors docName = Some d -> In d doctors.
Proof. intros H. now apply find_some in H. Qed.

Lemma scheduleLabelsOk_entry (d : Doctor.t) ws (e : option daySchedule)
  (k : string) (sl : list string) (b : string) :
  scheduleLabelsOk d = true -> Doctor.workSchedule d = Some ws ->
  prop ws k = e -> usableSlots e = Some sl -> In b sl -> oneMarker b = true.
Proof.
  unfold scheduleLabelsOk. intros Ok W P U B. rewrite W in Ok.
  apply usableSlots_Some in U as (ds & -> & _ & S & _).
  apply prop_In in P. rewrite forallb_forall in Ok.
  specialize (Ok _ P). simpl in Ok. rewrite S in Ok.
  rewrite forallb_forall in Ok. now apply Ok.
Qed.

Lemma defaultSlots_oneMarker (b : string) : In b defaultSlots -> oneMarker b = true.
Proof.
  assert (H : forallb oneMarker defaultSlots = true) by reflexivity.
  rewrite forallb_forall in H. apply H.
Qed.

Lemma staticBase_oneMarker (docName : jsval) (b : string) :
  In b (Clerk.staticBase docName) -> oneMarker b = true.
Proof.
  unfold Clerk.staticBase, Clerk.staticSlots, Clerk.doctorSlots. cbn [prop].
  destruct (String.eqb _ (toString docName)).
  - assert (H : forallb oneMarker
                  (Clerk.staticBase (JStr "Dr. Omar Khaled")) = true) by reflexivity.
    rewrite forallb_forall in H. apply H.
  - destruct (String.eqb _ (toString docName)); [|intros []].
    assert (H : forallb oneMarker
                  (Clerk.staticBase (JStr "Dr. Lina Yousef")) = true) by reflexivity.
    rewrite forallb_forall in H. apply H.
Qed.

Lemma clerk_scheduleBase_oneMarker (h : JSDate.Host) (doctors : list Doctor.t)
  (docName : jsval) (dateStr b : string) :
  (forall d, findDoctor doctors docName = Some d -> scheduleLabelsOk d = true) ->
  In b (Clerk.scheduleBase h (findDoctor doctors docName) dateStr) ->
  oneMarker b = true.
Proof.
  intros Ok. unfold Clerk.scheduleBase.
  destruct (findDoctor doctors docName) as [d|] eqn:F; [|intros []].
  destruct (Doctor.workSchedule d) as [ws|] eqn:W; [|intros []].
  destruct (JSDate.dateParse h dateStr) as [t|]; [|intros []].
  destruct (usableSlots (dayEntry h ws t)) as [sl|] eqn:U; [|intros []].
  intros B.
  apply (scheduleLabelsOk_entry d ws _ _ sl b (Ok d eq_refl) W eq_refl U B).
Qed.

Lemma clerk_baseSlots_oneMarker (h : JSDate.Host) (doctors : list Doctor.t)
  (docName : jsval) (dateStr b : string) :
  (forall d, findDoctor doctors docName = Some d -> scheduleLabelsOk d = true) ->
  In b (Clerk.baseSlots h doctors docName dateStr) -> oneMarker b = true.
Proof.
  intros Ok. unfold Clerk.baseSlots.
  pose proof (clerk_scheduleBase_oneMarker h doctors docName dateStr b Ok) as S.
  destruct (Clerk.scheduleBase h (findDoctor doctors docName) dateStr) as [|x l].
  - pose proof (staticBase_oneMarker docName b) as T.
    destruct (Clerk.staticBase docName); [apply defaultSlots_oneMarker|exact T].
  - exact S.
Qed.

(** C7, as amended.  For a date argument that is not empty, parseable or
    not, a label returned by the clerk's [availableSlots] has no white space
    around it; and it holds no [AM]/[PM] marker, at its end or elsewhere,
    when no label of the work schedule of the doctor keeps a marker once its
    first marker is removed. *)
Theorem availableSlots_labels_normalized (h : JSDate.Host)
  (doctors : list Doctor.t) (appointments : list Appointment.t)
  (docName dateStr : jsval) (l : string) :
  truthy dateStr = true ->
  In l (Clerk.availableSlots h doctors appointments docName dateStr) ->
  surrounded l = false
  /\ ((forall d, findDoctor doctors docName = Some d -> scheduleLabelsOk d = true) ->
      hasMarker l = false /\ trailingMarker l = false).
Proof.
  intros D. unfold Clerk.availableSlots. rewrite D. cbn [negb].
  intros H. apply freeSlots_In in H as (b & B & ->). split.
  - apply surrounded_normalize.
  - intros Ok.
    assert (M : hasMarker (normalize b) = false).
    { rewrite hasMarker_normalize.
      apply (clerk_baseSlots_oneMarker h doctors docName _ b Ok) in B.
      unfold oneMarker in B. now apply negb_true_iff in B. }
    split; [exact M|].
    destruct (trailingMarker (normalize b)) eqn:T; [|reflexivity].
    apply trailingMarker_hasMarker in T. congruence.
Qed.

Lemma availableSlots_labels_normalized_witness :
  In "09:00" (Clerk.availableSlots (Scenario.hostAt 3) [Scenario.doctorD]
                [Scenario.thatAppt] (JStr "Dr. D") Scenario.thatMonday)
  /\ surrounded "09:00" = false
  /\ hasMarker "09:00" = false /\ trailingMarker "09:00" = false.
Proof.
  assert (I : In "09:00" (Clerk.availableSlots (Scenario.hostAt 3) [Scenario.doctorD]
                [Scenario.thatAppt] (JStr "Dr. D") Scenario.thatMonday))
    by (vm_compute; auto).
  destruct (availableSlots_labels_normalized (Scenario.hostAt 3) [Scenario.doctorD]
              [Scenario.thatAppt] (JStr "Dr. D") Scenario.thatMonday "09:00"
              eq_refl I) as [S M].
  assert (Ok : forall d, findDoctor [Scenario.doctorD] (JStr "Dr. D") = Some d ->
                         scheduleLabelsOk d = true).
  { intros d F. injection F as <-. reflexivity. }
  destruct (M Ok) as [M1 M2]. auto.
Defined.

(** C7 fails as it is stated: without a date the clerk's function returns
    the configured labels as they are, here with their [AM]; and with a date
    a label of two markers keeps the second one. *)
Lemma availableSlots_labels_not_normalized :
  (In "09:00 AM" (Clerk.availableSlots (Scenario.hostAt 3) [] []
                    (JStr "Dr. Omar Khaled") (JStr ""))
   /\ trailingMarker "09:00 AM" = true)
  /\ (In "09:00 PM" (Clerk.availableSlots (Scenario.hostAt 3) [Scenario.doctorE] []
                       (JStr "Dr. E") Scenario.thatMonday)
      /\ trailingMarker "09:00 PM" = true).
Proof. vm_compute. auto. Qed.

(** ** Appointments that hold no slot *)

Lemma filter_drop {A : Type} (p : A -> bool) (l1 l2 : list A) (a : A) :
  p a = false -> filter p (l1 ++ a :: l2) = filter p (l1 ++ l2).
Proof.
  intros H. rewrite !filter_app. cbn [filter]. now rewrite H.
Qed.

Lemma notCancelled_false (a : Appointment.t) :
  Appointment.status a = JStr "Cancelled" \/ Appointment.status a = JStr "cancelled" ->
  notCancelled a = false.
Proof. unfold notCancelled. intros [-> | ->]; reflexivity. Qed.

(** C6, as amended.  An appointment whose status is the string [Cancelled]
    or the string [cancelled] holds no slot: the clerk's [availableSlots]
    returns what it returns without that appointment, so the time of the
    appointment stays in the availability when it is there without it. *)
Theorem cancelled_frees_slot (h : JSDate.Host) (doctors : list Doctor.t)
  (l1 l2 : list Appointment.t) (a : Appointment.t) (docName dateStr : jsval) :
  Appointment.status a = JStr "Cancelled" \/ Appointment.status a = JStr "cancelled" ->
  Clerk.availableSlots h doctors (l1 ++ a :: l2) docName dateStr
  = Clerk.availableSlots h doctors (l1 ++ l2) docName dateStr
  /\ (let t := normalize (strOf (jsOr (Appointment.time a) (JStr ""))) in
      In t (Clerk.availableSlots h doctors (l1 ++ l2) docName dateStr) ->
      In t (Clerk.availableSlots h doctors (l1 ++ a :: l2) docName dateStr)).
Proof.
  intros S.
  assert (E : Clerk.availableSlots h doctors (l1 ++ a :: l2) docName dateStr
              = Clerk.availableSlots h doctors (l1 ++ l2) docName dateStr).
  { unfold Clerk.availableSlots, Clerk.booked.
    rewrite filter_drop; [reflexivity|].
    rewrite (notCancelled_false a S). apply andb_false_r. }
  split; [exact E|]. cbv zeta. now rewrite E.
Qed.

Lemma cancelled_frees_slot_witness :
  let a := Scenario.appt (JStr "a1") (JStr "09:30") (JStr "cancelled") in
  Clerk.availableSlots (Scenario.hostAt 3) [Scenario.doctorD] [a]
    (JStr "Dr. D") Scenario.thatMonday
  = ["09:00"; "09:30"; "10:00"]
  /\ In "09:30" (Clerk.availableSlots (Scenario.hostAt 3) [Scenario.doctorD] [a]
                   (JStr "Dr. D") Scenario.thatMonday).
Proof.
  intros a.
  destruct (cancelled_frees_slot (Scenario.hostAt 3) [Scenario.doctorD] [] [] a
              (JStr "Dr. D") Scenario.thatMonday (or_intror eq_refl)) as [E I].
  split.
  - exact E.
  - apply I. vm_compute. auto.
Defined.

(** C6 fails as it is stated: the status is compared with two spellings, not
    without regard to case, and [CANCELLED] holds its slot. *)
Lemma uppercase_cancelled_holds_slot :
  let a := Scenario.appt (JStr "a1") (JStr "09:30") (JStr "CANCELLED") in
  Clerk.availableSlots (Scenario.hostAt 3) [Scenario.doctorD] [a]
    (JStr "Dr. D") Scenario.thatMonday = ["09:00"; "10:00"]
  /\ ~ In "09:30" (Clerk.availableSlots (Scenario.hostAt 3) [Scenario.doctorD] [a]
                     (JStr "Dr. D") Scenario.thatMonday).
Proof.
  split; [reflexivity|]. vm_compute. intros [H|[H|[]]]; discriminate.
Qed.

(** ** The appointment being edited *)

Lemma clashes_same_id (ap a : Appointment.t) :
  Appointment.id ap = Appointment.id a -> ClerkActions.clashes ap a = false.
Proof.
  intros E. unfold ClerkActions.clashes. rewrite E, strictEq_refl. reflexivity.
Qed.

(** C5, as amended.  The chief's [availableSlots], for a form whose [id] is
    not empty, and the clash guard of [saveAppointment] treat an appointment
    with the [id] of the appointment being edited or saved as absent from the
    collection.  The clerk's [availableSlots] takes no such [id]. *)
Theorem excluded_appointment_is_absent (h : JSDate.Host) (doctors : list Doctor.t)
  (l1 l2 : list Appointment.t) (a : Appointment.t) (excludeId docName dateStr : jsval)
  (ap : Appointment.t) :
  Appointment.id a = excludeId ->
  (truthy excludeId = true ->
   Chief.availableSlots h doctors (l1 ++ a :: l2) excludeId docName dateStr
   = Chief.availableSlots h doctors (l1 ++ l2) excludeId docName dateStr)
  /\ (Appointment.id ap = excludeId ->
      ClerkActions.clash (l1 ++ a :: l2) ap = ClerkActions.clash (l1 ++ l2) ap).
Proof.
  intros E. split.
  - intros T. unfold Chief.availableSlots, Chief.booked.
    rewrite filter_drop; [reflexivity|].
    rewrite T, E, strictEq_refl. reflexivity.
  - intros P. unfold ClerkActions.clash.
    rewrite !existsb_app. cbn [existsb].
    rewrite clashes_same_id; [reflexivity|congruence].
Qed.

Lemma excluded_appointment_is_absent_witness :
  Chief.availableSlots (Scenario.hostAt 3) [Scenario.doctorD] [Scenario.thatAppt]
    (JStr "a1") (JStr "Dr. D") Scenario.thatMonday = ["09:00"; "09:30"; "10:00"]
  /\ ClerkActions.clash [Scenario.thatAppt] Scenario.thatAppt = false.
Proof.
  destruct (excluded_appointment_is_absent (Scenario.hostAt 3) [Scenario.doctorD]
              [] [] Scenario.thatAppt (JStr "a1") (JStr "Dr. D") Scenario.thatMonday
              Scenario.thatAppt eq_refl) as [C G].
  split.
  - exact (C eq_refl).
  - exact (G eq_refl).
Defined.

(** C5 fails as it is stated for the clerk's [availableSlots]: it has no
    parameter for the appointment being edited, so whatever [id] is being
    edited, here [a1], the appointment with that [id] still takes its slot. *)
Lemma clerk_availableSlots_excludes_nothing :
  Appointment.id Scenario.thatAppt = JStr "a1"
  /\ Clerk.availableSlots (Scenario.hostAt 3) [Scenario.doctorD] [Scenario.thatAppt]
       (JStr "Dr. D") Scenario.thatMonday = ["09:00"; "10:00"]
  /\ Clerk.availableSlots (Scenario.hostAt 3) [Scenario.doctorD] []
       (JStr "Dr. D") Scenario.thatMonday = ["09:00"; "09:30"; "10:00"]
  /\ Clerk.availableSlots (Scenario.hostAt 3) [Scenario.doctorD] [Scenario.thatAppt]
       (JStr "Dr. D") Scenario.thatMonday
     <> Clerk.availableSlots (Scenario.hostAt 3) [Scenario.doctorD] []
          (JStr "Dr. D") Scenario.thatMonday.
Proof. repeat split. discriminate. Qed.

(** ** The clash guard of [saveAppointment] *)

Lemma clashes_sameDoctor (ap a : Appointment.t) :
  ClerkActions.clashes ap a
  = negb (strictEq (Appointment.id a) (Appointment.id ap))
    && Spec.sameDoctor ap a
    && strictEq (Appointment.date a) (Appointment.date ap)
    && strictEq (Appointment.time a) (Appointment.time ap)
    && negb (strictEq (Appointment.status a) (JStr "Cancelled")).
Proof. reflexivity. Qed.

Lemma strictEq_true (x y : jsval) : strictEq x y = true <-> x = y.
Proof. destruct (strictEq_spec x y); split; congruence. Qed.

Lemma strictEq_false (x y : jsval) : strictEq x y = false <-> x <> y.
Proof. destruct (strictEq_spec x y); split; congruence. Qed.

(** What a single appointment must be for the guard to count it. *)
Lemma clashes_true (ap a : Appointment.t) :
  ClerkActions.clashes ap a = true <->
  Appointment.id a <> Appointment.id ap
  /\ Spec.sameDoctor ap a = true
  /\ Appointment.date a = Appointment.date ap
  /\ Appointment.time a = Appointment.time ap
  /\ Appointment.status a <> JStr "Cancelled".
Proof.
  rewrite clashes_sameDoctor, !andb_true_iff, !negb_true_iff,
    !strictEq_true, !strictEq_false.
  tauto.
Qed.

(** C1, as amended.  The guard reports a clash only if some appointment of
    the collection has another id than the appointment being saved, matches
    its doctor by [doctor], [doctorId] or [doctorName], has its date, a
    normalised time equal to its normalised time, and a status other than the
    string [Cancelled]; and it reports a clash whenever some appointment has
    another id, matches the doctor, has the same date and the same time
    label, and a status that is neither [Cancelled] nor [cancelled]. *)
Theorem clash_guard_bounds (appointments : list Appointment.t) (ap : Appointment.t) :
  (ClerkActions.clash appointments ap = true ->
   exists a, In a appointments
     /\ Appointment.id a <> Appointment.id ap
     /\ Spec.sameDoctor ap a = true
     /\ Appointment.date a = Appointment.date ap
     /\ Spec.normalTime a = Spec.normalTime ap
     /\ Appointment.status a <> JStr "Cancelled")
  /\ (forall a, In a appointments ->
        Appointment.id a <> Appointment.id ap ->
        Spec.sameDoctor ap a = true ->
        Appointment.date a = Appointment.date ap ->
        Appointment.time a = Appointment.time ap ->
        Appointment.status a <> JStr "Cancelled" ->
        Appointment.status a <> JStr "cancelled" ->
        ClerkActions.clash appointments ap = true).
Proof.
  unfold ClerkActions.clash. split.
  - intros H. apply existsb_exists in H as (a & I & C).
    apply clashes_true in C as (C1 & C2 & C3 & C4 & C5).
    exists a. repeat split; try assumption.
    unfold Spec.normalTime. now rewrite C4.
  - intros a I C1 C2 C3 C4 C5 _. apply existsb_exists. exists a.
    split; [exact I|]. apply clashes_true. auto.
Qed.

Lemma clash_guard_bounds_witness :
  let ap := Scenario.appt JUndefined (JStr "09:30") (JStr "Scheduled") in
  ClerkActions.clash [Scenario.thatAppt] ap = true
  /\ exists a, In a [Scenario.thatAppt]
       /\ Appointment.id a <> Appointment.id ap
       /\ Spec.sameDoctor ap a = true
       /\ Appointment.date a = Appointment.date ap
       /\ Spec.normalTime a = Spec.normalTime ap
       /\ Appointment.status a <> JStr "Cancelled".
Proof.
  intros ap.
  destruct (clash_guard_bounds [Scenario.thatAppt] ap) as [Only If].
  assert (C : ClerkActions.clash [Scenario.thatAppt] ap = true).
  { apply (If Scenario.thatAppt); simpl; auto; discriminate. }
  split; [exact C|]. exact (Only C).
Defined.

(** C1 fails as it is stated.  The guard compares the time labels as they
    are and the status with the one string [Cancelled]: an appointment with
    the status [CANCELLED], or [cancelled], is a clash for the guard and none
    for the specification, and an appointment at [09:30 AM] is a clash with
    [09:30] for the specification and none for the guard. *)
Lemma clash_differs_from_hasConflict :
  let ap := Scenario.appt JUndefined (JStr "09:30") (JStr "Scheduled") in
  let upper := Scenario.appt (JStr "a1") (JStr "09:30") (JStr "CANCELLED") in
  let lower := Scenario.appt (JStr "a1") (JStr "09:30") (JStr "cancelled") in
  let legacy := Scenario.appt (JStr "a1") (JStr "09:30 AM") (JStr "Scheduled") in
  (ClerkActions.clash [upper] ap = true /\ Spec.hasConflict [upper] ap = false)
  /\ (ClerkActions.clash [lower] ap = true /\ Spec.hasConflict [lower] ap = false)
  /\ (ClerkActions.clash [legacy] ap = false /\ Spec.hasConflict [legacy] ap = true).
Proof. vm_compute. auto. Qed.

(** The slip in the guard: the clerk's [availableSlots] offers the slot of an
    appointment with the status [cancelled], and the guard refuses it. *)
Lemma offered_slot_refused :
  let ap := Scenario.appt JUndefined (JStr "09:30") (JStr "Scheduled") in
  let lower := Scenario.appt (JStr "a1") (JStr "09:30") (JStr "cancelled") in
  In "09:30" (Clerk.availableSlots (Scenario.hostAt 3) [Scenario.doctorD] [lower]
                (JStr "Dr. D") Scenario.thatMonday)
  /\ ClerkActions.clash [lower] ap = true.
Proof. vm_compute. auto. Qed.

(** C3.  When the guard reports a clash, [saveAppointment] shows the message
    that the slot is already booked and does nothing else: no update and no
    creation is sent, with the request as it is or changed. *)
Theorem clash_rejects_save (w : World) (doctors : list Doctor.t)
  (patients : list Patient.t) (appointments : list Appointment.t)
  (ap : Appointment.t) :
  ClerkActions.clash appointments ap = true ->
  ClerkActions.saveAppointment w doctors patients appointments ap
  = ([Alert "This slot is already booked for the selected doctor."], Some tt)
  /\ existsb isWrite
       (trace (ClerkActions.saveAppointment w doctors patients appointments ap))
     = false.
Proof.
  intros C. unfold ClerkActions.saveAppointment. rewrite C. split; reflexivity.
Qed.

Lemma clash_rejects_save_witness :
  let ap := Scenario.appt JUndefined (JStr "09:30") (JStr "Scheduled") in
  ClerkActions.clash [Scenario.thatAppt] ap = true
  /\ ClerkActions.saveAppointment Scenario.anyWorld [Scenario.doctorD] []
       [Scenario.thatAppt] ap
     = ([Alert "This slot is already booked for the selected doctor."], Some tt).
Proof.
  intros ap. split; [reflexivity|].
  apply (clash_rejects_save Scenario.anyWorld [Scenario.doctorD] []
           [Scenario.thatAppt] ap eq_refl).
Defined.

(** Without a clash the request is sent as it is: one update or one
    creation, at the time of the request. *)
Lemma save_without_clash (w : World) (doctors : list Doctor.t)
  (patients : list Patient.t) (appointments : list Appointment.t)
  (ap : Appointment.t) :
  ClerkActions.clash appointments ap = false ->
  trace (ClerkActions.saveAppointment w doctors patients appointments ap)
  = [UpdateWebAppointment (Appointment.id ap) (ClerkActions.updatesOf doctors ap)]
  \/ trace (ClerkActions.saveAppointment w doctors patients appointments ap)
     = [CreateWebAppointment (ClerkActions.newOf doctors patients ap)].
Proof.
  intros C. unfold ClerkActions.saveAppointment. rewrite C.
  destruct (truthy (Appointment.id ap) && _); [left|right]; reflexivity.
Qed.

(** ** [updateStatus] and the waitlist *)

(** When [updateStatus] has written the status [Cancelled] of an appointment
    of the collection, the operator is asked, by a [window.confirm], whether
    the patient goes on the waitlist.  On yes, one entry is created: its
    department is the department of the doctor of the appointment when that is
    a string, the empty string included, and [Unknown] when the doctor is not
    found or the department is [null] or absent; its preferred date is the
    date of the appointment; its notes name the doctor and the time.  On no,
    nothing is created and the function ends without an error. *)
Theorem cancel_offers_waitlist (w : World) (doctors : list Doctor.t)
  (appointments : list Appointment.t) (id : jsval) (ap : Appointment.t) :
  find (fun a => strictEq (Appointment.id a) id) appointments = Some ap ->
  updateResolves w id (ClerkActions.statusOnly (JStr "Cancelled")) = true ->
  let who := jsOr (Appointment.doctor ap) (Appointment.doctorName ap) in
  let entry :=
    {| w_patient := jsOr (Appointment.patient ap) (Appointment.patientName ap);
       w_department :=
         match findDoctor doctors who with
         | Some d =>
             match Doctor.department d with
             | JStr dep => JStr dep
             | _ => JStr "Unknown"
             end
         | None => JStr "Unknown"
         end;
       w_preferredDate := Appointment.date ap;
       w_notes := "Cancelled " ++ toString who ++ " " ++ toString (Appointment.time ap) |} in
  let question := ClerkActions.offerMessage doctors ap in
  let written := UpdateWebAppointment id (ClerkActions.statusOnly (JStr "Cancelled")) in
  (operatorConfirms w question = true ->
   trace (ClerkActions.updateStatus w doctors appointments id (JStr "Cancelled"))
   = [written; Confirm question true; CreateWebWaitlistEntry entry])
  /\ (operatorConfirms w question = false ->
      ClerkActions.updateStatus w doctors appointments id (JStr "Cancelled")
      = ([written; Confirm question false], Some tt)).
Proof.
  intros F U who entry question written.
  assert (E : ClerkActions.waitlistOf doctors ap = entry).
  { unfold ClerkActions.waitlistOf, entry, ClerkActions.getDeptByDoctorName.
    fold who. f_equal.
    destruct (findDoctor doctors who) as [d|]; [|reflexivity].
    simpl. now destruct (Doctor.department d). }
  unfold ClerkActions.updateStatus, await. rewrite U.
  change (strictEq (JStr "Cancelled") (JStr "Cancelled")) with true.
  cbv iota. rewrite F, E. fold question. unfold confirm, bind, ret.
  split; intros ->.
  - destruct (waitlistResolves w entry); reflexivity.
  - reflexivity.
Qed.

Lemma cancel_offers_waitlist_witness :
  ClerkActions.updateStatus Scenario.anyWorld [] [Scenario.thatAppt]
    (JStr "a1") (JStr "Cancelled")
  = ([UpdateWebAppointment (JStr "a1") (ClerkActions.statusOnly (JStr "Cancelled"));
      Confirm "Add Sara to waitlist for Unknown?" false], Some tt).
Proof.
  destruct (cancel_offers_waitlist Scenario.anyWorld [] [Scenario.thatAppt]
              (JStr "a1") Scenario.thatAppt eq_refl eq_refl) as [_ No].
  exact (No eq_refl).
Defined.

(** The entry proposed when the doctor of the appointment is not found. *)
Lemma waitlist_department_unknown :
  w_department (ClerkActions.waitlistOf [] Scenario.thatAppt) = JStr "Unknown"
  /\ w_department (ClerkActions.waitlistOf [Scenario.doctorD] Scenario.thatAppt)
     = JStr "Oncology"
  /\ w_notes (ClerkActions.waitlistOf [] Scenario.thatAppt) = "Cancelled Dr. D 09:30".
Proof. repeat split. Qed.

(** C9.  The cancellation of an appointment whose doctor has no department.
    The form of the clerk leaves the department optional and [createDoctor]
    stores the empty string for it; [getDeptByDoctorName] replaces [null] and
    [undefined] only, so the operator is asked about a waitlist "for " nothing
    and, on yes, the entry is created with the empty string as its department,
    not with [Unknown]. *)
Theorem cancel_with_blank_department :
  Doctor.department doctorWithoutDepartment = JStr ""
  /\ ClerkActions.getDeptByDoctorName [doctorWithoutDepartment] (JStr "Dr. D") = JStr ""
  /\ ClerkActions.updateStatus yesWorld [doctorWithoutDepartment] [Scenario.thatAppt]
       (JStr "a1") (JStr "Cancelled")
     = ([UpdateWebAppointment (JStr "a1") (ClerkActions.statusOnly (JStr "Cancelled"));
         Confirm "Add Sara to waitlist for ?" true;
         CreateWebWaitlistEntry
           {| w_patient := JStr "Sara"; w_department := JStr "";
              w_preferredDate := JStr "2024-01-01";
              w_notes := "Cancelled Dr. D 09:30" |}],
        Some tt)
  /\ ClerkActions.getDeptByDoctorName [] (JStr "Dr. D") = JStr "Unknown".
Proof. repeat split. Qed.

(** C10.  For a status other than the string [Cancelled], [updateStatus]
    writes the status and does nothing else: the operator is asked nothing
    and no waitlist entry is created.  So it is for [cancelled], which the
    chief's modal writes. *)
Theorem other_status_no_waitlist (w : World) (doctors : list Doctor.t)
  (appointments : list Appointment.t) (id status : jsval) :
  status <> JStr "Cancelled" ->
  trace (ClerkActions.updateStatus w doctors appointments id status)
  = [UpdateWebAppointment id (ClerkActions.statusOnly status)]
  /\ existsb isWaitlistEffect
       (trace (ClerkActions.updateStatus w doctors appointments id status)) = false.
Proof.
  intros N. apply strictEq_false in N.
  unfold ClerkActions.updateStatus. rewrite N. unfold await, bind, ret.
  destruct (updateResolves w id (ClerkActions.statusOnly status)); split; reflexivity.
Qed.

Lemma other_status_no_waitlist_witness :
  In "cancelled" Chief.statusOptions
  /\ trace (ClerkActions.updateStatus Scenario.anyWorld [Scenario.doctorD]
              [Scenario.thatAppt] (JStr "a1") (JStr "cancelled"))
     = [UpdateWebAppointment (JStr "a1") (ClerkActions.statusOnly (JStr "cancelled"))].
Proof.
  split; [simpl; auto|].
  apply (other_status_no_waitlist Scenario.anyWorld [Scenario.doctorD]
           [Scenario.thatAppt] (JStr "a1") (JStr "cancelled")).
  discriminate.
Defined.

(** Whatever the arguments, an entry goes to the waitlist only after the
    operator has said yes. *)
Lemma waitlist_entry_needs_yes (w : World) (doctors : list Doctor.t)
  (appointments : list Appointment.t) (id status : jsval) (e : waitlistEntry) :
  In (CreateWebWaitlistEntry e)
     (trace (ClerkActions.updateStatus w doctors appointments id status)) ->
  exists question,
    In (Confirm question true)
       (trace (ClerkActions.updateStatus w doctors appointments id status)).
Proof.
  unfold ClerkActions.updateStatus, await, confirm, bind, ret.
  destruct (updateResolves w id (ClerkActions.statusOnly status));
    [|simpl; intros [H|[]]; discriminate].
  destruct (strictEq status (JStr "Cancelled"));
    [|simpl; intros [H|[]]; discriminate].
  destruct (find _ appointments) as [ap|];
    [|simpl; intros [H|[]]; discriminate].
  destruct (operatorConfirms w (ClerkActions.offerMessage doctors ap)) eqn:Y.
  - intros _. exists (ClerkActions.offerMessage doctors ap).
    destruct (waitlistResolves w _); simpl; auto.
  - simpl. intros [H|[H|[]]]; discriminate.
Qed.

(** ** The weekday of a date *)

Section Weekday.

Import JSDate.
Open Scope Z_scope.

Variable h : Host.

(** East of Greenwich, UTC midnight and the local clock show the same day. *)
Lemma getDay_utc_east (day : Z) :
  0 <= tza h < msPerDay -> getDay h (day * msPerDay) = weekDay day.
Proof.
  intros B. unfold getDay, weekDay.
  rewrite Z.div_add_l by (unfold msPerDay; lia).
  now rewrite (Z.div_small (tza h) msPerDay B), Z.add_0_r.
Qed.

(** West of it, the local clock still shows the day before. *)
Lemma getDay_utc_west (day : Z) :
  - msPerDay <= tza h < 0 -> getDay h (day * msPerDay) = weekDay (day - 1).
Proof.
  intros B. unfold getDay, weekDay.
  replace (day * msPerDay + tza h)
    with ((day - 1) * msPerDay + (tza h + msPerDay)) by ring.
  rewrite Z.div_add_l by (unfold msPerDay; lia).
  rewrite (Z.div_small (tza h + msPerDay) msPerDay) by lia.
  now rewrite Z.add_0_r.
Qed.

(** Local midnight is on its day wherever the host is. *)
Lemma getDay_local (day : Z) : getDay h (day * msPerDay - tza h) = weekDay day.
Proof.
  unfold getDay, weekDay.
  replace (day * msPerDay - tza h + tza h) with (day * msPerDay) by ring.
  now rewrite Z.div_mul by (unfold msPerDay; lia).
Qed.

Lemma dateParse_thatMonday : dateParse h "2024-01-01" = Some (19723 * msPerDay).
Proof. reflexivity. Qed.

Lemma dateParse_thatMonday_local :
  dateParse h "2024-01-01T00:00:00" = Some (19723 * msPerDay - tza h).
Proof. reflexivity. Qed.

End Weekday.

(** ** The weekday each function reads *)

Lemma isoDate_with_time (s : string) (day : Z) :
  JSDate.isoDate s = Some (day, "") ->
  JSDate.isoDate (s ++ "T00:00:00") = Some (day, "T00:00:00").
Proof.
  do 10 (destruct s as [|? s]; [discriminate|]).
  cbn [append]. unfold JSDate.isoDate.
  repeat match goal with
         | |- context [match JSDate.digitOf ?c with _ => _ end] =>
             destruct (JSDate.digitOf c); [|discriminate]
         end.
  match goal with |- context [if ?c then _ else _] => destruct c; [|discriminate] end.
  intros [= <- ->]. reflexivity.
Qed.

(** For a date [YYYY-MM-DD] of the calendar, the chief's function reads the
    weekday of that date on every host; *)
Lemma chief_reads_weekday (h : JSDate.Host) (s : string) (day : Z) :
  JSDate.isoDate s = Some (day, "") ->
  exists t, JSDate.dateParse h (s ++ "T00:00:00") = Some t
            /\ JSDate.getDay h t = JSDate.weekDay day.
Proof.
  intros I. exists (day * JSDate.msPerDay - JSDate.tza h)%Z. split.
  - unfold JSDate.dateParse. rewrite (isoDate_with_time s day I). reflexivity.
  - apply getDay_local.
Qed.

(** the clerk's function reads it on a host at or east of Greenwich, and
    reads the day before on a host west of it. *)
Lemma clerk_reads_weekday (h : JSDate.Host) (s : string) (day : Z) :
  JSDate.isoDate s = Some (day, "") ->
  exists t, JSDate.dateParse h s = Some t
            /\ ((0 <= JSDate.tza h < JSDate.msPerDay)%Z ->
                JSDate.getDay h t = JSDate.weekDay day)
            /\ ((- JSDate.msPerDay <= JSDate.tza h < 0)%Z ->
                JSDate.getDay h t = JSDate.weekDay (day - 1)).
Proof.
  intros I. exists (day * JSDate.msPerDay)%Z. split.
  - unfold JSDate.dateParse. rewrite I. reflexivity.
  - split; [apply getDay_utc_east|apply getDay_utc_west].
Qed.

(** ** The scenario *)

(** The clerk's function gives the two free slots on a host at or east of
    Greenwich, *)
Lemma clerk_scenario_east (h : JSDate.Host) :
  (0 <= JSDate.tza h < JSDate.msPerDay)%Z ->
  Clerk.availableSlots h [Scenario.doctorD] [Scenario.thatAppt]
    (JStr "Dr. D") Scenario.thatMonday = ["09:00"; "10:00"].
Proof.
  intros B. unfold Clerk.availableSlots.
  change (truthy Scenario.thatMonday) with true. cbn [negb].
  unfold Clerk.baseSlots.
  assert (S : Clerk.scheduleBase h (findDoctor [Scenario.doctorD] (JStr "Dr. D"))
                (strOf Scenario.thatMonday) = ["09:00"; "09:30"; "10:00"]).
  { change (findDoctor [Scenario.doctorD] (JStr "Dr. D")) with (Some Scenario.doctorD).
    change (strOf Scenario.thatMonday) with "2024-01-01".
    unfold Clerk.scheduleBase.
    change (Doctor.workSchedule Scenario.doctorD)
      with (Some [("monday", Scenario.monday)]).
    rewrite dateParse_thatMonday. unfold dayEntry.
    rewrite (getDay_utc_east h 19723 B). reflexivity. }
  rewrite S. reflexivity.
Qed.

(** and the chief's function gives them on every host, for a form that is
    not the appointment itself. *)
Lemma chief_scenario (h : JSDate.Host) (formId : jsval) :
  formId <> JStr "a1" ->
  Chief.availableSlots h [Scenario.doctorD] [Scenario.thatAppt] formId
    (JStr "Dr. D") Scenario.thatMonday = ["09:00"; "10:00"].
Proof.
  intros N. unfold Chief.availableSlots, Chief.baseSlots.
  assert (S : Chief.scheduleBase h (findDoctor [Scenario.doctorD] (JStr "Dr. D"))
                Scenario.thatMonday = ["09:00"; "09:30"; "10:00"]).
  { change (findDoctor [Scenario.doctorD] (JStr "Dr. D")) with (Some Scenario.doctorD).
    unfold Chief.scheduleBase.
    change (Doctor.workSchedule Scenario.doctorD)
      with (Some [("monday", Scenario.monday)]).
    change (truthy Scenario.thatMonday) with true. cbv iota.
    change (strOf Scenario.thatMonday ++ "T00:00:00") with "2024-01-01T00:00:00".
    rewrite dateParse_thatMonday_local. unfold dayEntry.
    rewrite (getDay_local h 19723). reflexivity. }
  rewrite S.
  assert (K : Chief.booked [Scenario.doctorD] [Scenario.thatAppt] formId
                (JStr "Dr. D") Scenario.thatMonday = [Scenario.thatAppt]).
  { unfold Chief.booked. cbn [filter].
    change (Appointment.id Scenario.thatAppt) with (JStr "a1").
    assert (strictEq (JStr "a1") formId = false) as ->.
    { apply strictEq_false. congruence. }
    now destruct (truthy formId). }
  rewrite K. reflexivity.
Qed.

(** C2, on the code.  On a host five hours west of Greenwich the clerk's
    [availableSlots] reads the Monday 2024-01-01 as a Sunday: [new
    Date("2024-01-01")] is UTC midnight and [getDay()] is local.  The doctor
    has no Sunday, so the default grid is taken, without 09:30. *)
Theorem clerk_scenario_west :
  JSDate.weekDay 19723 = 1%Z
  /\ JSDate.dateParse (Scenario.hostAt (-5)) "2024-01-01"
     = Some (19723 * JSDate.msPerDay)%Z
  /\ JSDate.getDay (Scenario.hostAt (-5)) (19723 * JSDate.msPerDay) = 0%Z
  /\ Clerk.availableSlots (Scenario.hostAt (-5)) [Scenario.doctorD]
       [Scenario.thatAppt] (JStr "Dr. D") Scenario.thatMonday
     = ["09:00"; "10:00"; "10:30"; "11:00"; "11:30"; "12:00"; "12:30"; "13:00";
        "13:30"; "14:00"; "14:30"; "15:00"; "15:30"; "16:00"; "16:30"; "17:00"].
Proof. repeat split. Qed.

(** The same reading of the date gives a disabled Monday the slots of the
    Sunday, west of Greenwich; the chief's function gives it the default
    grid. *)
Lemma clerk_west_reads_the_day_before :
  Clerk.availableSlots (Scenario.hostAt (-5)) [Scenario.doctorS] []
    (JStr "Dr. S") Scenario.thatMonday = ["08:00"]
  /\ Clerk.availableSlots (Scenario.hostAt 3) [Scenario.doctorS] []
       (JStr "Dr. S") Scenario.thatMonday = defaultSlots
  /\ Chief.availableSlots (Scenario.hostAt (-5)) [Scenario.doctorS] [] (JStr "")
       (JStr "Dr. S") Scenario.thatMonday = defaultSlots.
Proof. repeat split. Qed.

(** ** The default grid *)

Lemma noUsableSlots_None (e : option daySchedule) :
  noUsableSlots e -> usableSlots e = None.
Proof.
  destruct e as [ds|]; simpl; [|reflexivity].
  intros [E | [S | S]].
  - now rewrite E.
  - rewrite S. now destruct (enabled ds).
  - rewrite S. now destruct (enabled ds).
Qed.

Lemma usableSlots_None (e : option daySchedule) :
  usableSlots e = None -> noUsableSlots e.
Proof.
  destruct e as [ds|]; simpl; [|trivial].
  destruct (enabled ds); [|now left].
  destruct (slots ds) as [[|s l]|]; [auto|discriminate|auto].
Qed.

Lemma freeSlots_default : freeSlots defaultSlots [] = defaultSlots.
Proof. reflexivity. Qed.

Lemma clerk_staticBase_none (docName : jsval) :
  Clerk.staticSlots docName = None -> Clerk.staticBase docName = [].
Proof. unfold Clerk.staticBase. now intros ->. Qed.

Lemma clerk_default_of_empty_base (h : JSDate.Host) (doctors : list Doctor.t)
  (docName dateStr : jsval) :
  truthy dateStr = true -> Clerk.staticSlots docName = None ->
  Clerk.scheduleBase h (findDoctor doctors docName) (strOf dateStr) = [] ->
  Clerk.availableSlots h doctors [] docName dateStr = defaultSlots.
Proof.
  intros T St B. unfold Clerk.availableSlots, Clerk.baseSlots.
  rewrite T, B, (clerk_staticBase_none docName St). apply freeSlots_default.
Qed.

Lemma chief_default_of_empty_base (h : JSDate.Host) (doctors : list Doctor.t)
  (formId docName dateStr : jsval) :
  Chief.scheduleBase h (findDoctor doctors docName) dateStr = [] ->
  Chief.availableSlots h doctors [] formId docName dateStr = defaultSlots.
Proof.
  intros B. unfold Chief.availableSlots, Chief.baseSlots.
  rewrite B. apply freeSlots_default.
Qed.

Lemma lookup_missing (docName : jsval) :
  StaticTable.lookup docName = StaticTable.Missing -> Clerk.staticSlots docName = None.
Proof.
  unfold StaticTable.lookup, Clerk.staticSlots.
  destruct (prop Clerk.doctorSlots (toString docName)); [discriminate|reflexivity].
Qed.

(** Take a doctor for whose name [doctorSlots] has nothing.  If the doctor
    is unknown or has no work schedule, or if a date is given and the entry
    of the schedule that the function reads for it is missing, is not
    enabled, or has no slot, then [availableSlots], of the clerk and of the
    chief, over no appointment returns the default grid: seventeen labels
    from 09:00 to 17:00, half an hour apart.  The entry read is the one of
    the weekday that [getDay()] gives for the date as each function reads
    it. *)
Theorem default_grid_without_usable_slots (h : JSDate.Host)
  (doctors : list Doctor.t) (formId docName dateStr : jsval) :
  StaticTable.lookup docName = StaticTable.Missing ->
  (forall d ws,
     findDoctor doctors docName = Some d -> Doctor.workSchedule d = Some ws ->
     truthy dateStr = true
     /\ (forall t, JSDate.dateParse h (strOf dateStr) = Some t ->
                   noUsableSlots (dayEntry h ws t))
     /\ (forall t, JSDate.dateParse h (strOf dateStr ++ "T00:00:00") = Some t ->
                   noUsableSlots (dayEntry h ws t))) ->
  Clerk.availableSlots h doctors [] docName dateStr = defaultSlots
  /\ Chief.availableSlots h doctors [] formId docName dateStr = defaultSlots
  /\ defaultSlots
     = ["09:00"; "09:30"; "10:00"; "10:30"; "11:00"; "11:30"; "12:00"; "12:30";
        "13:00"; "13:30"; "14:00"; "14:30"; "15:00"; "15:30"; "16:00"; "16:30";
        "17:00"]
  /\ List.length defaultSlots = 17.
Proof.
  intros St Day. apply lookup_missing in St. split; [|split; [|split; reflexivity]].
  - assert (B : Clerk.scheduleBase h (findDoctor doctors docName) (strOf dateStr) = []).
    { unfold Clerk.scheduleBase.
      destruct (findDoctor doctors docName) as [d|]; [|reflexivity].
      destruct (Doctor.workSchedule d) as [ws|] eqn:W; [|reflexivity].
      destruct (Day d ws eq_refl W) as (_ & P & _).
      destruct (JSDate.dateParse h (strOf dateStr)) as [t|]; [|reflexivity].
      now rewrite (noUsableSlots_None _ (P t eq_refl)). }
    destruct (truthy dateStr) eqn:T.
    + now apply clerk_default_of_empty_base.
    + unfold Clerk.availableSlots. rewrite T, St. cbn [negb].
      destruct (findDoctor doctors docName) as [d|]; [|reflexivity].
      destruct (Doctor.workSchedule d) as [ws|] eqn:W; [|reflexivity].
      destruct (Day d ws eq_refl W) as (T' & _). congruence.
  - apply chief_default_of_empty_base. unfold Chief.scheduleBase.
    destruct (findDoctor doctors docName) as [d|]; [|reflexivity].
    destruct (Doctor.workSchedule d) as [ws|] eqn:W; [|reflexivity].
    destruct (Day d ws eq_refl W) as (_ & _ & P).
    destruct (truthy dateStr); [|reflexivity].
    destruct (JSDate.dateParse h (strOf dateStr ++ "T00:00:00")) as [t|]; [|reflexivity].
    now rewrite (noUsableSlots_None _ (P t eq_refl)).
Qed.

(** Doctor D on the Tuesday 2024-01-02, a day without an entry, and a doctor
    that nobody knows. *)
Lemma default_grid_without_usable_slots_witness :
  Clerk.availableSlots (Scenario.hostAt 3) [Scenario.doctorD] []
    (JStr "Dr. D") (JStr "2024-01-02") = defaultSlots
  /\ Chief.availableSlots (Scenario.hostAt 3) [Scenario.doctorD] [] (JStr "")
       (JStr "Dr. D") (JStr "2024-01-02") = defaultSlots
  /\ Clerk.availableSlots (Scenario.hostAt 3) [] [] (JStr "Dr. X") JUndefined
     = defaultSlots.
Proof.
  assert (D : Clerk.availableSlots (Scenario.hostAt 3) [Scenario.doctorD] []
                (JStr "Dr. D") (JStr "2024-01-02") = defaultSlots
              /\ Chief.availableSlots (Scenario.hostAt 3) [Scenario.doctorD] []
                   (JStr "") (JStr "Dr. D") (JStr "2024-01-02") = defaultSlots).
  { destruct (default_grid_without_usable_slots (Scenario.hostAt 3)
                [Scenario.doctorD] (JStr "") (JStr "Dr. D") (JStr "2024-01-02")
                eq_refl) as (C & K & _).
    - intros d ws F W. injection F as <-. injection W as <-.
      split; [reflexivity|].
      split; intros t P; injection P as <-; exact I.
    - split; assumption. }
  destruct D as [C K]. split; [exact C|]. split; [exact K|].
  destruct (default_grid_without_usable_slots (Scenario.hostAt 3) [] (JStr "")
              (JStr "Dr. X") JUndefined eq_refl) as (X & _).
  - intros d ws F. discriminate.
  - exact X.
Defined.

(** In terms of the calendar: for a date [YYYY-MM-DD] whose weekday has no
    usable entry, the chief's function returns the default grid on every
    host, and the clerk's function on a host at or east of Greenwich. *)
Lemma default_grid_on_calendar_day (h : JSDate.Host) (doctors : list Doctor.t)
  (formId docName : jsval) (s : string) (day : Z) (d : Doctor.t)
  (ws : list (string * daySchedule)) :
  JSDate.isoDate s = Some (day, "") ->
  StaticTable.lookup docName = StaticTable.Missing ->
  findDoctor doctors docName = Some d -> Doctor.workSchedule d = Some ws ->
  noUsableSlots (prop ws (nth (Z.to_nat (JSDate.weekDay day)) dayNames "undefined")) ->
  Chief.availableSlots h doctors [] formId docName (JStr s) = defaultSlots
  /\ ((0 <= JSDate.tza h < JSDate.msPerDay)%Z ->
      Clerk.availableSlots h doctors [] docName (JStr s) = defaultSlots).
Proof.
  intros I St F W N. apply lookup_missing in St.
  assert (T : truthy (JStr s) = true) by (destruct s; [discriminate|reflexivity]).
  split.
  - apply chief_default_of_empty_base. rewrite F. unfold Chief.scheduleBase.
    rewrite W, T. cbn [strOf].
    destruct (chief_reads_weekday h s day I) as (t & -> & G).
    unfold dayEntry. rewrite G. now rewrite (noUsableSlots_None _ N).
  - intros B. apply clerk_default_of_empty_base; [exact T|exact St|].
    rewrite F. unfold Clerk.scheduleBase. rewrite W. cbn [strOf].
    destruct (clerk_reads_weekday h s day I) as (t & -> & G & _).
    unfold dayEntry. rewrite (G B). now rewrite (noUsableSlots_None _ N).
Qed.

(** C4.  A doctor whose Monday is not enabled and whose Sunday has one slot,
    for whose name [doctorSlots] has nothing, asked for Monday 2024-01-01 in
    a browser five hours west of Greenwich.  The entry of the weekday of the
    date yields no usable slot, and the clerk's [availableSlots] over no
    appointment returns the slot of the Sunday, not the default grid: it
    reads the date as the UTC midnight and takes the weekday of the local
    clock.  The chief's function returns the default grid there, and the
    clerk's does three hours east of Greenwich. *)
Theorem disabled_day_west_of_utc :
  findDoctor [Scenario.doctorS] (JStr "Dr. S") = Some Scenario.doctorS
  /\ StaticTable.lookup (JStr "Dr. S") = StaticTable.Missing
  /\ JSDate.isoDate "2024-01-01" = Some (19723%Z, "")
  /\ nth (Z.to_nat (JSDate.weekDay 19723)) dayNames "undefined" = "monday"
  /\ noUsableSlots (prop [("sunday", {| enabled := true; slots := Some ["08:00"] |});
                          ("monday", {| enabled := false; slots := Some ["09:00"] |})]
                      "monday")
  /\ Clerk.availableSlots (Scenario.hostAt (-5)) [Scenario.doctorS] []
       (JStr "Dr. S") (JStr "2024-01-01") = ["08:00"]
  /\ Clerk.availableSlots (Scenario.hostAt (-5)) [Scenario.doctorS] []
       (JStr "Dr. S") (JStr "2024-01-01") <> defaultSlots
  /\ Chief.availableSlots (Scenario.hostAt (-5)) [Scenario.doctorS] [] (JStr "")
       (JStr "Dr. S") (JStr "2024-01-01") = defaultSlots
  /\ Clerk.availableSlots (Scenario.hostAt 3) [Scenario.doctorS] []
       (JStr "Dr. S") (JStr "2024-01-01") = defaultSlots.
Proof.
  repeat split; try discriminate. now left.
Qed.

(** * Further properties of the code *)

(** ** What [availableSlots] subtracts *)

Lemma takenTimes_In (l : list Appointment.t) (t : string) :
  In t (takenTimes l) <->
  exists a, In a l /\ Spec.normalTime a = t /\ t <> "".
Proof.
  unfold takenTimes, Spec.normalTime. rewrite filter_In, in_map_iff. split.
  - intros [(a & E & I) N]. exists a. repeat split; try assumption.
    apply negb_true_iff in N. now apply String.eqb_neq in N.
  - intros (a & I & E & N). split; [eauto|].
    apply negb_true_iff. now apply String.eqb_neq.
Qed.

Lemma existsb_eqb_In (s : string) (l : list string) :
  existsb (String.eqb s) l = true <-> In s l.
Proof.
  rewrite existsb_exists. split.
  - intros (x & I & E). apply String.eqb_eq in E. now subst.
  - intros I. exists s. split; [exact I|apply String.eqb_refl].
Qed.

Lemma freeSlots_In_iff (base taken : list string) (l : string) :
  In l (freeSlots base taken) <-> In l (map normalize base) /\ ~ In l taken.
Proof.
  unfold freeSlots. rewrite filter_In, negb_true_iff, <- (existsb_eqb_In l taken).
  rewrite not_true_iff_false. reflexivity.
Qed.

(** A label is free when it is a candidate and no appointment kept by the
    filter [p] has it as its normalised time; an appointment without a time
    takes nothing. *)
Lemma free_iff_not_held (base : list string) (p : Appointment.t -> bool)
  (appointments : list Appointment.t) (l : string) :
  In l (freeSlots base (takenTimes (filter p appointments))) <->
  In l (map normalize base)
  /\ (forall a, In a appointments -> p a = true ->
                Spec.normalTime a <> "" -> Spec.normalTime a <> l).
Proof.
  rewrite freeSlots_In_iff, takenTimes_In. split.
  - intros [B N]. split; [exact B|]. intros a I P E L. apply N.
    exists a. rewrite filter_In. subst l. auto.
  - intros [B N]. split; [exact B|]. intros (a & I & E & L).
    apply filter_In in I as [I P]. apply (N a I P); congruence.
Qed.

(** ** One appointment, one label *)

Lemma filter_neither {A : Type} (f g : A -> bool) (l : list A) :
  filter (fun x => negb (f x || g x)) l
  = filter (fun x => negb (f x)) (filter (fun x => negb (g x)) l).
Proof.
  induction l as [|x l IH]; [reflexivity|].
  cbn [filter]. rewrite IH, negb_orb.
  destruct (g x); cbn [negb]; [now rewrite andb_false_r|].
  rewrite andb_true_r. cbn [filter]. reflexivity.
Qed.

Lemma freeSlots_cons (base taken : list string) (t : string) :
  freeSlots base (t :: taken) = without t (freeSlots base taken).
Proof.
  unfold freeSlots, without. cbn [existsb].
  apply (filter_neither (fun s => String.eqb s t)
           (fun s => existsb (String.eqb s) taken)).
Qed.

Lemma freeSlots_filter_cons (base : list string) (p : Appointment.t -> bool)
  (a : Appointment.t) (l : list Appointment.t) :
  freeSlots base (takenTimes (filter p (a :: l)))
  = if p a && negb (String.eqb (Spec.normalTime a) "")
    then without (Spec.normalTime a) (freeSlots base (takenTimes (filter p l)))
    else freeSlots base (takenTimes (filter p l)).
Proof.
  cbn [filter]. destruct (p a); cbn [andb]; [|reflexivity].
  unfold takenTimes at 1. cbn [map filter]. fold (Spec.normalTime a).
  fold (takenTimes (filter p l)).
  destruct (String.eqb (Spec.normalTime a) ""); cbn [negb]; [reflexivity|].
  apply freeSlots_cons.
Qed.

(** X2.  With a date, one more appointment in the collection changes the
    result of [availableSlots] in one way only: when the appointment passes
    the filter of the function and has a time, its normalised time is removed
    from the result, and otherwise the result is the same.  So an
    appointment never frees a slot and never takes the slot of another time. *)
Theorem one_appointment_one_label (h : JSDate.Host) (doctors : list Doctor.t)
  (a : Appointment.t) (l : list Appointment.t) (formId docName dateStr : jsval) :
  truthy dateStr = true ->
  Clerk.availableSlots h doctors (a :: l) docName dateStr
  = (if clerkHolds doctors docName dateStr a
     then without (Spec.normalTime a) (Clerk.availableSlots h doctors l docName dateStr)
     else Clerk.availableSlots h doctors l docName dateStr)
  /\ Chief.availableSlots h doctors (a :: l) formId docName dateStr
     = (if chiefHolds doctors formId docName dateStr a
        then without (Spec.normalTime a)
               (Chief.availableSlots h doctors l formId docName dateStr)
        else Chief.availableSlots h doctors l formId docName dateStr).
Proof.
  intros T. split.
  - unfold Clerk.availableSlots, Clerk.booked, clerkHolds. rewrite T. cbn [negb].
    apply freeSlots_filter_cons.
  - unfold Chief.availableSlots, Chief.booked, chiefHolds.
    apply freeSlots_filter_cons.
Qed.

Lemma one_appointment_one_label_witness :
  Clerk.availableSlots (Scenario.hostAt 3) [Scenario.doctorD]
    [Scenario.appt (JStr "a2") (JStr "10:00 AM") (JStr "completed"); Scenario.thatAppt]
    (JStr "Dr. D") Scenario.thatMonday
  = without "10:00" (Clerk.availableSlots (Scenario.hostAt 3) [Scenario.doctorD]
                       [Scenario.thatAppt] (JStr "Dr. D") Scenario.thatMonday).
Proof.
  apply (one_appointment_one_label (Scenario.hostAt 3) [Scenario.doctorD]
           (Scenario.appt (JStr "a2") (JStr "10:00 AM") (JStr "completed"))
           [Scenario.thatAppt] (JStr "") (JStr "Dr. D") Scenario.thatMonday eq_refl).
Defined.

(** ** The order of the collection *)

Lemma freeSlots_same_taken (base t1 t2 : list string) :
  (forall s, In s t1 <-> In s t2) -> freeSlots base t1 = freeSlots base t2.
Proof.
  intros E. unfold freeSlots. apply filter_ext. intros s. f_equal.
  destruct (existsb (String.eqb s) t1) eqn:A, (existsb (String.eqb s) t2) eqn:B;
    try reflexivity.
  - apply existsb_eqb_In, E, existsb_eqb_In in A. congruence.
  - apply existsb_eqb_In, E, existsb_eqb_In in B. congruence.
Qed.

Lemma takenTimes_filter_same (p : Appointment.t -> bool) (l1 l2 : list Appointment.t) :
  (forall a, In a l1 <-> In a l2) ->
  forall s, In s (takenTimes (filter p l1)) <-> In s (takenTimes (filter p l2)).
Proof.
  intros P s. rewrite !takenTimes_In.
  split; intros (a & I & E); exists a; (split; [|exact E]);
    apply filter_In in I as [I Q]; apply filter_In; split; try exact Q;
    now apply P.
Qed.

(** X3.  The result of [availableSlots] does not depend on the order of the
    appointments in the collection, nor on how often an appointment occurs
    in it: two collections with the same members give the same slots, in the
    same order. *)
Theorem availableSlots_any_order (h : JSDate.Host) (doctors : list Doctor.t)
  (l1 l2 : list Appointment.t) (formId docName dateStr : jsval) :
  (forall a, In a l1 <-> In a l2) ->
  Clerk.availableSlots h doctors l1 docName dateStr
  = Clerk.availableSlots h doctors l2 docName dateStr
  /\ Chief.availableSlots h doctors l1 formId docName dateStr
     = Chief.availableSlots h doctors l2 formId docName dateStr.
Proof.
  intros P. split.
  - unfold Clerk.availableSlots. destruct (negb (truthy dateStr)); [reflexivity|].
    apply freeSlots_same_taken. unfold Clerk.booked.
    now apply takenTimes_filter_same.
  - unfold Chief.availableSlots. apply freeSlots_same_taken. unfold Chief.booked.
    now apply takenTimes_filter_same.
Qed.

Lemma availableSlots_any_order_witness :
  let b := Scenario.appt (JStr "a2") (JStr "10:00") (JStr "scheduled") in
  Clerk.availableSlots (Scenario.hostAt 3) [Scenario.doctorD]
    [Scenario.thatAppt; b; Scenario.thatAppt] (JStr "Dr. D") Scenario.thatMonday
  = Clerk.availableSlots (Scenario.hostAt 3) [Scenario.doctorD] [b; Scenario.thatAppt]
      (JStr "Dr. D") Scenario.thatMonday.
Proof.
  intros b.
  apply (availableSlots_any_order (Scenario.hostAt 3) [Scenario.doctorD]
           [Scenario.thatAppt; b; Scenario.thatAppt] [b; Scenario.thatAppt] (JStr "")
           (JStr "Dr. D") Scenario.thatMonday).
  intros a. simpl. tauto.
Defined.

(** ** Without a date *)



(** ** The slots of the clerk's modal *)

(** X5.  The modal of the clerk computes its slots as if the appointment
    being edited were not in the collection, whatever the [id] of the form,
    absent included; and it offers nothing until a doctor and a date are
    chosen. *)
Theorem modal_ignores_edited (h : JSDate.Host) (doctors : list Doctor.t)
  (l1 l2 : list Appointment.t) (a form : Appointment.t) :
  Appointment.id a = Appointment.id form ->
  ClerkModal.slots h doctors (l1 ++ a :: l2) form
  = ClerkModal.slots h doctors (l1 ++ l2) form
  /\ (truthy (Appointment.doctor form) = false \/ truthy (Appointment.date form) = false ->
      ClerkModal.slots h doctors (l1 ++ a :: l2) form = []).
Proof.
  intros E. split.
  - unfold ClerkModal.slots, ClerkModal.booked.
    rewrite filter_drop; [reflexivity|]. now rewrite E, strictEq_refl.
  - unfold ClerkModal.slots. intros [-> | ->]; [reflexivity|].
    now rewrite orb_true_r.
Qed.

Lemma modal_ignores_edited_witness :
  ClerkModal.slots (Scenario.hostAt (-5)) [Scenario.doctorD] [Scenario.thatAppt]
    (formD (JStr "a1") (JStr "")) = ["09:00"; "09:30"; "10:00"].
Proof.
  destruct (modal_ignores_edited (Scenario.hostAt (-5)) [Scenario.doctorD] [] []
              Scenario.thatAppt (formD (JStr "a1") (JStr "")) eq_refl) as [E _].
  exact E.
Defined.

Lemma chief_scheduleBase_oneMarker (h : JSDate.Host) (doctor : option Doctor.t)
  (dateStr : jsval) (b : string) :
  (forall d, doctor = Some d -> scheduleLabelsOk d = true) ->
  In b (Chief.scheduleBase h doctor dateStr) -> oneMarker b = true.
Proof.
  intros Ok. unfold Chief.scheduleBase.
  destruct doctor as [d|]; [|intros []].
  destruct (Doctor.workSchedule d) as [ws|] eqn:W; [|intros []].
  destruct (truthy dateStr); [|intros []].
  destruct (JSDate.dateParse h _) as [t|]; [|intros []].
  destruct (usableSlots (dayEntry h ws t)) as [sl|] eqn:U; [|intros []].
  intros B.
  apply (scheduleLabelsOk_entry d ws _ _ sl b (Ok d eq_refl) W eq_refl U B).
Qed.

(** X6.  Every label that the modal of the clerk or the chief's
    [availableSlots] returns, for every form, date and collection, has no
    white space around it; and it holds no marker when no label of the work
    schedule of the doctor keeps one after its first marker is removed. *)
Theorem modal_labels_normalized (h : JSDate.Host) (doctors : list Doctor.t)
  (appointments : list Appointment.t) (form : Appointment.t)
  (formId docName dateStr : jsval) (l : string) :
  (In l (ClerkModal.slots h doctors appointments form) ->
   surrounded l = false
   /\ ((forall d, ClerkModal.findDoctor doctors (Appointment.doctor form) = Some d ->
                  scheduleLabelsOk d = true) ->
       hasMarker l = false))
  /\ (In l (Chief.availableSlots h doctors appointments formId docName dateStr) ->
      surrounded l = false
      /\ ((forall d, findDoctor doctors docName = Some d -> scheduleLabelsOk d = true) ->
          hasMarker l = false)).
Proof.
  split.
  - unfold ClerkModal.slots. destruct (_ || _); [intros []|].
    intros H. apply freeSlots_In in H as (b & B & ->).
    split; [apply surrounded_normalize|]. intros Ok.
    rewrite hasMarker_normalize. apply negb_true_iff. fold (oneMarker b).
    unfold ClerkModal.baseSlots in B.
    pose proof (chief_scheduleBase_oneMarker h _ (Appointment.date form) b Ok) as S.
    destruct (Chief.scheduleBase h _ (Appointment.date form)).
    + pose proof (staticBase_oneMarker (Appointment.doctor form) b) as T.
      destruct (Clerk.staticBase (Appointment.doctor form));
        [now apply defaultSlots_oneMarker|now apply T].
    + now apply S.
  - unfold Chief.availableSlots.
    intros H. apply freeSlots_In in H as (b & B & ->).
    split; [apply surrounded_normalize|]. intros Ok.
    rewrite hasMarker_normalize. apply negb_true_iff. fold (oneMarker b).
    unfold Chief.baseSlots in B.
    pose proof (chief_scheduleBase_oneMarker h _ dateStr b Ok) as S.
    destruct (Chief.scheduleBase h _ dateStr);
      [now apply defaultSlots_oneMarker|now apply S].
Qed.

Lemma modal_labels_normalized_witness :
  In "09:00" (ClerkModal.slots (Scenario.hostAt 3) [Scenario.doctorD] []
                (formD (JStr "A-1") (JStr "")))
  /\ surrounded "09:00" = false.
Proof.
  assert (I : In "09:00" (ClerkModal.slots (Scenario.hostAt 3) [Scenario.doctorD] []
                (formD (JStr "A-1") (JStr "")))).
  { vm_compute. auto. }
  destruct (modal_labels_normalized (Scenario.hostAt 3) [Scenario.doctorD] []
              (formD (JStr "A-1") (JStr ""))
              JUndefined JUndefined JUndefined "09:00") as [M _].
  split; [exact I|]. exact (proj1 (M I)).
Defined.

(** ** Three computations of the free slots *)

Lemma modal_findDoctor_by_name (doctors : list Doctor.t) (who : jsval) :
  (forall d, In d doctors -> Doctor.id d <> who /\ Doctor.uid d <> who) ->
  ClerkModal.findDoctor doctors who = findDoctor doctors who.
Proof.
  unfold ClerkModal.findDoctor, findDoctor.
  induction doctors as [|d l IH]; intros N; [reflexivity|].
  cbn [find]. destruct (N d (or_introl eq_refl)) as [I U].
  apply strictEq_false in I, U. rewrite I, U, !orb_false_r.
  destruct (strictEq (Doctor.name d) who); [reflexivity|].
  apply IH. intros d' D. apply N. now right.
Qed.

Lemma isoDate_nonempty (s : string) (day : Z) (rest : string) :
  JSDate.isoDate s = Some (day, rest) -> truthy (JStr s) = true.
Proof. destruct s; [discriminate|reflexivity]. Qed.

(** The two readings of a date give the same entry of the schedule at or east
    of Greenwich. *)
Lemma scheduleBase_east (h : JSDate.Host) (doctor : option Doctor.t)
  (s : string) (day : Z) :
  JSDate.isoDate s = Some (day, "") ->
  (0 <= JSDate.tza h < JSDate.msPerDay)%Z ->
  Clerk.scheduleBase h doctor s = Chief.scheduleBase h doctor (JStr s).
Proof.
  intros I B. unfold Clerk.scheduleBase, Chief.scheduleBase.
  destruct doctor as [d|]; [|reflexivity].
  destruct (Doctor.workSchedule d) as [ws|]; [|reflexivity].
  rewrite (isoDate_nonempty s day "" I). cbn [strOf].
  destruct (clerk_reads_weekday h s day I) as (t & -> & G & _).
  destruct (chief_reads_weekday h s day I) as (t' & -> & G').
  unfold dayEntry. now rewrite (G B), G'.
Qed.

(** X7.  For a form with an [id], a doctor for whose name [doctorSlots] has
    nothing, neither a list nor a member of [Object.prototype], and known by
    name only, the modal of the clerk and the chief's [availableSlots]
    return the same slots, on every host, for every date and collection. *)
Theorem modal_agrees_with_chief (h : JSDate.Host) (doctors : list Doctor.t)
  (appointments : list Appointment.t) (form : Appointment.t) :
  truthy (Appointment.doctor form) = true ->
  truthy (Appointment.date form) = true ->
  truthy (Appointment.id form) = true ->
  StaticTable.lookup (Appointment.doctor form) = StaticTable.Missing ->
  (forall d, In d doctors ->
     Doctor.id d <> Appointment.doctor form /\ Doctor.uid d <> Appointment.doctor form) ->
  ClerkModal.slots h doctors appointments form
  = Chief.availableSlots h doctors appointments (Appointment.id form)
      (Appointment.doctor form) (Appointment.date form).
Proof.
  intros D T I S N. apply lookup_missing in S.
  unfold ClerkModal.slots, Chief.availableSlots. rewrite D, T. cbn [negb orb].
  unfold ClerkModal.baseSlots, Chief.baseSlots, ClerkModal.booked, Chief.booked.
  rewrite (modal_findDoctor_by_name doctors _ N), I.
  rewrite (clerk_staticBase_none _ S).
  destruct (Chief.scheduleBase h _ _); reflexivity.
Qed.

Lemma modal_agrees_with_chief_witness :
  ClerkModal.slots (Scenario.hostAt (-5)) [Scenario.doctorD] [Scenario.thatAppt]
    (formD (JStr "A-7") (JStr ""))
  = Chief.availableSlots (Scenario.hostAt (-5)) [Scenario.doctorD] [Scenario.thatAppt]
      (JStr "A-7") (JStr "Dr. D") Scenario.thatMonday.
Proof.
  apply (modal_agrees_with_chief (Scenario.hostAt (-5)) [Scenario.doctorD]
           [Scenario.thatAppt] (formD (JStr "A-7") (JStr ""))); try reflexivity.
  intros d [<-|[]]. split; discriminate.
Defined.

(** X8.  At or east of Greenwich, for a date [YYYY-MM-DD] and a form whose
    [id] no appointment has, the slots that the clerk's dashboard shows for a
    doctor known by name only are the slots of the modal that opens on them.
    West of Greenwich they can differ: the dashboard reads the day before. *)
Theorem dashboard_agrees_with_modal_east (h : JSDate.Host) (doctors : list Doctor.t)
  (appointments : list Appointment.t) (form : Appointment.t) (s : string) (day : Z) :
  (0 <= JSDate.tza h < JSDate.msPerDay)%Z ->
  Appointment.date form = JStr s -> JSDate.isoDate s = Some (day, "") ->
  truthy (Appointment.doctor form) = true ->
  (forall d, In d doctors ->
     Doctor.id d <> Appointment.doctor form /\ Doctor.uid d <> Appointment.doctor form) ->
  (forall a, In a appointments -> Appointment.id a <> Appointment.id form) ->
  Clerk.availableSlots h doctors appointments (Appointment.doctor form) (JStr s)
  = ClerkModal.slots h doctors appointments form.
Proof.
  intros B E I D N F.
  pose proof (isoDate_nonempty s day "" I) as T.
  unfold Clerk.availableSlots, ClerkModal.slots. rewrite E, T, D. cbn [negb orb strOf].
  unfold Clerk.baseSlots, ClerkModal.baseSlots, Clerk.booked, ClerkModal.booked.
  rewrite (modal_findDoctor_by_name doctors _ N), E.
  rewrite (scheduleBase_east h _ s day I B).
  f_equal. f_equal. apply filter_ext_in. intros a A.
  assert (X : strictEq (Appointment.id a) (Appointment.id form) = false).
  { apply strictEq_false. now apply F. }
  now rewrite X.
Qed.

Lemma dashboard_agrees_with_modal_east_witness :
  Clerk.availableSlots (Scenario.hostAt 3) [Scenario.doctorD] [Scenario.thatAppt]
    (JStr "Dr. D") (JStr "2024-01-01")
  = ClerkModal.slots (Scenario.hostAt 3) [Scenario.doctorD] [Scenario.thatAppt]
      (formD (JStr "A-7") (JStr ""))
  /\ Clerk.availableSlots (Scenario.hostAt (-5)) [Scenario.doctorD] [Scenario.thatAppt]
       (JStr "Dr. D") (JStr "2024-01-01")
     <> ClerkModal.slots (Scenario.hostAt (-5)) [Scenario.doctorD] [Scenario.thatAppt]
          (formD (JStr "A-7") (JStr "")).
Proof.
  split.
  - apply (dashboard_agrees_with_modal_east (Scenario.hostAt 3) [Scenario.doctorD]
             [Scenario.thatAppt] (formD (JStr "A-7") (JStr "")) "2024-01-01" 19723);
      try reflexivity.
    + unfold JSDate.msPerDay. simpl. lia.
    + intros d [<-|[]]. split; discriminate.
    + intros a [<-|[]]. discriminate.
  - vm_compute. discriminate.
Defined.

(** ** The forms of the modals *)

Lemma incomplete_orb (form : Appointment.t) :
  negb (truthy (Appointment.patient form)) || negb (truthy (Appointment.doctor form))
  || negb (truthy (Appointment.date form)) || negb (truthy (Appointment.time form))
  = negb (formComplete form).
Proof. unfold formComplete. now rewrite !negb_andb. Qed.

Lemma truthy_not_empty (x : jsval) :
  truthy x = true -> negb (truthy x) || strictEq x (JStr "") = false.
Proof.
  intros T. rewrite T. destruct x as [| |t]; try discriminate.
  simpl in *. now apply negb_true_iff in T.
Qed.

(** X9.  A form of either modal goes to the handler of the dashboard only
    with a patient, a doctor, a date and a time: when one of them is empty or
    absent the modal shows one alert and calls nothing; otherwise it hands
    the form over as it is and shows nothing itself, so that the second alert
    of the clerk's form, on the time slot, is never shown. *)
Theorem incomplete_form_is_not_saved (onSave : Appointment.t -> list effect)
  (form : Appointment.t) :
  (formComplete form = false ->
   ClerkModal.saveClerkAppointmentForm onSave form
   = ([Alert "Please fill all fields: Patient, Doctor, Date, and Time are required."],
      Some tt)
   /\ ChiefActions.saveChiefAppointmentForm onSave form
      = ([Alert "Fill all fields."], Some tt))
  /\ (formComplete form = true ->
      ClerkModal.saveClerkAppointmentForm onSave form = (onSave form, Some tt)
      /\ ChiefActions.saveChiefAppointmentForm onSave form = (onSave form, Some tt)).
Proof.
  unfold ClerkModal.saveClerkAppointmentForm, ChiefActions.saveChiefAppointmentForm.
  rewrite incomplete_orb. split; intros C; rewrite C; cbn [negb].
  - split; reflexivity.
  - split; [|reflexivity].
    unfold formComplete in C. apply andb_prop in C as [_ T].
    now rewrite (truthy_not_empty _ T).
Qed.

Lemma incomplete_form_is_not_saved_witness :
  ClerkModal.saveClerkAppointmentForm
    (clerkOnSave Scenario.anyWorld [Scenario.doctorD] [] [])
    (formD (JStr "A-7") (JStr ""))
  = ([Alert "Please fill all fields: Patient, Doctor, Date, and Time are required."],
     Some tt)
  /\ ChiefActions.saveChiefAppointmentForm
       (clerkOnSave Scenario.anyWorld [Scenario.doctorD] [] [])
       (formD (JStr "A-7") (JStr "10:00"))
     = ([CreateWebAppointment
           (ClerkActions.newOf [Scenario.doctorD] [] (formD (JStr "A-7") (JStr "10:00")))],
        Some tt).
Proof.
  destruct (incomplete_form_is_not_saved
              (clerkOnSave Scenario.anyWorld [Scenario.doctorD] [] [])
              (formD (JStr "A-7") (JStr ""))) as [No _].
  destruct (incomplete_form_is_not_saved
              (clerkOnSave Scenario.anyWorld [Scenario.doctorD] [] [])
              (formD (JStr "A-7") (JStr "10:00"))) as [_ Yes].
  split.
  - exact (proj1 (No eq_refl)).
  - exact (proj2 (Yes eq_refl)).
Defined.

(** X10.  The heading of the modals is the wrong way round: a form whose
    [id] begins with [A-], which [saveAppointment] sends to
    [createWebAppointment], is headed [Edit Appointment], and a form with any
    other [id], which [saveAppointment] sends to [updateWebAppointment], is
    headed [New Appointment]. *)
Theorem heading_against_action (form : Appointment.t) :
  truthy (Appointment.id form) = true ->
  ClerkModal.headingIsEdit form = negb (savesAsUpdate form)
  /\ ChiefActions.headingIsEdit form = negb (savesAsUpdate form).
Proof.
  unfold ClerkModal.headingIsEdit, ChiefActions.headingIsEdit, savesAsUpdate.
  intros T. rewrite T. destruct (Appointment.id form) as [| |s]; try discriminate.
  cbn [toString strOf andb]. now rewrite negb_involutive.
Qed.

Lemma heading_against_action_witness :
  ClerkModal.headingIsEdit (formD (JStr "A-k3x9") (JStr "10:00")) = true
  /\ savesAsUpdate (formD (JStr "A-k3x9") (JStr "10:00")) = false
  /\ ClerkModal.headingIsEdit (formD (JStr "Zx81LmQ") (JStr "10:00")) = false
  /\ savesAsUpdate (formD (JStr "Zx81LmQ") (JStr "10:00")) = true.
Proof.
  destruct (heading_against_action (formD (JStr "A-k3x9") (JStr "10:00")) eq_refl)
    as [A _].
  destruct (heading_against_action (formD (JStr "Zx81LmQ") (JStr "10:00")) eq_refl)
    as [B _].
  repeat split; try exact A; exact B.
Defined.

(** ** The chief's actions *)

Lemma saveAppointment_branch (w : World) (doctors : list Doctor.t)
  (patients : list Patient.t) (appointments : list Appointment.t)
  (ap : Appointment.t) :
  ClerkActions.clash appointments ap = false ->
  trace (ClerkActions.saveAppointment w doctors patients appointments ap)
  = [if savesAsUpdate ap
     then UpdateWebAppointment (Appointment.id ap) (ClerkActions.updatesOf doctors ap)
     else CreateWebAppointment (ClerkActions.newOf doctors patients ap)].
Proof.
  intros C. unfold ClerkActions.saveAppointment, savesAsUpdate. rewrite C.
  now destruct (truthy (Appointment.id ap) && _).
Qed.

(** X11.  The chief's [saveAppointment] tests no clash: for every request
    it sends one write, the update or the creation that the clerk's function
    sends when its guard finds no clash, and it sends it also when the
    clerk's guard would refuse the request.  It never rejects: an error of
    the service ends in an alert. *)
Theorem chief_save_has_no_guard (f : ChiefActions.Failures) (w : World)
  (doctors : list Doctor.t) (patients : list Patient.t)
  (appointments : list Appointment.t) (ap : Appointment.t) :
  let request :=
    if savesAsUpdate ap
    then UpdateWebAppointment (Appointment.id ap) (ClerkActions.updatesOf doctors ap)
    else CreateWebAppointment (ClerkActions.newOf doctors patients ap) in
  (trace (ChiefActions.saveAppointment f doctors patients ap) = [request]
   \/ exists msg, trace (ChiefActions.saveAppointment f doctors patients ap)
                  = [request; Alert ("Error: " ++ msg)])
  /\ snd (ChiefActions.saveAppointment f doctors patients ap) = Some tt
  /\ (ClerkActions.clash appointments ap = false ->
      trace (ClerkActions.saveAppointment w doctors patients appointments ap) = [request])
  /\ (ClerkActions.clash appointments ap = true ->
      existsb isWrite
        (trace (ClerkActions.saveAppointment w doctors patients appointments ap)) = false
      /\ existsb isWrite (trace (ChiefActions.saveAppointment f doctors patients ap))
         = true).
Proof.
  intros request.
  assert (S : (trace (ChiefActions.saveAppointment f doctors patients ap) = [request]
               \/ exists msg, trace (ChiefActions.saveAppointment f doctors patients ap)
                              = [request; Alert ("Error: " ++ msg)])
              /\ snd (ChiefActions.saveAppointment f doctors patients ap) = Some tt).
  { unfold ChiefActions.saveAppointment, request, savesAsUpdate, ChiefActions.attempt.
    destruct (truthy (Appointment.id ap) && _).
    - destruct (ChiefActions.updateFails f _ _) as [msg|];
        (split; [|reflexivity]); [right; exists msg|left]; reflexivity.
    - destruct (ChiefActions.createFails f _) as [msg|];
        (split; [|reflexivity]); [right; exists msg|left]; reflexivity. }
  destruct S as [S R]. split; [exact S|]. split; [exact R|]. split.
  - apply saveAppointment_branch.
  - intros C. split.
    + unfold ClerkActions.saveAppointment. now rewrite C.
    + destruct S as [-> | [msg ->]]; unfold request; now destruct (savesAsUpdate ap).
Qed.

Lemma chief_save_has_no_guard_witness :
  let ap := formD (JStr "A-7") (JStr "09:30") in
  let taken := Scenario.appt (JStr "a1") (JStr "09:30") (JStr "Scheduled") in
  let busy := {| ChiefActions.updateFails := fun _ _ => None;
                 ChiefActions.createFails := fun _ => None |} in
  ClerkActions.clash [taken] ap = true
  /\ trace (ChiefActions.saveAppointment busy [Scenario.doctorD] [] ap)
     = [CreateWebAppointment (ClerkActions.newOf [Scenario.doctorD] [] ap)].
Proof.
  intros ap taken busy. split; [reflexivity|].
  destruct (chief_save_has_no_guard busy Scenario.anyWorld [Scenario.doctorD] []
              [taken] ap) as ([E | [msg E]] & _).
  - exact E.
  - discriminate E.
Defined.

(** X12.  The chief's [updateStatus] writes the status and offers no
    waitlist entry, for [Cancelled] as for any other status; the clerk's
    function, for the same cancellation of an appointment of the collection,
    asks the operator.  The chief's function never rejects. *)
Theorem chief_cancel_offers_nothing (f : ChiefActions.Failures) (id status : jsval) :
  existsb isWaitlistEffect (trace (ChiefActions.updateStatus f id status)) = false
  /\ hd_error (trace (ChiefActions.updateStatus f id status))
     = Some (UpdateWebAppointment id (ClerkActions.statusOnly status))
  /\ snd (ChiefActions.updateStatus f id status) = Some tt
  /\ forall answer doctors appointments ap,
       find (fun a => strictEq (Appointment.id a) id) appointments = Some ap ->
       ChiefActions.updateFails f id (ClerkActions.statusOnly (JStr "Cancelled")) = None ->
       existsb isWaitlistEffect
         (trace (ClerkActions.updateStatus (worldOf f answer) doctors appointments
                   id (JStr "Cancelled"))) = true.
Proof.
  unfold ChiefActions.updateStatus, ChiefActions.attempt.
  repeat split; try (destruct (ChiefActions.updateFails f id _); reflexivity).
  intros answer doctors appointments ap F U.
  unfold ClerkActions.updateStatus, await, worldOf. cbn [updateResolves].
  rewrite U. change (strictEq (JStr "Cancelled") (JStr "Cancelled")) with true.
  cbv iota. rewrite F. unfold confirm, bind, ret. cbn [operatorConfirms].
  destruct (answer _); reflexivity.
Qed.

Lemma chief_cancel_offers_nothing_witness :
  let f := {| ChiefActions.updateFails := fun _ _ => None;
              ChiefActions.createFails := fun _ => None |} in
  trace (ChiefActions.updateStatus f (JStr "a1") (JStr "Cancelled"))
  = [UpdateWebAppointment (JStr "a1") (ClerkActions.statusOnly (JStr "Cancelled"))]
  /\ existsb isWaitlistEffect
       (trace (ClerkActions.updateStatus (worldOf f (fun _ => false)) []
                 [Scenario.thatAppt] (JStr "a1") (JStr "Cancelled"))) = true.
Proof.
  intros f.
  destruct (chief_cancel_offers_nothing f (JStr "a1") (JStr "Cancelled"))
    as (_ & _ & _ & K).
  split; [reflexivity|].
  apply (K (fun _ => false) [] [Scenario.thatAppt] Scenario.thatAppt); reflexivity.
Defined.

(** ** The department of a doctor *)

(** X13.  [getDeptByDoctorName] always returns a string, in the clerk's and
    in the chief's version: the department of the first doctor found, or
    [Unknown] when no doctor is found or the doctor has no department.  The
    chief's version also finds a doctor by [id] or [uid]; for an identifier
    that is no [id] and no [uid] of a doctor the two versions agree. *)
Theorem department_is_a_string (doctors : list Doctor.t) (who : jsval) :
  (exists s, ClerkActions.getDeptByDoctorName doctors who = JStr s)
  /\ (exists s, ChiefActions.getDeptByDoctorName doctors who = JStr s)
  /\ (findDoctor doctors who = None ->
      ClerkActions.getDeptByDoctorName doctors who = JStr "Unknown")
  /\ ((forall d, In d doctors -> Doctor.id d <> who /\ Doctor.uid d <> who) ->
      ChiefActions.getDeptByDoctorName doctors who
      = ClerkActions.getDeptByDoctorName doctors who).
Proof.
  unfold ClerkActions.getDeptByDoctorName, ChiefActions.getDeptByDoctorName.
  repeat split.
  - destruct (findDoctor doctors who) as [d|]; simpl; [|eauto].
    destruct (Doctor.department d); simpl; eauto.
  - destruct (ClerkModal.findDoctor doctors who) as [d|]; simpl; [|eauto].
    destruct (Doctor.department d); simpl; eauto.
  - now intros ->.
  - intros N. now rewrite (modal_findDoctor_by_name doctors who N).
Qed.

Lemma department_is_a_string_witness :
  ChiefActions.getDeptByDoctorName [Scenario.doctorD] (JStr "Dr. D") = JStr "Oncology"
  /\ ClerkActions.getDeptByDoctorName [Scenario.doctorD] (JStr "u1") = JStr "Unknown"
  /\ ChiefActions.getDeptByDoctorName [Scenario.doctorD] (JStr "u1") = JStr "Oncology".
Proof.
  destruct (department_is_a_string [Scenario.doctorD] (JStr "Dr. D")) as (_ & _ & _ & A).
  destruct (department_is_a_string [Scenario.doctorD] (JStr "u1")) as (_ & _ & U & _).
  split; [|split].
  - rewrite A; [reflexivity|]. intros d [<-|[]]. split; discriminate.
  - apply U. reflexivity.
  - reflexivity.
Defined.

(** ** What [saveAppointment] sends *)

(** X14.  An update sent by [saveAppointment] never blanks a field: the
    patient name, the patient id, the date, the time and the status are
    written only with a value that is not empty, the id and the name of the
    doctor are written together or not at all, and the notes are written
    whenever the form has them, empty or not.  A creation carries the date and
    the time of the form as they are, a status that is never empty,
    [scheduled] by default, and never an undefined patient id or notes. *)
Theorem saved_fields (doctors : list Doctor.t) (patients : list Patient.t)
  (ap : Appointment.t) :
  let u := ClerkActions.updatesOf doctors ap in
  let n := ClerkActions.newOf doctors patients ap in
  (forall v, In (Some v) [u_patientName u; u_patientId u; u_date u; u_time u; u_status u] ->
             truthy v = true)
  /\ (u_doctorId u = None <-> u_doctorName u = None)
  /\ (u_notes u = None <-> Appointment.notes ap = JUndefined)
  /\ (forall v, u_date u = Some v -> v = Appointment.date ap)
  /\ (forall v, u_time u = Some v -> v = Appointment.time ap)
  /\ n_date n = Appointment.date ap /\ n_time n = Appointment.time ap
  /\ truthy (n_status n) = true
  /\ (truthy (Appointment.status ap) = false -> n_status n = JStr "scheduled")
  /\ n_patientId n <> JUndefined
  /\ (exists s, n_notes n = JStr s).
Proof.
  intros u n. unfold u, n, ClerkActions.updatesOf, ClerkActions.newOf, ClerkActions.setIf.
  cbn [u_patientName u_patientId u_date u_time u_status u_doctorId u_doctorName u_notes
       n_date n_time n_status n_patientId n_notes].
  repeat split.
  - intros v [H|[H|[H|[H|[H|[]]]]]];
      match type of H with (if ?c then _ else _) = _ =>
        destruct c eqn:E; [injection H as <-; exact E|discriminate] end.
  - destruct (if truthy (jsOr _ _) then _ else _); [discriminate|reflexivity].
  - destruct (if truthy (jsOr _ _) then _ else _); [discriminate|reflexivity].
  - destruct (strictEq_spec (Appointment.notes ap) JUndefined); [auto|discriminate].
  - intros ->. reflexivity.
  - intros v. destruct (truthy (Appointment.date ap)); congruence.
  - intros v. destruct (truthy (Appointment.time ap)); congruence.
  - unfold jsOr. now destruct (truthy (Appointment.status ap)) eqn:E.
  - intros E. unfold jsOr. now rewrite E.
  - unfold jsOr at 1. destruct (truthy (jsOr _ (Appointment.patientId ap))) eqn:E;
      [|discriminate].
    intros F. rewrite F in E. discriminate.
  - unfold jsOr. destruct (Appointment.notes ap) as [| |s]; simpl; eauto.
    destruct (negb (s =? "")); eauto.
Qed.

Lemma saved_fields_witness :
  u_time (ClerkActions.updatesOf [Scenario.doctorD] (formD (JStr "Zx81LmQ") (JStr "")))
  = None
  /\ n_status (ClerkActions.newOf [Scenario.doctorD] []
                 (Scenario.appt JUndefined (JStr "10:00") JUndefined))
     = JStr "scheduled".
Proof.
  split; [reflexivity|].
  apply (saved_fields [Scenario.doctorD] []
           (Scenario.appt JUndefined (JStr "10:00") JUndefined)).
  reflexivity.
Defined.

(** ** The calendar *)

Section Calendar.

Import JSDate Days.
Open Scope Z_scope.

Lemma yearOfDay_spec (day : Z) :
  dayFromYear (yearOfDay day) <= day < dayFromYear (yearOfDay day + 1).
Proof.
  unfold yearOfDay.
  set (y := 1970 + 400 * day / 146097).
  assert (Y : 146097 * (y - 1970) <= 400 * day < 146097 * (y - 1970) + 146097).
  { unfold y. Z.div_mod_to_equations. lia. }
  clearbody y.
  destruct (Z.ltb_spec day (dayFromYear y)) as [A|A].
  - replace (y - 1 + 1) with y by ring. split; [|exact A].
    unfold dayFromYear in *. Z.div_mod_to_equations. lia.
  - destruct (Z.leb_spec (dayFromYear (y + 1)) day) as [B|B].
    + split; [exact B|]. unfold dayFromYear in *. Z.div_mod_to_equations. lia.
    + split; assumption.
Qed.

Lemma year_length (y : Z) :
  dayFromYear (y + 1) - dayFromYear y = fold_right Z.add 0 (monthLengths y).
Proof.
  unfold monthLengths, inLeapYear, dayFromYear.
  destruct (Z.eqb_spec (y mod 4) 0), (Z.eqb_spec (y mod 100) 0), (Z.eqb_spec (y mod 400) 0);
    cbn [andb orb negb fold_right]; Z.div_mod_to_equations; lia.
Qed.

Lemma monthOf_spec (y r : Z) :
  0 <= r < fold_right Z.add 0 (monthLengths y) ->
  let '(m, r') := monthOf (monthLengths y) 1 r in
  1 <= m <= 12 /\ 0 <= r' < daysInMonth y m /\ daysBeforeMonth y m + r' = r.
Proof.
  unfold daysInMonth, daysBeforeMonth, monthLengths.
  destruct (inLeapYear y); cbn [fold_right monthOf]; intros R;
    repeat match goal with
           | |- context [if ?a <? ?b then _ else _] =>
               destruct (Z.ltb_spec a b)
           end;
    repeat match goal with
           | |- context [Z.to_nat ?e] =>
               let v := eval vm_compute in (Z.to_nat e) in change (Z.to_nat e) with v
           end;
    cbn [nth firstn fold_right]; lia.
Qed.

Lemma civil_spec (day : Z) :
  let '(y, m, d) := civil day in
  y = yearOfDay day /\ 1 <= m <= 12 /\ 1 <= d <= daysInMonth y m
  /\ makeDay y m d = day.
Proof.
  unfold civil, makeDay.
  pose proof (yearOfDay_spec day) as Y.
  pose proof (year_length (yearOfDay day)) as L.
  pose proof (monthOf_spec (yearOfDay day) (day - dayFromYear (yearOfDay day))) as M.
  destruct (monthOf _ 1 _) as [m r].
  destruct M as (M1 & M2 & M3); [lia|].
  repeat split; lia.
Qed.

Lemma digitOf_digitChar (k : Z) : 0 <= k <= 9 -> digitOf (digitChar k) = Some k.
Proof.
  intros K.
  assert (C : k = 0 \/ k = 1 \/ k = 2 \/ k = 3 \/ k = 4 \/ k = 5 \/ k = 6 \/ k = 7
              \/ k = 8 \/ k = 9) by lia.
  repeat (destruct C as [-> | C]; [reflexivity|]). subst. reflexivity.
Qed.

Lemma isoDate_fields (s : string) :
  isoDate s = match isoFields s with
              | Some (y, m, d, rest) => Some (makeDay y m d, rest)
              | None => None
              end.
Proof.
  unfold isoDate, isoFields.
  do 10 (destruct s as [|? s]; [reflexivity|]).
  repeat match goal with
         | |- context [match digitOf ?c with _ => _ end] =>
             destruct (digitOf c); [|reflexivity]
         end.
  match goal with |- context [if ?c then _ else _] => destruct c end; reflexivity.
Qed.

Lemma daysInMonth_bounds (y m : Z) :
  1 <= m <= 12 -> 28 <= daysInMonth y m <= 31.
Proof.
  intros M. unfold daysInMonth, monthLengths.
  assert (C : m = 1 \/ m = 2 \/ m = 3 \/ m = 4 \/ m = 5 \/ m = 6 \/ m = 7 \/ m = 8
              \/ m = 9 \/ m = 10 \/ m = 11 \/ m = 12) by lia.
  repeat (destruct C as [-> | C];
          [vm_compute (Z.to_nat _); cbn [nth]; try destruct (inLeapYear y); lia|]).
  subst. vm_compute (Z.to_nat _). cbn [nth]. lia.
Qed.

Lemma isoFields_format (y m d : Z) :
  0 <= y <= 9999 -> 1 <= m <= 12 -> 1 <= d <= daysInMonth y m ->
  isoFields (yearString y ++ "-" ++ pad2 m ++ "-" ++ pad2 d) = Some (y, m, d, "").
Proof.
  intros Y M D.
  pose proof (daysInMonth_bounds y m M) as D31.
  unfold yearString.
  replace ((0 <=? y) && (y <=? 9999)) with true
    by (symmetry; apply andb_true_intro; split; apply Z.leb_le; lia).
  unfold pad4, pad2. cbn [append]. unfold isoFields.
  rewrite !digitOf_digitChar by (Z.div_mod_to_equations; lia).
  replace (1000 * (y / 1000 mod 10) + 100 * (y / 100 mod 10) + 10 * (y / 10 mod 10)
           + y mod 10) with y by (Z.div_mod_to_equations; lia).
  replace (10 * (m / 10 mod 10) + m mod 10) with m by (Z.div_mod_to_equations; lia).
  replace (10 * (d / 10 mod 10) + d mod 10) with d by (Z.div_mod_to_equations; lia).
  cbv zeta.
  replace ((1 <=? m)) with true by (symmetry; apply Z.leb_le; lia).
  replace ((m <=? 12)) with true by (symmetry; apply Z.leb_le; lia).
  replace ((1 <=? d)) with true by (symmetry; apply Z.leb_le; lia).
  replace ((d <=? daysInMonth y m)) with true by (symmetry; apply Z.leb_le; lia).
  reflexivity.
Qed.

Lemma yearOfDay_range (day : Z) :
  dayFromYear 0 <= day < dayFromYear 10000 -> 0 <= yearOfDay day <= 9999.
Proof.
  pose proof (yearOfDay_spec day) as Y. revert Y.
  generalize (yearOfDay day). intros y Y R.
  unfold dayFromYear in *. Z.div_mod_to_equations. lia.
Qed.

Lemma isoDate_isoDay (t : Z) :
  dayFromYear 0 * msPerDay <= t < dayFromYear 10000 * msPerDay ->
  isoDate (isoDay t) = Some (t / msPerDay, "").
Proof.
  intros R.
  assert (D : dayFromYear 0 <= t / msPerDay < dayFromYear 10000).
  { unfold msPerDay in *. split.
    - apply Z.div_le_lower_bound; lia.
    - apply Z.div_lt_upper_bound; lia. }
  unfold isoDay. pose proof (civil_spec (t / msPerDay)) as C.
  destruct (civil (t / msPerDay)) as [[y m] d].
  destruct C as (-> & M & Dd & K).
  rewrite isoDate_fields, isoFields_format; try assumption.
  - now rewrite K.
  - now apply yearOfDay_range.
Qed.

Lemma makeDay_bounds (y m d : Z) :
  1 <= m <= 12 -> 1 <= d <= daysInMonth y m ->
  dayFromYear y <= makeDay y m d < dayFromYear (y + 1).
Proof.
  intros M D. pose proof (year_length y) as L. revert D L.
  unfold makeDay, daysInMonth, daysBeforeMonth, monthLengths.
  generalize (dayFromYear (y + 1)) (dayFromYear y). intros e b.
  destruct (inLeapYear y); cbn [fold_right];
  assert (C : m = 1 \/ m = 2 \/ m = 3 \/ m = 4 \/ m = 5 \/ m = 6 \/ m = 7 \/ m = 8
              \/ m = 9 \/ m = 10 \/ m = 11 \/ m = 12) by lia;
  repeat (destruct C as [-> | C];
          [vm_compute (Z.to_nat _); cbn [nth firstn fold_right]; lia|]);
  subst; vm_compute (Z.to_nat _); cbn [nth firstn fold_right]; lia.
Qed.

Lemma dayFromYear_mono (a b : Z) : a <= b -> dayFromYear a <= dayFromYear b.
Proof. intros L. unfold dayFromYear. Z.div_mod_to_equations. lia. Qed.

Lemma timeClip_id (t : Z) : Z.abs t <= 8640000000000000 -> timeClip t = Some t.
Proof. intros B. unfold timeClip. now apply Z.leb_le in B as ->. Qed.

End Calendar.

(** ** Days as strings *)

(** X15.  [fmtDay] names the UTC day of a date: for a date from year 0 to
    year 9999, the string it returns is read back by [new Date] as the UTC
    midnight of the day of the date, so that the clerk's [availableSlots],
    at or east of Greenwich, looks up the weekday of that UTC day. *)
Theorem fmtDay_round_trip (h : JSDate.Host) (t : Z) :
  (JSDate.dayFromYear 0 * JSDate.msPerDay <= t
   < JSDate.dayFromYear 10000 * JSDate.msPerDay)%Z ->
  exists s, Days.fmtDay (Some (Some t)) = JStr s
    /\ JSDate.isoDate s = Some ((t / JSDate.msPerDay)%Z, "")
    /\ JSDate.dateParse h s = Some (t / JSDate.msPerDay * JSDate.msPerDay)%Z
    /\ ((0 <= JSDate.tza h < JSDate.msPerDay)%Z ->
        forall ws, dayEntry h ws (t / JSDate.msPerDay * JSDate.msPerDay)
                   = prop ws (nth (Z.to_nat (JSDate.weekDay (t / JSDate.msPerDay)))
                                dayNames "undefined")).
Proof.
  intros R. exists (Days.isoDay t). pose proof (isoDate_isoDay t R) as I.
  repeat split; try assumption.
  - unfold JSDate.dateParse. now rewrite I.
  - intros B ws. unfold dayEntry. now rewrite (getDay_utc_east h _ B).
Qed.

Lemma fmtDay_round_trip_witness :
  exists s, Days.fmtDay (Some (Some 1704099600000%Z)) = JStr s
    /\ JSDate.isoDate s = Some (19723%Z, "").
Proof.
  destruct (fmtDay_round_trip (Scenario.hostAt 3) 1704099600000) as (s & F & I & _).
  - vm_compute. split; [discriminate|reflexivity].
  - exists s. split; [exact F|exact I].
Defined.
Section CalendarStrings.

Import JSDate Days.
Open Scope Z_scope.

Lemma digitOf_inv (c : ascii) (a : Z) :
  digitOf c = Some a -> 0 <= a <= 9 /\ c = digitChar a.
Proof.
  unfold digitOf, digitChar. intros H.
  destruct (Z.leb_spec 48 (Z.of_nat (nat_of_ascii c))) as [A|A]; [|discriminate].
  destruct (Z.leb_spec (Z.of_nat (nat_of_ascii c)) 57) as [B|B]; [|discriminate].
  injection H as <-. split; [lia|].
  replace (48 + Z.to_nat (Z.of_nat (nat_of_ascii c) - 48))%nat with (nat_of_ascii c)
    by lia.
  now rewrite ascii_nat_embedding.
Qed.

Lemma isoFields_sound (s : string) (y m d : Z) (rest : string) :
  isoFields s = Some (y, m, d, rest) ->
  0 <= y <= 9999 /\ 1 <= m <= 12 /\ 1 <= d <= daysInMonth y m
  /\ s = (yearString y ++ "-" ++ pad2 m ++ "-" ++ pad2 d ++ rest)%string.
Proof.
  unfold isoFields.
  do 10 (destruct s as [|? s]; [discriminate|]).
  repeat match goal with
         | |- context [match digitOf ?c with _ => _ end] =>
             let E := fresh "E" in
             destruct (digitOf c) eqn:E; [apply digitOf_inv in E as [? ->]|discriminate]
         end.
  cbv zeta.
  destruct (Ascii.eqb_spec a3 "-"); [subst|discriminate].
  destruct (Ascii.eqb_spec a6 "-"); [subst|discriminate].
  cbn [andb].
  repeat match goal with
         | |- context [if ?a <=? ?b then _ else _] =>
             destruct (Z.leb_spec a b); cbn [andb]; [|discriminate]
         | |- context [(?a <=? ?b) && _] =>
             destruct (Z.leb_spec a b); cbn [andb]; [|discriminate]
         end.
  intros Eq.
  assert (Y : y = 1000 * z + 100 * z0 + 10 * z1 + z2) by congruence.
  assert (M : m = 10 * z3 + z4) by congruence.
  assert (D : d = 10 * z5 + z6) by congruence.
  assert (R : rest = s) by congruence.
  clear Eq. subst y m d rest.
  split; [lia|]. split; [lia|]. split; [lia|].
  unfold yearString.
  replace ((0 <=? 1000 * z + 100 * z0 + 10 * z1 + z2)
           && (1000 * z + 100 * z0 + 10 * z1 + z2 <=? 9999)) with true
    by (symmetry; apply andb_true_intro; split; apply Z.leb_le; lia).
  unfold pad4, pad2. cbn [append].
  repeat f_equal; Z.div_mod_to_equations; lia.
Qed.


Lemma makeDay_inj (y m d y' m' d' : Z) :
  1 <= m <= 12 -> 1 <= d <= daysInMonth y m ->
  1 <= m' <= 12 -> 1 <= d' <= daysInMonth y' m' ->
  makeDay y m d = makeDay y' m' d' -> y = y' /\ m = m' /\ d = d'.
Proof.
  intros M D M' D' E.
  pose proof (makeDay_bounds y m d M D) as B.
  pose proof (makeDay_bounds y' m' d' M' D') as B'.
  assert (Y : y = y').
  { destruct (Z.lt_trichotomy y y') as [L|[L|L]]; [|exact L|].
    - pose proof (dayFromYear_mono (y + 1) y' ltac:(lia)). lia.
    - pose proof (dayFromYear_mono (y' + 1) y ltac:(lia)). lia. }
  subst y'. split; [reflexivity|]. clear B B'.
  revert D D' E. unfold makeDay, daysInMonth, daysBeforeMonth, monthLengths.
  generalize (dayFromYear y). intros b.
  assert (C : m = 1 \/ m = 2 \/ m = 3 \/ m = 4 \/ m = 5 \/ m = 6 \/ m = 7 \/ m = 8
              \/ m = 9 \/ m = 10 \/ m = 11 \/ m = 12) by lia.
  assert (C' : m' = 1 \/ m' = 2 \/ m' = 3 \/ m' = 4 \/ m' = 5 \/ m' = 6 \/ m' = 7
               \/ m' = 8 \/ m' = 9 \/ m' = 10 \/ m' = 11 \/ m' = 12) by lia.
  clear M M'.
  destruct (inLeapYear y);
    repeat (destruct C as [-> | C]); subst;
    repeat (destruct C' as [-> | C']); subst;
    vm_compute (Z.to_nat _); cbn [nth firstn fold_right]; lia.
Qed.

Lemma makeDay_civil (y m d : Z) :
  1 <= m <= 12 -> 1 <= d <= daysInMonth y m -> civil (makeDay y m d) = (y, m, d).
Proof.
  intros M D. pose proof (civil_spec (makeDay y m d)) as C.
  destruct (civil (makeDay y m d)) as [[y' m'] d'].
  destruct C as (_ & M' & D' & E).
  destruct (makeDay_inj y' m' d' y m d M' D' M D E) as (-> & -> & ->). reflexivity.
Qed.

(** A string that names a day is what [toISOString] gives at every moment of
    that day. *)
Lemma isoDay_of_fields (s : string) (y m d r : Z) :
  isoFields s = Some (y, m, d, ""%string) -> 0 <= r < msPerDay ->
  isoDay (makeDay y m d * msPerDay + r) = s.
Proof.
  intros F R. apply isoFields_sound in F as (Y & M & D & ->).
  unfold isoDay.
  rewrite Z.div_add_l by (unfold msPerDay; lia).
  rewrite (Z.div_small r msPerDay R), Z.add_0_r.
  rewrite (makeDay_civil y m d M D).
  reflexivity.
Qed.

Lemma fields_day_bounds (s : string) (y m d : Z) (rest : string) :
  isoFields s = Some (y, m, d, rest) ->
  dayFromYear y <= makeDay y m d < dayFromYear (y + 1) /\ 0 <= y <= 9999.
Proof.
  intros F. apply isoFields_sound in F as (Y & M & D & _).
  split; [now apply makeDay_bounds|exact Y].
Qed.


Lemma dayFromYear_values :
  dayFromYear 0 = -719528 /\ dayFromYear 100 = -683003 /\ dayFromYear 101 = -682638
  /\ dayFromYear 9999 = 2932532 /\ dayFromYear 10000 = 2932897.
Proof. repeat split. Qed.

Lemma fields_day_range (s : string) (y m d : Z) (rest : string) :
  isoFields s = Some (y, m, d, rest) -> -719528 <= makeDay y m d < 2932897.
Proof.
  intros F. apply fields_day_bounds in F as (B & Y).
  pose proof (dayFromYear_mono 0 y ltac:(lia)) as L.
  pose proof (dayFromYear_mono (y + 1) 10000 ltac:(lia)) as U.
  destruct dayFromYear_values as (V0 & _ & _ & _ & V4). lia.
Qed.

(** [parseISO] on a string that names a day from the year 100 on: the local
    midnight of that day. *)
Lemma parseISO_fields (h : Host) (other : string -> option Date) (s : string)
  (y m d : Z) :
  isoFields s = Some (y, m, d, ""%string) -> 100 <= y ->
  - msPerDay <= tza h <= msPerDay ->
  parseISO h other (JStr s) = Some (Some (makeDay y m d * msPerDay - tza h)).
Proof.
  intros F Y T. pose proof (fields_day_range s y m d _ F) as R.
  unfold parseISO. destruct (String.eqb_spec s ""%string) as [->|_]; [discriminate|].
  rewrite F. unfold newDate.
  replace ((0 <=? y) && (y <=? 99)) with false
    by (symmetry; apply andb_false_intro2; apply Z.leb_gt; lia).
  rewrite timeClip_id; [reflexivity|]. unfold msPerDay in *. lia.
Qed.

Lemma yearOfDay_from_100 (day : Z) : dayFromYear 100 <= day -> 100 <= yearOfDay day.
Proof.
  intros L. pose proof (yearOfDay_spec day) as Y.
  destruct (Z.le_gt_cases 100 (yearOfDay day)) as [G|G]; [exact G|].
  pose proof (dayFromYear_mono (yearOfDay day + 1) 100 ltac:(lia)). lia.
Qed.

Lemma localDay_range (h : Host) (now : Z) :
  - msPerDay <= tza h <= msPerDay ->
  dayFromYear 101 * msPerDay <= now < dayFromYear 9999 * msPerDay ->
  dayFromYear 100 + 364 <= localDay h now <= dayFromYear 10000 - 365.
Proof.
  intros T N. destruct dayFromYear_values as (_ & V1 & V2 & V3 & V4).
  rewrite V1, V4. rewrite V2, V3 in N. unfold localDay, msPerDay in *.
  Z.div_mod_to_equations. lia.
Qed.

(** [todayStart]: the local midnight of the local day of [now]. *)
Lemma todayStart_local (h : Host) (now : Z) :
  - msPerDay <= tza h <= msPerDay ->
  dayFromYear 101 * msPerDay <= now < dayFromYear 9999 * msPerDay ->
  todayStart h now = Some (localDay h now * msPerDay - tza h).
Proof.
  intros T N. pose proof (localDay_range h now T N) as R.
  unfold todayStart. pose proof (civil_spec (localDay h now)) as C.
  destruct (civil (localDay h now)) as [[y m] d].
  destruct C as (Y & M & D & E).
  pose proof (yearOfDay_from_100 (localDay h now) ltac:(lia)) as Y100.
  unfold newDate.
  replace ((0 <=? y) && (y <=? 99)) with false
    by (symmetry; apply andb_false_intro2; apply Z.leb_gt; lia).
  rewrite E. apply timeClip_id.
  destruct dayFromYear_values as (_ & V1 & _ & _ & V4). unfold msPerDay in *. lia.
Qed.

(** The three windows, on the day numbers. *)
Lemma inRange_window (h : Host) (other : string -> option Date) (s : string)
  (y m d now k : Z) (cs ce : jsval) :
  isoFields s = Some (y, m, d, ""%string) -> 100 <= y ->
  - msPerDay <= tza h <= msPerDay ->
  dayFromYear 101 * msPerDay <= now < dayFromYear 9999 * msPerDay ->
  0 <= k <= 29 ->
  inRange h other (JStr s)
    (Some (shifted (todayStart h now) (- (k * 86400000))))
    (Some (shifted (todayStart h now) 86399999))
  = (localDay h now - k <=? makeDay y m d) && (makeDay y m d <=? localDay h now).
Proof.
  intros F Y T N K.
  pose proof (localDay_range h now T N) as R.
  pose proof (fields_day_range s y m d _ F) as RD.
  destruct dayFromYear_values as (_ & V1 & _ & _ & V4).
  unfold inRange.
  replace (truthy (JStr s)) with true.
  2:{ destruct s; [discriminate|reflexivity]. }
  cbn [negb]. rewrite (parseISO_fields h other s y m d F Y T).
  rewrite (todayStart_local h now T N). unfold shifted.
  rewrite !timeClip_id by (unfold msPerDay in *; lia).
  unfold dateLe, dateGe. unfold msPerDay in *.
  f_equal.
  - destruct (Z.leb_spec (localDay h now - k) (makeDay y m d));
      [apply Z.leb_le|apply Z.leb_gt]; lia.
  - destruct (Z.leb_spec (makeDay y m d) (localDay h now));
      [apply Z.leb_le|apply Z.leb_gt]; lia.
Qed.

End CalendarStrings.

(** ** Days as strings, continued *)

(** X16.  The test [todayStr !== previousDayStr] of the effect that refreshes
    the daily statistics always succeeds: the date one day before
    [currentDate] is on another UTC day, so the two strings differ at every
    moment between the years 0 and 9999, not only when a new day starts. *)
Theorem new_day_always_detected (t : Z) :
  ((JSDate.dayFromYear 0 + 1) * JSDate.msPerDay <= t
   < JSDate.dayFromYear 10000 * JSDate.msPerDay)%Z ->
  newDayDetected (Some t) = true.
Proof.
  intros R. unfold newDayDetected, Days.shifted.
  destruct dayFromYear_values as (V0 & _ & _ & _ & V4).
  rewrite timeClip_id by (unfold JSDate.msPerDay in *; lia).
  cbn [Days.fmtDay]. apply negb_true_iff.
  destruct (strictEq_spec (JStr (Days.isoDay t)) (JStr (Days.isoDay (t + - 86400000))))
    as [E|E]; [exfalso|reflexivity].
  injection E as E.
  pose proof (isoDate_isoDay t ltac:(unfold JSDate.msPerDay in *; lia)) as A.
  pose proof (isoDate_isoDay (t + - 86400000)
                ltac:(unfold JSDate.msPerDay in *; lia)) as B.
  rewrite <- E, A in B. injection B as B.
  unfold JSDate.msPerDay in B. Z.div_mod_to_equations. lia.
Qed.

Lemma new_day_always_detected_witness : newDayDetected (Some 1704099600000%Z) = true.
Proof.
  apply new_day_always_detected. vm_compute. split; [discriminate|reflexivity].
Defined.

(** The callback of [apptsInTimeframe], run in a render whose clock is
    [now]: for an appointment whose date names a day from the year 100 on,
    the windows are those of the local days that end on the local day of
    [now]. *)
Lemma callback_windows (h : JSDate.Host) (other : string -> option Days.Date)
  (appointments : list Appointment.t) (customStart customEnd : jsval) (now : Z)
  (a : Appointment.t) (s : string) (y m d : Z) :
  (- JSDate.msPerDay <= JSDate.tza h <= JSDate.msPerDay)%Z ->
  (JSDate.dayFromYear 101 * JSDate.msPerDay <= now
   < JSDate.dayFromYear 9999 * JSDate.msPerDay)%Z ->
  Appointment.date a = JStr s ->
  Days.isoFields s = Some (y, m, d, "") -> (100 <= y)%Z ->
  let shown tf := Days.apptsInTimeframe h other appointments tf customStart customEnd now in
  let day := JSDate.makeDay y m d in
  let today := Days.localDay h now in
  (In a (shown "today") <-> In a appointments /\ day = today)
  /\ (In a (shown "7d") <-> In a appointments /\ (today - 6 <= day <= today)%Z)
  /\ (In a (shown "30d") <-> In a appointments /\ (today - 29 <= day <= today)%Z)
  /\ (In a (shown "all") <-> In a appointments).
Proof.
  intros T N A F Y shown day today.
  pose proof (inRange_window h other s y m d now 0 customStart customEnd F Y T N
                ltac:(lia)) as W0.
  pose proof (inRange_window h other s y m d now 6 customStart customEnd F Y T N
                ltac:(lia)) as W6.
  pose proof (inRange_window h other s y m d now 29 customStart customEnd F Y T N
                ltac:(lia)) as W29.
  assert (S0 : Days.shifted (Days.todayStart h now) (- (0 * 86400000))
               = Days.todayStart h now).
  { rewrite (todayStart_local h now T N). unfold Days.shifted.
    pose proof (localDay_range h now T N) as R.
    destruct dayFromYear_values as (_ & V1 & _ & _ & V4).
    rewrite timeClip_id by (unfold JSDate.msPerDay in *; lia).
    f_equal. lia. }
  rewrite S0 in W0.
  subst shown. cbv beta. unfold Days.apptsInTimeframe, Days.range.
  cbn [String.eqb Ascii.eqb Bool.eqb].
  rewrite !filter_In, A, W0, W6, W29.
  fold day today.
  rewrite !andb_true_iff, !Z.leb_le.
  repeat split; try tauto; try lia.
  all: intros (I & E); split; [exact I|lia].
Qed.


(** X18.  A custom range includes both of its ends, and an empty bound is no
    bound: for days named from the year 100 on, [inRange] under the range of
    the timeframe "custom" compares the day numbers, at every offset of the
    host. *)
Theorem custom_range_is_inclusive (h : JSDate.Host) (other : string -> option Days.Date)
  (now : Z) (s cs ce : string) (y m d ys ms ds ye me de : Z) :
  (- JSDate.msPerDay <= JSDate.tza h <= JSDate.msPerDay)%Z ->
  Days.isoFields s = Some (y, m, d, "") -> (100 <= y)%Z ->
  Days.isoFields cs = Some (ys, ms, ds, "") -> (100 <= ys)%Z ->
  Days.isoFields ce = Some (ye, me, de, "") -> (100 <= ye)%Z ->
  let within a b :=
    let (start, stop) := Days.range h other "custom" a b now in
    Days.inRange h other (JStr s) start stop in
  let day := JSDate.makeDay y m d in
  within (JStr cs) (JStr ce)
  = ((JSDate.makeDay ys ms ds <=? day)%Z && (day <=? JSDate.makeDay ye me de)%Z)
  /\ within (JStr cs) (JStr "") = (JSDate.makeDay ys ms ds <=? day)%Z
  /\ within (JStr "") (JStr ce) = (day <=? JSDate.makeDay ye me de)%Z
  /\ within (JStr "") (JStr "") = true.
Proof.
  intros T F Y Fs Ys Fe Ye within day.
  assert (Ts : truthy (JStr cs) = true) by (destruct cs; [discriminate|reflexivity]).
  assert (Te : truthy (JStr ce) = true) by (destruct ce; [discriminate|reflexivity]).
  assert (Tt : truthy (JStr s) = true) by (destruct s; [discriminate|reflexivity]).
  subst within. cbv beta. unfold Days.range.
  cbn [String.eqb Ascii.eqb Bool.eqb]. rewrite Ts, Te.
  change (truthy (JStr "")) with false. cbv iota.
  unfold Days.inRange. rewrite Tt. cbn [negb].
  rewrite (parseISO_fields h other s y m d F Y T).
  rewrite (parseISO_fields h other cs ys ms ds Fs Ys T).
  rewrite (parseISO_fields h other ce ye me de Fe Ye T).
  unfold Days.dateLe, Days.dateGe. fold day.
  assert (G : forall a b : Z,
             (a * JSDate.msPerDay - JSDate.tza h <=? b * JSDate.msPerDay - JSDate.tza h)%Z
             = (a <=? b)%Z).
  { intros a b. unfold JSDate.msPerDay.
    destruct (Z.leb_spec a b); [apply Z.leb_le|apply Z.leb_gt]; lia. }
  rewrite !G. rewrite andb_true_r. repeat split.
Qed.

Lemma custom_range_is_inclusive_witness :
  (let (start, stop) :=
     Days.range (Scenario.hostAt 3) (fun _ => None) "custom"
       (JStr "2024-01-01") (JStr "2024-01-31") 0 in
   Days.inRange (Scenario.hostAt 3) (fun _ => None) (JStr "2024-01-31") start stop)
  = ((JSDate.makeDay 2024 1 1 <=? JSDate.makeDay 2024 1 31)%Z
     && (JSDate.makeDay 2024 1 31 <=? JSDate.makeDay 2024 1 31)%Z).
Proof.
  refine (proj1 (custom_range_is_inclusive (Scenario.hostAt 3) (fun _ => None) 0
            "2024-01-31" "2024-01-01" "2024-01-31" 2024 1 31 2024 1 1 2024 1 31
            _ _ _ _ _ _ _)).
  - vm_compute. split; discriminate.
  - reflexivity.
  - lia.
  - reflexivity.
  - lia.
  - reflexivity.
  - lia.
Defined.

(** X19.  The label of a bound of the range in the chief's header,
    [fmtDay(parseISO(customStart))], gives the string back at or west of
    Greenwich, and names the day before east of it: [parseISO] is the local
    midnight, [fmtDay] its UTC day. *)
Theorem range_label_east_and_west (h : JSDate.Host) (other : string -> option Days.Date)
  (cs : string) (y m d : Z) :
  Days.isoFields cs = Some (y, m, d, "") -> (100 <= y)%Z ->
  ((- JSDate.msPerDay < JSDate.tza h <= 0)%Z ->
   rangeLabel (Days.parseISO h other (JStr cs)) = Some (Day (JStr cs)))
  /\ ((0 < JSDate.tza h <= JSDate.msPerDay)%Z ->
      exists s, rangeLabel (Days.parseISO h other (JStr cs)) = Some (Day (JStr s))
                /\ JSDate.isoDate s = Some ((JSDate.makeDay y m d - 1)%Z, "")
                /\ s <> cs).
Proof.
  intros F Y. pose proof (fields_day_range cs y m d _ F) as R.
  pose proof (fields_day_bounds cs y m d _ F) as (B & _).
  pose proof (dayFromYear_mono 100 y Y) as M100.
  destruct dayFromYear_values as (V0 & V1 & _ & _ & V4).
  split; intros T.
  - rewrite (parseISO_fields h other cs y m d F Y) by lia.
    cbn [rangeLabel Days.fmtDayChief option_map]. do 3 f_equal.
    replace (JSDate.makeDay y m d * JSDate.msPerDay - JSDate.tza h)%Z
      with (JSDate.makeDay y m d * JSDate.msPerDay + - JSDate.tza h)%Z by ring.
    apply isoDay_of_fields; [exact F|lia].
  - rewrite (parseISO_fields h other cs y m d F Y) by lia.
    cbn [rangeLabel Days.fmtDayChief option_map].
    exists (Days.isoDay (JSDate.makeDay y m d * JSDate.msPerDay - JSDate.tza h)).
    assert (I : JSDate.isoDate
                  (Days.isoDay (JSDate.makeDay y m d * JSDate.msPerDay - JSDate.tza h))
                = Some ((JSDate.makeDay y m d - 1)%Z, "")).
    { rewrite isoDate_isoDay by (unfold JSDate.msPerDay in *; lia).
      do 2 f_equal. unfold JSDate.msPerDay in *. Z.div_mod_to_equations. lia. }
    split; [reflexivity|]. split; [exact I|].
    intros E. rewrite E, isoDate_fields, F in I. injection I as I. lia.
Qed.

Lemma range_label_east_and_west_witness :
  exists s, rangeLabel (Days.parseISO (Scenario.hostAt 3) (fun _ => None)
                          (JStr "2024-01-01")) = Some (Day (JStr s))
            /\ JSDate.isoDate s = Some ((JSDate.makeDay 2024 1 1 - 1)%Z, "")
            /\ s <> "2024-01-01".
Proof.
  refine (proj2 (range_label_east_and_west (Scenario.hostAt 3) (fun _ => None)
                   "2024-01-01" 2024 1 1 _ _) _).
  - reflexivity.
  - lia.
  - vm_compute. split; [reflexivity|discriminate].
Defined.

(** ** The memo of the timeframe *)

Lemma sameDeps_spec (r r' : Timeframe.render) :
  Timeframe.sameDeps r r' = true
  <-> Timeframe.arrayId r = Timeframe.arrayId r'
      /\ Timeframe.timeframe r = Timeframe.timeframe r'
      /\ Timeframe.customStart r = Timeframe.customStart r'
      /\ Timeframe.customEnd r = Timeframe.customEnd r'.
Proof.
  unfold Timeframe.sameDeps.
  rewrite !andb_true_iff, Nat.eqb_eq, String.eqb_eq.
  split.
  - intros [[[A B] C] D]. apply strictEq_true in C, D. auto.
  - intros (A & B & C & D). rewrite C, D, !strictEq_refl. auto.
Qed.

Lemma sameDeps_trans (a b c : Timeframe.render) :
  Timeframe.sameDeps a b = true -> Timeframe.sameDeps b c = true ->
  Timeframe.sameDeps a c = true.
Proof.
  rewrite !sameDeps_spec. intros (A & B & C & D) (A' & B' & C' & D').
  repeat split; congruence.
Qed.

Lemma sameDeps_sym (a b : Timeframe.render) :
  Timeframe.sameDeps a b = true -> Timeframe.sameDeps b a = true.
Proof. rewrite !sameDeps_spec. intros (A & B & C & D). auto. Qed.

Lemma after_snoc (h : JSDate.Host) (other : string -> option Days.Date)
  (rs : list Timeframe.render) (r : Timeframe.render) :
  Timeframe.after h other (rs ++ [r])
  = Some (Timeframe.useMemo h other (Timeframe.after h other rs) r).
Proof. unfold Timeframe.after. now rewrite fold_left_app. Qed.

(** The cell after some renders was computed in a render with the
    dependencies of the last one. *)
Lemma after_last (h : JSDate.Host) (other : string -> option Days.Date)
  (rs : list Timeframe.render) (r : Timeframe.render) :
  exists c, Timeframe.after h other (rs ++ [r]) = Some c
            /\ Timeframe.sameDeps (Timeframe.computedAt c) r = true.
Proof.
  rewrite after_snoc. eexists. split; [reflexivity|].
  unfold Timeframe.useMemo.
  destruct (Timeframe.after h other rs) as [c|].
  - destruct (Timeframe.sameDeps (Timeframe.computedAt c) r) eqn:E; [exact E|].
    apply sameDeps_spec. auto.
  - apply sameDeps_spec. auto.
Qed.

(** While the dependencies stay what they were, the cell stays. *)
Lemma after_same (h : JSDate.Host) (other : string -> option Days.Date)
  (c : Timeframe.cell) (post : list Timeframe.render) :
  (forall r, In r post -> Timeframe.sameDeps (Timeframe.computedAt c) r = true) ->
  fold_left (fun c r => Some (Timeframe.useMemo h other c r)) post (Some c) = Some c.
Proof.
  induction post as [|r post IH]; intros S; [reflexivity|].
  cbn [fold_left Timeframe.useMemo]. rewrite (S r (or_introl eq_refl)).
  apply IH. intros r' I. apply S. now right.
Qed.

(** The callback ran last in the render in which a dependency changed
    last. *)
Lemma after_renders (h : JSDate.Host) (other : string -> option Days.Date)
  (pre post : list Timeframe.render) (r0 : Timeframe.render) :
  (pre = [] \/ exists p q, pre = (p ++ [q])%list /\ Timeframe.sameDeps q r0 = false) ->
  (forall r, In r post -> Timeframe.sameDeps r0 r = true) ->
  Timeframe.after h other (pre ++ r0 :: post) = Some (Timeframe.compute h other r0).
Proof.
  intros P S.
  assert (A : Timeframe.after h other (pre ++ [r0]) = Some (Timeframe.compute h other r0)).
  { rewrite after_snoc. f_equal. destruct P as [-> | (p & q & -> & N)]; [reflexivity|].
    destruct (after_last h other p q) as (c & -> & E).
    unfold Timeframe.useMemo.
    destruct (Timeframe.sameDeps (Timeframe.computedAt c) r0) eqn:E'; [|reflexivity].
    rewrite (sameDeps_trans q (Timeframe.computedAt c) r0 (sameDeps_sym _ _ E) E') in N.
    discriminate. }
  change (pre ++ r0 :: post)%list with (pre ++ [r0] ++ post)%list.
  rewrite app_assoc. unfold Timeframe.after in *. rewrite fold_left_app, A.
  now apply after_same.
Qed.

Lemma counted_on_utc_day (appointments : list Appointment.t) (now : Z)
  (a : Appointment.t) (s : string) (y m d : Z) :
  (JSDate.dayFromYear 0 * JSDate.msPerDay <= now
   < JSDate.dayFromYear 10000 * JSDate.msPerDay)%Z ->
  Appointment.date a = JStr s ->
  Days.isoFields s = Some (y, m, d, "") ->
  In a (DailyStats.todayAppointments appointments (Days.fmtDay (Some (Some now))))
  <-> In a appointments /\ JSDate.makeDay y m d = (now / JSDate.msPerDay)%Z.
Proof.
  intros N A F. unfold DailyStats.todayAppointments.
  rewrite filter_In, A. cbn [Days.fmtDay].
  pose proof (isoDate_isoDay now N) as I.
  split; intros (In1 & E); (split; [exact In1|]).
  - destruct (strictEq_spec (JStr s) (JStr (Days.isoDay now))) as [E'|]; [|discriminate].
    injection E' as E'. rewrite <- E', isoDate_fields, F in I. now injection I.
  - destruct (strictEq_spec (JStr s) (JStr (Days.isoDay now))) as [|NE];
      [reflexivity|exfalso]. apply NE. f_equal. symmetry.
    replace now with (JSDate.makeDay y m d * JSDate.msPerDay
                      + now mod JSDate.msPerDay)%Z.
    + apply isoDay_of_fields; [exact F|]. apply Z.mod_pos_bound. reflexivity.
    + rewrite E. unfold JSDate.msPerDay. Z.div_mod_to_equations. lia.
Qed.

(** X17.  The timeframes are windows of local calendar days, and the days
    are those of the render in which the memo ran last.  [apptsInTimeframe]
    is a memo on the appointments, the timeframe and the two bounds, not on
    [currentDate]: after any renders, its value is what the callback returned
    in the render [r0] in which one of the four changed last.  For an
    appointment whose date names a day from the year 100 on, it holds the
    appointment under "today" exactly when that day is the local day of the
    clock of [r0], under "7d" when it is one of the seven days that end on
    it, under "30d" one of the thirty, and under "all" always; the renders
    after [r0], whose clock may be on a later day, change nothing. *)
Theorem timeframe_windows (h : JSDate.Host) (other : string -> option Days.Date)
  (pre post : list Timeframe.render) (r0 : Timeframe.render)
  (a : Appointment.t) (s : string) (y m d : Z) :
  (- JSDate.msPerDay <= JSDate.tza h <= JSDate.msPerDay)%Z ->
  (JSDate.dayFromYear 101 * JSDate.msPerDay <= Timeframe.now r0
   < JSDate.dayFromYear 9999 * JSDate.msPerDay)%Z ->
  (pre = [] \/ exists p q, pre = (p ++ [q])%list /\ Timeframe.sameDeps q r0 = false) ->
  (forall r, In r post -> Timeframe.sameDeps r0 r = true) ->
  Appointment.date a = JStr s ->
  Days.isoFields s = Some (y, m, d, "") -> (100 <= y)%Z ->
  exists c,
    Timeframe.after h other (pre ++ r0 :: post) = Some c
    /\ Timeframe.computedAt c = r0
    /\ let shown := Timeframe.value c in
       let listed := In a (Timeframe.appointments r0) in
       let day := JSDate.makeDay y m d in
       let today := Days.localDay h (Timeframe.now r0) in
       (Timeframe.timeframe r0 = "today" -> (In a shown <-> listed /\ day = today))
       /\ (Timeframe.timeframe r0 = "7d" ->
           (In a shown <-> listed /\ (today - 6 <= day <= today)%Z))
       /\ (Timeframe.timeframe r0 = "30d" ->
           (In a shown <-> listed /\ (today - 29 <= day <= today)%Z))
       /\ (Timeframe.timeframe r0 = "all" -> (In a shown <-> listed)).
Proof.
  intros T N P S A F Y.
  exists (Timeframe.compute h other r0).
  split; [now apply after_renders|]. split; [reflexivity|].
  cbn [Timeframe.compute Timeframe.value].
  destruct (callback_windows h other (Timeframe.appointments r0)
              (Timeframe.customStart r0) (Timeframe.customEnd r0) (Timeframe.now r0)
              a s y m d T N A F Y) as (W0 & W7 & W30 & WA).
  cbv zeta. split; [|split; [|split]]; intros E; rewrite E; assumption.
Qed.

Lemma timeframe_windows_witness :
  exists c,
    Timeframe.after (Scenario.hostAt 3) (fun _ => None)
      [renderAt "today" 1704103200000; renderAt "today" 1704189600000] = Some c
    /\ In (formD (JStr "a1") (JStr "09:00")) (Timeframe.value c)
    /\ JSDate.makeDay 2024 1 1 = Days.localDay (Scenario.hostAt 3) 1704103200000
    /\ JSDate.makeDay 2024 1 1 <> Days.localDay (Scenario.hostAt 3) 1704189600000.
Proof.
  destruct (timeframe_windows (Scenario.hostAt 3) (fun _ => None) []
              [renderAt "today" 1704189600000] (renderAt "today" 1704103200000)
              (formD (JStr "a1") (JStr "09:00")) "2024-01-01" 2024 1 1)
    as (c & A & _ & W & _).
  - vm_compute. split; discriminate.
  - vm_compute. split; [discriminate|reflexivity].
  - now left.
  - intros r [<-|[]]. reflexivity.
  - reflexivity.
  - reflexivity.
  - lia.
  - exists c. split; [exact A|]. split.
    + apply (W eq_refl). split; [now left|reflexivity].
    + split; [reflexivity|]. vm_compute. discriminate.
Defined.

(** X20.  The daily statistics and the timeframe "today" do not mean the
    same day.  In a render [r], [dailyStats] counts the appointments dated on
    the UTC day of [currentDate]; the memo [apptsInTimeframe] shows those
    dated on the local day of the clock of the render [r0] in which it ran
    last.  The two agree on an appointment when these two days are the same,
    and no appointment is both counted and shown when they differ. *)
Theorem statistics_today_is_the_utc_day (h : JSDate.Host)
  (other : string -> option Days.Date) (pre post : list Timeframe.render)
  (r0 : Timeframe.render) (a : Appointment.t) (s : string) (y m d : Z) :
  let r := last post r0 in
  (- JSDate.msPerDay <= JSDate.tza h <= JSDate.msPerDay)%Z ->
  (JSDate.dayFromYear 101 * JSDate.msPerDay <= Timeframe.now r0
   < JSDate.dayFromYear 9999 * JSDate.msPerDay)%Z ->
  (JSDate.dayFromYear 0 * JSDate.msPerDay <= Timeframe.now r
   < JSDate.dayFromYear 10000 * JSDate.msPerDay)%Z ->
  (pre = [] \/ exists p q, pre = (p ++ [q])%list /\ Timeframe.sameDeps q r0 = false) ->
  (forall r', In r' post -> Timeframe.sameDeps r0 r' = true) ->
  Timeframe.appointments r = Timeframe.appointments r0 ->
  Timeframe.timeframe r0 = "today" ->
  Appointment.date a = JStr s ->
  Days.isoFields s = Some (y, m, d, "") -> (100 <= y)%Z ->
  exists c,
    Timeframe.after h other (pre ++ r0 :: post) = Some c
    /\ let counted :=
         DailyStats.todayAppointments (Timeframe.appointments r)
           (Days.fmtDay (Some (Some (Timeframe.now r)))) in
       let shown := Timeframe.value c in
       let utcDay := (Timeframe.now r / JSDate.msPerDay)%Z in
       let memoDay := Days.localDay h (Timeframe.now r0) in
       (In a counted
        <-> In a (Timeframe.appointments r) /\ JSDate.makeDay y m d = utcDay)
       /\ (In a shown
           <-> In a (Timeframe.appointments r) /\ JSDate.makeDay y m d = memoDay)
       /\ (utcDay = memoDay -> (In a counted <-> In a shown))
       /\ (utcDay <> memoDay -> ~ (In a counted /\ In a shown)).
Proof.
  intros r T N0 N P S Same TF A F Y.
  exists (Timeframe.compute h other r0).
  split; [now apply after_renders|].
  cbn [Timeframe.compute Timeframe.value]. cbv zeta.
  pose proof (counted_on_utc_day (Timeframe.appointments r) (Timeframe.now r)
                a s y m d N A F) as C.
  destruct (callback_windows h other (Timeframe.appointments r0)
              (Timeframe.customStart r0) (Timeframe.customEnd r0) (Timeframe.now r0)
              a s y m d T N0 A F Y) as (W & _).
  cbv zeta in W. rewrite TF, Same.
  split; [rewrite <- Same; exact C|]. split; [exact W|]. split.
  - intros E. rewrite <- Same, C, Same, W, E. reflexivity.
  - intros NE (I1 & I2). rewrite <- Same in I1. apply C in I1. apply W in I2.
    destruct I1 as [_ I1], I2 as [_ I2]. congruence.
Qed.

Lemma statistics_today_is_the_utc_day_witness :
  exists c,
    Timeframe.after (Scenario.hostAt 3) (fun _ => None)
      [renderAt "today" 1704103200000; renderAt "today" 1704189600000] = Some c
    /\ In (formD (JStr "a1") (JStr "09:00")) (Timeframe.value c)
    /\ ~ In (formD (JStr "a1") (JStr "09:00"))
           (DailyStats.todayAppointments [formD (JStr "a1") (JStr "09:00")]
              (Days.fmtDay (Some (Some 1704189600000%Z)))).
Proof.
  destruct (statistics_today_is_the_utc_day (Scenario.hostAt 3) (fun _ => None) []
              [renderAt "today" 1704189600000] (renderAt "today" 1704103200000)
              (formD (JStr "a1") (JStr "09:00")) "2024-01-01" 2024 1 1)
    as (c & A & _ & W & _ & D).
  - vm_compute. split; discriminate.
  - vm_compute. split; [discriminate|reflexivity].
  - vm_compute. split; [discriminate|reflexivity].
  - now left.
  - intros r [<-|[]]. reflexivity.
  - reflexivity.
  - reflexivity.
  - reflexivity.
  - reflexivity.
  - lia.
  - exists c. split; [exact A|].
    assert (I : In (formD (JStr "a1") (JStr "09:00")) (Timeframe.value c)).
    { apply W. split; [now left|reflexivity]. }
    split; [exact I|]. intros K. apply D; [vm_compute; discriminate|].
    split; [exact K|exact I].
Defined.

(** ** Appointments without a doctor id *)

(** X21.  An appointment without a [doctorId] holds its slot for doctors it
    does not name: when the doctor looked up has no [id] or no [uid], or is
    not found, [undefined === undefined] makes the appointment match, and its
    normalised time is not offered for that doctor on that date, whatever the
    names in the appointment. *)
Theorem appointment_without_doctor_id_holds_slot (h : JSDate.Host)
  (doctors : list Doctor.t) (appointments : list Appointment.t)
  (formId docName dateStr : jsval) (a : Appointment.t) :
  truthy dateStr = true ->
  In a appointments ->
  Appointment.doctorId a = JUndefined ->
  optField Doctor.id (findDoctor doctors docName) = JUndefined
  \/ optField Doctor.uid (findDoctor doctors docName) = JUndefined ->
  Appointment.date a = dateStr -> notCancelled a = true ->
  Spec.normalTime a <> "" ->
  (truthy formId = true -> Appointment.id a <> formId) ->
  ~ In (Spec.normalTime a) (Clerk.availableSlots h doctors appointments docName dateStr)
  /\ ~ In (Spec.normalTime a)
         (Chief.availableSlots h doctors appointments formId docName dateStr).
Proof.
  intros T I U D E C N X.
  assert (M : matchesDoctor (findDoctor doctors docName) docName a = true).
  { unfold matchesDoctor. rewrite U.
    destruct D as [-> | ->]; cbn [strictEq]; now rewrite ?orb_true_r. }
  apply strictEq_true in E.
  split.
  - unfold Clerk.availableSlots, Clerk.booked. rewrite T. cbn [negb].
    rewrite free_iff_not_held. intros [_ F]. apply (F a I); [|exact N|reflexivity].
    now rewrite M, E, C.
  - unfold Chief.availableSlots, Chief.booked.
    rewrite free_iff_not_held. intros [_ F]. apply (F a I); [|exact N|reflexivity].
    rewrite M, E, C, !andb_true_r.
    destruct (truthy formId); [|reflexivity].
    apply negb_true_iff, strictEq_false. now apply X.
Qed.

(** Doctor F has no [uid]; an appointment that names doctor D and has no
    [doctorId] takes 09:00 from doctor F, who has it free without it. *)
Lemma appointment_without_doctor_id_holds_slot_witness :
  Clerk.availableSlots (Scenario.hostAt 3) [Scenario.doctorD; doctorF] []
    (JStr "Dr. F") Scenario.thatMonday = ["09:00"; "09:30"; "10:00"]
  /\ Clerk.availableSlots (Scenario.hostAt 3) [Scenario.doctorD; doctorF] [localAppt]
       (JStr "Dr. F") Scenario.thatMonday = ["09:30"; "10:00"]
  /\ ~ In "09:00" (Clerk.availableSlots (Scenario.hostAt 3) [Scenario.doctorD; doctorF]
                     [localAppt] (JStr "Dr. F") Scenario.thatMonday)
  /\ ~ In "09:00" (Chief.availableSlots (Scenario.hostAt 3) [Scenario.doctorD; doctorF]
                     [localAppt] JUndefined (JStr "Dr. F") Scenario.thatMonday).
Proof.
  split; [reflexivity|]. split; [reflexivity|].
  refine (appointment_without_doctor_id_holds_slot (Scenario.hostAt 3)
            [Scenario.doctorD; doctorF] [localAppt] JUndefined (JStr "Dr. F")
            Scenario.thatMonday localAppt _ _ _ _ _ _ _ _).
  - reflexivity.
  - left. reflexivity.
  - reflexivity.
  - right. reflexivity.
  - reflexivity.
  - reflexivity.
  - discriminate.
  - discriminate.
Defined.

(** ** The daily counts *)

Lemma count_three {A : Type} (p q r : A -> bool) (l : list A) :
  (forall a, p a = true -> q a = false /\ r a = false) ->
  (forall a, q a = true -> r a = false) ->
  List.length (filter p l) + List.length (filter q l) + List.length (filter r l)
  + List.length (filter (fun a => negb (p a || q a || r a)) l)
  = List.length l.
Proof.
  intros PQ QR. induction l as [|a l IH]; [reflexivity|].
  cbn [filter]. destruct (p a) eqn:P.
  - destruct (PQ a P) as [-> ->]. cbn [orb negb List.length]. lia.
  - destruct (q a) eqn:Q.
    + rewrite (QR a Q). cbn [orb negb List.length]. lia.
    + destruct (r a); cbn [orb negb List.length]; lia.
Qed.

Lemma hasStatus_exclusive (l u l' u' : string) (a : Appointment.t) :
  l <> l' -> l <> u' -> u <> l' -> u <> u' ->
  DailyStats.hasStatus l u a = true -> DailyStats.hasStatus l' u' a = false.
Proof.
  unfold DailyStats.hasStatus. intros A B C D H.
  apply orb_prop in H as [H|H]; apply strictEq_true in H; rewrite H;
    apply orb_false_intro; apply strictEq_false; congruence.
Qed.

(** X22.  The three counters of the daily statistics never count an
    appointment twice, and they leave out exactly the appointments of today
    whose status is none of the six strings they test: scheduled, completed
    and cancelled, each in lower case or capitalised.  An appointment that
    the chief's modal saved as "confirmed" is in no counter. *)
Theorem daily_counts_account (appointments : list Appointment.t) (today : jsval) :
  let todays := DailyStats.todayAppointments appointments today in
  let known a :=
    existsb (fun s => strictEq (Appointment.status a) (JStr s))
      ["scheduled"; "Scheduled"; "completed"; "Completed"; "cancelled"; "Cancelled"] in
  DailyStats.todayScheduled appointments today
  + DailyStats.todayCompleted appointments today
  + DailyStats.todayCancelled appointments today
  + List.length (filter (fun a => negb (known a)) todays)
  = List.length todays.
Proof.
  intros todays known.
  unfold DailyStats.todayScheduled, DailyStats.todayCompleted, DailyStats.todayCancelled.
  fold todays.
  rewrite <- (count_three (DailyStats.hasStatus "scheduled" "Scheduled")
                (DailyStats.hasStatus "completed" "Completed")
                (DailyStats.hasStatus "cancelled" "Cancelled") todays).
  - f_equal. f_equal. apply filter_ext. intros a. subst known.
    unfold DailyStats.hasStatus. cbn [existsb]. now rewrite orb_false_r, !orb_assoc.
  - intros a H.
    split; (eapply hasStatus_exclusive; [| | | |exact H]; discriminate).
  - intros a H. eapply hasStatus_exclusive; [| | | |exact H]; discriminate.
Qed.

(** * The appointment service *)

Section ServiceFacts.

Import Service.

Lemma strictEq_undefined (x : jsval) : x <> JUndefined -> strictEq x JUndefined = false.
Proof. intros N. now apply strictEq_false. Qed.

Lemma existsb_filter {A : Type} (p q : A -> bool) (l : list A) :
  existsb q (filter p l) = existsb (fun a => q a && p a) l.
Proof.
  induction l as [|a l IH]; [reflexivity|].
  cbn [filter existsb]. destruct (p a).
  - cbn [existsb]. now rewrite IH, andb_true_r.
  - now rewrite andb_false_r.
Qed.

(** The check of a new appointment, when the query is well formed and
    resolves: some scheduled document is on the slot. *)
Lemma check_new (b : Backend) (store : list doc) (doctorId date time : jsval) :
  getDocsFails b = None ->
  doctorId <> JUndefined -> date <> JUndefined -> time <> JUndefined ->
  checkAppointmentConflict b store doctorId date time JNull
  = Ok (existsb (scheduledAt doctorId date time) store).
Proof.
  intros G A B C. unfold checkAppointmentConflict.
  rewrite !strictEq_undefined, G by assumption. cbn [orb truthy]. f_equal.
  induction store as [|d l IH]; [reflexivity|].
  cbn [filter existsb]. destruct (scheduledAt doctorId date time d); [reflexivity|].
  exact IH.
Qed.

(** The check of an update: some other scheduled document is on the slot. *)
Lemma check_update (b : Backend) (store : list doc) (doctorId date time : jsval)
  (id : string) :
  getDocsFails b = None -> id <> "" ->
  doctorId <> JUndefined -> date <> JUndefined -> time <> JUndefined ->
  checkAppointmentConflict b store doctorId date time (JStr id)
  = Ok (existsb (fun d => negb (String.eqb (d_id d) id)
                          && scheduledAt doctorId date time d) store).
Proof.
  intros G I A B C. unfold checkAppointmentConflict.
  rewrite !strictEq_undefined, G by assumption. cbn [orb].
  replace (truthy (JStr id)) with true by (destruct id; [contradiction|reflexivity]).
  f_equal. rewrite existsb_filter. reflexivity.
Qed.

Lemma filter_app_length {A : Type} (p : A -> bool) (l : list A) (a : A) :
  p a = true ->
  List.length (filter p (l ++ [a])) = S (List.length (filter p l)).
Proof.
  intros P. rewrite filter_app, length_app. cbn [filter]. rewrite P. cbn. lia.
Qed.

Lemma existsb_false_iff {A : Type} (p : A -> bool) (l : list A) :
  existsb p l = false <-> forall a, In a l -> p a = false.
Proof.
  split.
  - intros E a I. destruct (p a) eqn:P; [|reflexivity].
    rewrite <- E. symmetry. apply existsb_exists. now exists a.
  - intros F. destruct (existsb p l) eqn:E; [|reflexivity].
    apply existsb_exists in E as (a & I & P). rewrite (F a I) in P. discriminate.
Qed.

End ServiceFacts.

(** X23.  [createWebAppointment] checks the time as it is given and stores
    it trimmed.  In a collection whose times are trimmed, a request whose
    time has white space around it is never refused: it is stored on the
    trimmed time, also when a scheduled document already holds that slot of
    the doctor on that date, which then has one scheduled document more. *)
Theorem padded_time_books_twice (b : Service.Backend) (store : list Service.doc)
  (newId : string) (n : newAppointment) (tm : string) (d : Service.doc) :
  Service.getDocsFails b = None -> Service.addDocFails b = None ->
  (forall d' t, In d' store -> Service.d_time d' = JStr t -> trim t = t) ->
  truthy (n_doctorId n) = true -> truthy (n_date n) = true ->
  n_time n = JStr tm -> trim tm <> tm -> trim tm <> "" ->
  truthy (n_status n) = false \/ n_status n = JStr "scheduled" ->
  In d store ->
  Service.scheduledAt (n_doctorId n) (n_date n) (JStr (trim tm)) d = true ->
  let held l :=
    List.length (filter (Service.scheduledAt (n_doctorId n) (n_date n)
                           (JStr (trim tm))) l) in
  Service.createWebAppointment b store newId n
  = Service.Ok (newId, (store ++ [Service.docOf newId n])%list)
  /\ held (store ++ [Service.docOf newId n])%list = S (held store)
  /\ 1 <= held store.
Proof.
  intros G A Inv TD TDt Tm Pad NE St I Sch held.
  assert (ND : n_doctorId n <> JUndefined) by (intros E; rewrite E in TD; discriminate).
  assert (NDt : n_date n <> JUndefined) by (intros E; rewrite E in TDt; discriminate).
  assert (NT : n_time n <> JUndefined) by (rewrite Tm; discriminate).
  split; [|split].
  - unfold Service.createWebAppointment.
    rewrite (check_new b store _ _ _ G ND NDt NT).
    replace (existsb _ store) with false.
    + rewrite Tm. cbn [strOf].
      replace (truthy (JStr tm)) with true.
      2:{ destruct tm; [|reflexivity]. now contradiction Pad. }
      cbn [negb orb]. destruct (String.eqb_spec (trim tm) ""); [contradiction|].
      now rewrite A.
    + symmetry. apply existsb_false_iff. intros d' I'.
      unfold Service.scheduledAt. rewrite Tm.
      destruct (strictEq_spec (Service.d_time d') (JStr tm)) as [E|_].
      * exfalso. apply Pad. exact (Inv d' tm I' E).
      * now rewrite andb_false_r.
  - subst held. cbv beta. apply filter_app_length.
    unfold Service.scheduledAt, Service.docOf. cbn.
    rewrite Tm. cbn [strOf].
    unfold jsOr. rewrite TD, TDt, !strictEq_refl. cbn [andb].
    destruct St as [-> | ->]; cbn; now rewrite String.eqb_refl.
  - subst held. cbv beta.
    assert (F : In d (filter (Service.scheduledAt (n_doctorId n) (n_date n)
                               (JStr (trim tm))) store))
      by (apply filter_In; split; assumption).
    destruct (filter _ store); [contradiction|cbn; lia].
Qed.

Lemma padded_time_books_twice_witness :
  let d := {| Service.d_id := "w1"; Service.d_patientId := JStr "p1";
              Service.d_patientName := JStr "Sara"; Service.d_doctorId := JStr "u1";
              Service.d_doctorName := JStr "Dr. D"; Service.d_date := JStr "2024-01-01";
              Service.d_time := JStr "09:00"; Service.d_status := JStr "scheduled";
              Service.d_notes := JStr "" |} in
  let n := {| n_patientId := JStr "p2"; n_patientName := JStr "Omar";
              n_doctorId := JStr "u1"; n_doctorName := JStr "Dr. D";
              n_date := JStr "2024-01-01"; n_time := JStr "09:00 ";
              n_status := JStr "scheduled"; n_notes := JStr "" |} in
  Service.createWebAppointment Service.online [d] "w2" n
  = Service.Ok ("w2", [d; Service.docOf "w2" n]).
Proof.
  intros d n.
  refine (proj1 (padded_time_books_twice Service.online [d] "w2" n "09:00 " d
                   _ _ _ _ _ _ _ _ _ _ _)).
  - reflexivity.
  - reflexivity.
  - intros d' t [<-|[]] E. injection E as <-. reflexivity.
  - reflexivity.
  - reflexivity.
  - reflexivity.
  - discriminate.
  - discriminate.
  - right. reflexivity.
  - left. reflexivity.
  - reflexivity.
Defined.

(** X24.  The check of the service sees the status "scheduled" only, and the
    clerk's modal writes "Scheduled", "Completed" or "Cancelled".  In a
    collection without a document of status "scheduled", no appointment of
    the clerk's modal is refused as booked, and the collection is still
    without such a document after it is stored. *)
Theorem clerk_documents_escape_the_check (b : Service.Backend)
  (store : list Service.doc) (newId : string) (doctors : list Doctor.t)
  (patients : list Patient.t) (ap : Appointment.t) :
  (forall d, In d store -> Service.d_status d <> JStr "scheduled") ->
  In (Appointment.status ap) [JStr "Scheduled"; JStr "Completed"; JStr "Cancelled"] ->
  let n := ClerkActions.newOf doctors patients ap in
  Service.createWebAppointment b store newId n <> Service.Throw Service.Booked
  /\ (forall id store',
        Service.createWebAppointment b store newId n = Service.Ok (id, store') ->
        forall d, In d store' -> Service.d_status d <> JStr "scheduled").
Proof.
  intros Inv St n.
  assert (E : forall x y z, filter (Service.scheduledAt x y z) store = []).
  { intros x y z. induction store as [|d l IH]; [reflexivity|].
    cbn [filter]. unfold Service.scheduledAt at 1.
    rewrite (proj2 (strictEq_false _ _) (Inv d (or_introl eq_refl))), andb_false_r.
    apply IH. intros d' I. apply Inv. now right. }
  assert (S : Service.d_status (Service.docOf newId n) <> JStr "scheduled").
  { cbn. unfold jsOr.
    destruct St as [<-|[<-|[<-|[]]]]; cbn; discriminate. }
  unfold Service.createWebAppointment, Service.checkAppointmentConflict.
  rewrite E. cbn [truthy].
  destruct (strictEq (n_doctorId n) JUndefined || strictEq (n_date n) JUndefined
            || strictEq (n_time n) JUndefined).
  { split; [discriminate|]. intros id store' H. discriminate. }
  destruct (Service.getDocsFails b).
  { split; [discriminate|]. intros id store' H. discriminate. }
  destruct (negb (truthy (n_time n)) || (trim (strOf (n_time n)) =? "")).
  { split; [discriminate|]. intros id store' H. discriminate. }
  destruct (Service.addDocFails b).
  { split; [discriminate|]. intros id store' H. discriminate. }
  split; [discriminate|]. intros id store' H. injection H as <- <-.
  intros d I. apply in_app_or in I as [I|[<-|[]]]; [now apply Inv|exact S].
Qed.

Lemma clerk_documents_escape_the_check_witness :
  let d := {| Service.d_id := "w1"; Service.d_patientId := JStr "p1";
              Service.d_patientName := JStr "Sara"; Service.d_doctorId := JStr "u1";
              Service.d_doctorName := JStr "Dr. D"; Service.d_date := JStr "2024-01-01";
              Service.d_time := JStr "09:00"; Service.d_status := JStr "Scheduled";
              Service.d_notes := JStr "" |} in
  Service.createWebAppointment Service.online [d] "w2"
    (ClerkActions.newOf [Scenario.doctorD] [] (formD (JStr "A-1") (JStr "09:00")))
  <> Service.Throw Service.Booked.
Proof.
  intros d.
  refine (proj1 (clerk_documents_escape_the_check Service.online [d] "w2"
                   [Scenario.doctorD] [] (formD (JStr "A-1") (JStr "09:00")) _ _)).
  - intros d' [<-|[]]. discriminate.
  - left. reflexivity.
Defined.

(** X25.  [updateWebAppointment] on a document that exists, with the server
    reachable, is refused as booked exactly when the update gives a doctor, a
    date or a time, and a document other than the one updated is scheduled on
    the slot made of the fields given and, for the others, the fields
    stored.  An update of the status alone is never refused as booked, and a
    document never stands in its own way. *)
Theorem update_is_refused_by_another_document (b : Service.Backend)
  (store : list Service.doc) (id : string) (u : updates) (cur : Service.doc) :
  Service.getDocFails b = None -> Service.getDocsFails b = None -> id <> "" ->
  find (fun d => String.eqb (Service.d_id d) id) store = Some cur ->
  Service.d_doctorId cur <> JUndefined -> Service.d_date cur <> JUndefined ->
  Service.d_time cur <> JUndefined ->
  let eff x f := if truthy (Service.given x) then Service.given x else f cur in
  Service.updateWebAppointment b store (JStr id) u = Service.Throw Service.Booked
  <-> (truthy (Service.given (u_doctorId u)) || truthy (Service.given (u_date u))
       || truthy (Service.given (u_time u)) = true
       /\ exists d, In d store /\ Service.d_id d <> id
                    /\ Service.scheduledAt (eff (u_doctorId u) Service.d_doctorId)
                         (eff (u_date u) Service.d_date)
                         (eff (u_time u) Service.d_time) d = true).
Proof.
  intros GD GS I F ND NDt NT eff.
  assert (NE : forall x f, f cur <> JUndefined -> eff x f <> JUndefined).
  { intros x f N. subst eff. cbv beta. destruct (truthy (Service.given x)) eqn:T;
      [|exact N]. intros E. rewrite E in T. discriminate. }
  assert (R : Service.docRef (JStr id) = Service.Ok id)
    by (destruct id; [contradiction|reflexivity]).
  assert (Rest : forall r : Service.result (list Service.doc),
             r = (if Service.holdsUndefined (Service.cleanUpdates u)
                  then Service.Throw Service.InvalidArgument
                  else match Service.updateDocFails b with
                       | Some msg => Service.Throw (Service.Unavailable msg)
                       | None =>
                           if existsb (fun d => String.eqb (Service.d_id d) id) store
                           then Service.Ok
                                  (map (fun d => if String.eqb (Service.d_id d) id
                                                 then Service.written
                                                        (Service.cleanUpdates u) d
                                                 else d) store)
                           else Service.Throw Service.NotFound
                       end) ->
             r <> Service.Throw Service.Booked).
  { intros r ->. destruct (Service.holdsUndefined _); [discriminate|].
    destruct (Service.updateDocFails b); [discriminate|].
    destruct (existsb _ store); discriminate. }
  unfold Service.updateWebAppointment, Service.updateCheck. rewrite R.
  destruct (truthy (Service.given (u_doctorId u)) || truthy (Service.given (u_date u))
            || truthy (Service.given (u_time u))) eqn:T.
  - rewrite GD, F. unfold Service.orCurrent.
    replace (if truthy (Service.given (u_doctorId u))
             then Service.Ok (Service.given (u_doctorId u))
             else Service.Ok (Service.d_doctorId cur))
      with (Service.Ok (eff (u_doctorId u) Service.d_doctorId))
      by (subst eff; cbv beta; now destruct (truthy (Service.given (u_doctorId u)))).
    replace (if truthy (Service.given (u_date u))
             then Service.Ok (Service.given (u_date u))
             else Service.Ok (Service.d_date cur))
      with (Service.Ok (eff (u_date u) Service.d_date))
      by (subst eff; cbv beta; now destruct (truthy (Service.given (u_date u)))).
    replace (if truthy (Service.given (u_time u))
             then Service.Ok (Service.given (u_time u))
             else Service.Ok (Service.d_time cur))
      with (Service.Ok (eff (u_time u) Service.d_time))
      by (subst eff; cbv beta; now destruct (truthy (Service.given (u_time u)))).
    rewrite (check_update b store _ _ _ id GS I (NE _ _ ND) (NE _ _ NDt) (NE _ _ NT)).
    destruct (existsb (fun d => negb _ && _) store) eqn:X.
    + split; [intros _|reflexivity]. split; [reflexivity|].
      apply existsb_exists in X as (d & In1 & P).
      apply andb_prop in P as [P Q]. exists d. split; [exact In1|]. split; [|exact Q].
      apply negb_true_iff in P. now apply String.eqb_neq in P.
    + split.
      * intros H. exfalso. revert H. now apply Rest.
      * intros (_ & d & In1 & P & Q). exfalso.
        rewrite existsb_false_iff in X. specialize (X d In1).
        apply String.eqb_neq in P. rewrite P, Q in X. discriminate.
  - split.
    + intros H. exfalso. revert H. now apply Rest.
    + intros (H & _). discriminate.
Qed.

Lemma update_is_refused_by_another_document_witness :
  let d1 := {| Service.d_id := "w1"; Service.d_patientId := JStr "p1";
               Service.d_patientName := JStr "Sara"; Service.d_doctorId := JStr "u1";
               Service.d_doctorName := JStr "Dr. D"; Service.d_date := JStr "2024-01-01";
               Service.d_time := JStr "09:00"; Service.d_status := JStr "scheduled";
               Service.d_notes := JStr "" |} in
  let d2 := {| Service.d_id := "w2"; Service.d_patientId := JStr "p2";
               Service.d_patientName := JStr "Omar"; Service.d_doctorId := JStr "u1";
               Service.d_doctorName := JStr "Dr. D"; Service.d_date := JStr "2024-01-01";
               Service.d_time := JStr "10:00"; Service.d_status := JStr "scheduled";
               Service.d_notes := JStr "" |} in
  let u := {| u_patientName := None; u_patientId := None; u_doctorId := None;
              u_doctorName := None; u_date := None; u_time := Some (JStr "09:00");
              u_status := None; u_notes := None |} in
  Service.updateWebAppointment Service.online [d1; d2] (JStr "w2") u
  = Service.Throw Service.Booked.
Proof.
  intros d1 d2 u.
  refine (proj2 (update_is_refused_by_another_document Service.online [d1; d2] "w2" u
                   d2 _ _ _ _ _ _ _) _).
  - reflexivity.
  - reflexivity.
  - discriminate.
  - reflexivity.
  - discriminate.
  - discriminate.
  - discriminate.
  - split; [reflexivity|]. exists d1. split; [now left|]. split; [discriminate|reflexivity].
Defined.

(** X26.  The two functions keep the times of the collection trimmed: if
    every time that is a string is trimmed, it is so after a
    [createWebAppointment] and after an [updateWebAppointment] that resolve,
    and the time of a created document is not empty. *)
Theorem service_keeps_times_trimmed (b : Service.Backend) (store : list Service.doc)
  (newId : string) (n : newAppointment) (appointmentId : jsval) (u : updates) :
  (forall d t, In d store -> Service.d_time d = JStr t -> trim t = t) ->
  (forall id store',
     Service.createWebAppointment b store newId n = Service.Ok (id, store') ->
     forall d t, In d store' -> Service.d_time d = JStr t -> trim t = t /\
       (~ In d store -> t <> ""))
  /\ (forall store',
        Service.updateWebAppointment b store appointmentId u = Service.Ok store' ->
        forall d t, In d store' -> Service.d_time d = JStr t -> trim t = t).
Proof.
  intros Inv. split.
  - intros id store'. unfold Service.createWebAppointment.
    destruct (Service.checkAppointmentConflict _ _ _ _ _ _) as [[|]|]; try discriminate.
    destruct (negb (truthy (n_time n))); cbn [orb]; [discriminate|].
    destruct (String.eqb_spec (trim (strOf (n_time n))) "") as [|NE]; [discriminate|].
    destruct (Service.addDocFails b); [discriminate|].
    intros H. injection H as <- <-. intros d t I E.
    apply in_app_or in I as [I|[<-|[]]].
    + split; [exact (Inv d t I E)|]. intros N. contradiction.
    + cbn in E. injection E as <-. split; [apply trim_trim|]. intros _. exact NE.
  - intros store'. unfold Service.updateWebAppointment.
    destruct (Service.updateCheck _ _ _ _); [|discriminate].
    destruct (Service.docRef appointmentId) as [id|]; [|discriminate].
    destruct (Service.holdsUndefined _); [discriminate|].
    destruct (Service.updateDocFails b); [discriminate|].
    destruct (existsb _ store); [|discriminate].
    intros H. injection H as <-. intros d t I E.
    apply in_map_iff in I as (d0 & <- & I).
    destruct (Service.d_id d0 =? id)%string; [|exact (Inv d0 t I E)].
    revert E. unfold Service.written, Service.cleanUpdates.
    cbn [Service.d_time u_time].
    destruct (u_time u) as [v|]; cbn [Service.given Service.setField].
    + destruct v as [| |s]; try discriminate.
      destruct s as [|c s].
      * intros E. injection E as <-. reflexivity.
      * intros E. injection E as <-. apply (trim_trim (String c s)).
    + intros E. exact (Inv d0 t I E).
Qed.

Lemma service_keeps_times_trimmed_witness :
  let n := {| n_patientId := JStr "p2"; n_patientName := JStr "Omar";
              n_doctorId := JStr "u1"; n_doctorName := JStr "Dr. D";
              n_date := JStr "2024-01-01"; n_time := JStr " 09:00 ";
              n_status := JStr "scheduled"; n_notes := JStr "" |} in
  Service.createWebAppointment Service.online [] "w1" n
  = Service.Ok ("w1", [Service.docOf "w1" n])
  /\ Service.d_time (Service.docOf "w1" n) = JStr "09:00"
  /\ trim "09:00" = "09:00".
Proof.
  intros n. split; [reflexivity|]. split; [reflexivity|].
  refine (proj1 (proj1 (service_keeps_times_trimmed Service.online [] "w1" n JNull
                  (ClerkActions.statusOnly JNull) _) "w1" [Service.docOf "w1" n] _
                  (Service.docOf "w1" n) "09:00" _ _)).
  - intros d' t' [].
  - reflexivity.
  - left. reflexivity.
  - reflexivity.
Defined.

(** X27.  From the service back to the dashboards: once
    [createWebAppointment] resolves, and the appointment is not cancelled,
    neither dashboard offers its normalised time for the doctor name and the
    date the document stores, on the appointments that
    [subscribeToWebAppointments] hands over. *)
Theorem created_appointment_holds_its_slot (h : JSDate.Host) (b : Service.Backend)
  (store : list Service.doc) (newId : string) (n : newAppointment)
  (doctors : list Doctor.t) (id : string) (store' : list Service.doc) :
  Service.createWebAppointment b store newId n = Service.Ok (id, store') ->
  truthy (n_date n) = true ->
  n_status n <> JStr "cancelled" -> n_status n <> JStr "Cancelled" ->
  let a := Service.docOf newId n in
  let t := normalize (strOf (Service.d_time a)) in
  t <> "" ->
  let shown := map Service.appointmentOf store' in
  ~ In t (Clerk.availableSlots h doctors shown (Service.d_doctorName a)
            (Service.d_date a))
  /\ ~ In t (Chief.availableSlots h doctors shown JUndefined (Service.d_doctorName a)
               (Service.d_date a)).
Proof.
  intros C TD S1 S2 a t NE shown.
  assert (S' : store' = (store ++ [a])%list).
  { revert C. unfold Service.createWebAppointment.
    destruct (Service.checkAppointmentConflict _ _ _ _ _ _) as [[|]|]; try discriminate.
    destruct (negb (truthy (n_time n)) || _); [discriminate|].
    destruct (Service.addDocFails b); [discriminate|].
    intros H. now injection H as <- <-. }
  assert (I : In (Service.appointmentOf a) shown).
  { subst shown. rewrite S'. apply in_map, in_or_app. right. now left. }
  assert (D : Service.d_date a = n_date n) by (cbn; unfold jsOr; now rewrite TD).
  assert (NT : Spec.normalTime (Service.appointmentOf a) = t).
  { subst t. unfold Spec.normalTime. cbn. unfold jsOr.
    destruct (truthy (JStr (trim (strOf (n_time n))))) eqn:T; [reflexivity|].
    destruct (trim (strOf (n_time n))); [reflexivity|discriminate]. }
  assert (M : matchesDoctor (findDoctor doctors (Service.d_doctorName a))
                (Service.d_doctorName a) (Service.appointmentOf a) = true).
  { unfold matchesDoctor. cbn [Service.appointmentOf Appointment.doctor
                                 Appointment.doctorName].
    change (jsOr JUndefined ?x) with x. now rewrite strictEq_refl. }
  assert (NC : notCancelled (Service.appointmentOf a) = true).
  { unfold notCancelled. cbn. unfold jsOr.
    destruct (truthy (n_status n)); [|reflexivity].
    now rewrite !(proj2 (strictEq_false _ _)). }
  assert (TD' : truthy (Service.d_date a) = true) by now rewrite D.
  split.
  - unfold Clerk.availableSlots, Clerk.booked. rewrite TD'. cbn [negb].
    rewrite free_iff_not_held. intros [_ F].
    apply (F _ I); [|now rewrite NT|exact NT].
    now rewrite M, NC, strictEq_refl.
  - unfold Chief.availableSlots, Chief.booked.
    rewrite free_iff_not_held. intros [_ F].
    apply (F _ I); [|now rewrite NT|exact NT].
    now rewrite M, NC, strictEq_refl.
Qed.

Lemma created_appointment_holds_its_slot_witness :
  let n := {| n_patientId := JStr "p2"; n_patientName := JStr "Omar";
              n_doctorId := JStr "u1"; n_doctorName := JStr "Dr. D";
              n_date := JStr "2024-01-01"; n_time := JStr "09:30";
              n_status := JStr "Scheduled"; n_notes := JStr "" |} in
  ~ In "09:30" (Clerk.availableSlots (Scenario.hostAt 3) [Scenario.doctorD]
                  (map Service.appointmentOf [Service.docOf "w1" n]) (JStr "Dr. D")
                  (JStr "2024-01-01")).
Proof.
  intros n.
  refine (proj1 (created_appointment_holds_its_slot (Scenario.hostAt 3) Service.online
                   [] "w1" n [Scenario.doctorD] "w1" [Service.docOf "w1" n]
                   _ _ _ _ _)).
  - reflexivity.
  - reflexivity.
  - discriminate.
  - discriminate.
  - discriminate.
Defined.

(** ** The utilisation table *)

Lemma rows_cells (doctors : list Doctor.t) (appointments : list Appointment.t)
  (now : Z) (name department : jsval) (cells : list Utilization.cell)
  (c : Utilization.cell) :
  In (name, department, cells) (Utilization.utilizationRows doctors appointments now) ->
  In c cells ->
  exists doc d, In doc doctors /\ name = Doctor.name doc
                /\ In d (Utilization.next7Days now)
                /\ c = Utilization.cellOf appointments doc d.
Proof.
  intros I C. unfold Utilization.utilizationRows in I.
  apply in_map_iff in I as (doc & E & I).
  assert (E1 : name = Doctor.name doc) by congruence.
  assert (E2 : cells = map (Utilization.cellOf appointments doc)
                         (Utilization.next7Days now)) by congruence.
  subst cells. apply in_map_iff in C as (d & <- & D).
  exists doc, d. auto.
Qed.

(** X28.  The utilisation table counts [a.doctor === doc.name], and the
    documents of the service carry [doctorName], no [doctor]: on the
    appointments that come from the collection every cell of a doctor who
    has a name shows no appointment and 0 percent. *)
Theorem utilisation_ignores_service_documents (doctors : list Doctor.t)
  (store : list Service.doc) (now : Z) :
  (forall doc, In doc doctors -> Doctor.name doc <> JUndefined) ->
  forall name department cells c,
    In (name, department, cells)
       (Utilization.utilizationRows doctors (map Service.appointmentOf store) now) ->
    In c cells ->
    Utilization.filled c = 0 /\ Utilization.pct c = 0%Z.
Proof.
  intros N name department cells c I C.
  destruct (rows_cells _ _ _ _ _ _ _ I C) as (doc & d & I' & _ & _ & ->).
  clear I C. rename I' into I.
  assert (F : filter (fun a => strictEq (Appointment.doctor a) (Doctor.name doc)
                               && strictEq (Appointment.date a) d)
                (map Service.appointmentOf store) = []).
  { induction store as [|x l IH]; [reflexivity|].
    cbn [map filter Service.appointmentOf Appointment.doctor].
    rewrite (proj2 (strictEq_false JUndefined (Doctor.name doc))); [cbn [andb]; exact IH|].
    intros E. apply (N doc I). now symmetry. }
  unfold Utilization.cellOf. rewrite F.
  cbn [Utilization.filled Utilization.pct List.length]. split; [reflexivity|].
  unfold Utilization.percent.
  destruct (Nat.eqb (Utilization.slotsPerDay doc) 0) eqn:Z0.
  - reflexivity.
  - apply Nat.eqb_neq in Z0. apply Z.div_small. lia.
Qed.

Lemma utilisation_ignores_service_documents_witness :
  let n := {| n_patientId := JStr "p2"; n_patientName := JStr "Omar";
              n_doctorId := JStr "u1"; n_doctorName := JStr "Dr. D";
              n_date := JStr "2024-01-01"; n_time := JStr "09:30";
              n_status := JStr "Scheduled"; n_notes := JStr "" |} in
  let c := Utilization.cellOf (map Service.appointmentOf [Service.docOf "w1" n])
             Scenario.doctorD (JStr "2024-01-01") in
  Utilization.filled c = 0 /\ Utilization.pct c = 0%Z.
Proof.
  intros n c.
  refine (utilisation_ignores_service_documents [Scenario.doctorD]
            [Service.docOf "w1" n] 1704067200000 _ (JStr "Dr. D") (JStr "Oncology")
            (map (Utilization.cellOf (map Service.appointmentOf [Service.docOf "w1" n])
                    Scenario.doctorD) (Utilization.next7Days 1704067200000))
            c _ _).
  - intros doc [<-|[]]. discriminate.
  - left. reflexivity.
  - left. reflexivity.
Defined.

Lemma slotsPerDay_values (doc : Doctor.t) :
  (strictEq (Doctor.name doc) (JStr "Dr. Omar Khaled")
   || strictEq (Doctor.name doc) (JStr "Dr. Lina Yousef") = true ->
   Utilization.slotsPerDay doc = 4)
  /\ (StaticTable.lookup (Doctor.name doc) = StaticTable.Missing ->
      Utilization.slotsPerDay doc = 0)
  /\ (Utilization.slotsPerDay doc = 4 \/ Utilization.slotsPerDay doc = 2
      \/ Utilization.slotsPerDay doc = 1 \/ Utilization.slotsPerDay doc = 0).
Proof.
  unfold Utilization.slotsPerDay. split; [|split].
  - unfold StaticTable.lookup, Clerk.doctorSlots.
    destruct (Doctor.name doc) as [| |s]; try discriminate.
    cbn [prop toString strictEq].
    rewrite (String.eqb_sym s "Dr. Omar Khaled"), (String.eqb_sym s "Dr. Lina Yousef").
    destruct ("Dr. Omar Khaled" =? s)%string; [reflexivity|].
    destruct ("Dr. Lina Yousef" =? s)%string; [reflexivity|discriminate].
  - now intros ->.
  - unfold StaticTable.lookup, Clerk.doctorSlots, StaticTable.objectPrototype.
    cbn [prop].
    repeat match goal with
           | |- context [String.eqb ?a ?b] => destruct (String.eqb a b)
           end; cbn [List.length]; auto.
Qed.

Lemma percent_values (f : nat) :
  Utilization.percent f 4 = (25 * Z.of_nat f)%Z
  /\ Utilization.percent f 2 = (50 * Z.of_nat f)%Z
  /\ Utilization.percent f 1 = (100 * Z.of_nat f)%Z.
Proof.
  unfold Utilization.percent.
  change (Z.of_nat 4) with 4%Z. change (Z.of_nat 2) with 2%Z.
  change (Z.of_nat 1) with 1%Z.
  repeat split; Z.div_mod_to_equations; lia.
Qed.

(** X29.  The percentage of a cell is exact and unbounded: the total is 4
    for the two doctors of the table [doctorSlots], 1 for a doctor for whose
    name the table has nothing, and 4, 2 or 1 for every doctor; the cell
    shows the number of appointments times 100, divided by the total without
    a remainder, which is above 100 from the second appointment of a doctor
    outside the table. *)
Theorem utilisation_percent (doctors : list Doctor.t)
  (appointments : list Appointment.t) (now : Z) (name department : jsval)
  (cells : list Utilization.cell) (c : Utilization.cell) :
  In (name, department, cells) (Utilization.utilizationRows doctors appointments now) ->
  In c cells ->
  (Utilization.pct c * Z.of_nat (Utilization.total c)
   = 100 * Z.of_nat (Utilization.filled c))%Z
  /\ (Utilization.total c = 4 \/ Utilization.total c = 2 \/ Utilization.total c = 1)
  /\ (strictEq name (JStr "Dr. Omar Khaled") || strictEq name (JStr "Dr. Lina Yousef")
      = true ->
      Utilization.total c = 4
      /\ Utilization.pct c = (25 * Z.of_nat (Utilization.filled c))%Z)
  /\ (StaticTable.lookup name = StaticTable.Missing ->
      Utilization.total c = 1
      /\ Utilization.pct c = (100 * Z.of_nat (Utilization.filled c))%Z).
Proof.
  intros I C.
  destruct (rows_cells _ _ _ _ _ _ _ I C) as (doc & d & _ & -> & _ & ->).
  unfold Utilization.cellOf.
  cbn [Utilization.filled Utilization.pct Utilization.total].
  set (f := List.length _). clearbody f.
  destruct (slotsPerDay_values doc) as (T & M & V).
  destruct (percent_values f) as (P4 & P2 & P1).
  split; [|split; [|split]].
  - destruct V as [-> | [-> | [-> | ->]]]; cbn [Nat.eqb];
      rewrite ?P4, ?P2, ?P1; lia.
  - destruct V as [-> | [-> | [-> | ->]]]; cbn [Nat.eqb]; auto.
  - intros N. rewrite (T N). cbn [Nat.eqb]. split; [reflexivity|exact P4].
  - intros N. rewrite (M N). cbn [Nat.eqb]. split; [reflexivity|exact P1].
Qed.

Lemma utilisation_percent_witness :
  let a := formD (JStr "a1") (JStr "09:00") in
  let c := Utilization.cellOf [a; a] Scenario.doctorD (JStr "2024-01-01") in
  Utilization.total c = 1 /\ Utilization.pct c = 200%Z
  /\ Utilization.pct c = (100 * Z.of_nat (Utilization.filled c))%Z.
Proof.
  intros a c.
  destruct (utilisation_percent [Scenario.doctorD] [a; a] 1704067200000 (JStr "Dr. D")
              (JStr "Oncology")
              (map (Utilization.cellOf [a; a] Scenario.doctorD)
                 (Utilization.next7Days 1704067200000)) c)
    as (_ & _ & _ & M).
  - left. reflexivity.
  - left. reflexivity.
  - destruct (M eq_refl) as [T P]. split; [exact T|]. split; [reflexivity|exact P].
Defined.
